(** * fred-database: incremental extraction and long-to-wide denormalisation

    A shallow embedding of the repository's two extraction paths and of its
    transform script, followed by the properties proved about them.

    - [ExtractScript]  : scripts/extract_fred_data.py  (tables of src/setup_database.py)
    - [Transform]      : scripts/transform_fred_data.py
    - [Package]        : src/database.py and src/fred_extractor.py

    Representation choices, shared by all modules.

    - A calendar date is stored by the code as ISO-8601 text (YYYY-MM-DD,
      produced by [str(date.date())], [isoformat()] and [strftime]).  On such
      text SQLite's MAX, pandas' [sort_index] and label slicing compare
      chronologically, and [strptime]/[strftime] are inverse to each other, so
      a date is modelled by its proleptic Gregorian ordinal, a [Z];
      [+ timedelta(days=1)] is [+ 1].  [ordinal] below is Python's
      [date(y, m, d).toordinal()], used to write concrete dates; the
      section [calendar] relates it to civil dates.
    - A numeric value is an IEEE double ([float]); Python's [None] and the
      double NaN are kept apart ([pyval]) up to the point where sqlite3 binds a
      parameter, which stores both as NULL.  A nullable REAL cell, and a cell
      of a pandas float frame (NaN = missing), is an [option float].
    - A raised Python exception is [Raise msg], [msg] being [str(e)].
    - Console output is not modelled. *)

From Stdlib Require Import ZArith Floats.
From stdpp Require Import gmap strings list fin_maps sorting pretty.

Local Open Scope Z_scope.

(** ** Python values and control *)

Inductive pyval : Type :=
  | PyNone
  | PyFloat (f : float).

(** What a REAL column holds after sqlite3 bound a parameter to it: [None]
    is NULL, a NaN double is stored as NULL as well, and a negative zero
    comes back as 0.0 (SQLite keeps a double that is a whole number as an
    integer); every other double comes back as it is. *)
Definition bind_real (p : pyval) : option float :=
  match p with
  | PyNone => None
  | PyFloat f =>
      if PrimFloat.is_nan f then None
      else match PrimFloat.classify f with
           | NZero => Some 0%float
           | _ => Some f
           end
  end.

Inductive result (A : Type) : Type :=
  | Ok (a : A)
  | Raise (msg : string).
Arguments Ok {A} a.
Arguments Raise {A} msg.

(** Code that reads and writes a state [S] and may raise. *)
Definition prog (S A : Type) : Type := S → result A * S.

Definition ret {S A} (a : A) : prog S A := λ s, (Ok a, s).
Definition bind {S A B} (m : prog S A) (k : A → prog S B) : prog S B :=
  λ s, match m s with
       | (Ok a, s') => k a s'
       | (Raise e, s') => (Raise e, s')
       end.
Definition raise {S A} (msg : string) : prog S A := λ s, (Raise msg, s).
(** [try: body except Exception as e: handler]: what [body] wrote before
    raising stays written. *)
Definition try_except {S A} (body : prog S A) (handler : string → prog S A) : prog S A :=
  λ s, match body s with
       | (Ok a, s') => (Ok a, s')
       | (Raise e, s') => handler e s'
       end.
(** [for x in xs: body x]; a raise leaves the loop. *)
Fixpoint for_each {S A} (xs : list A) (body : A → prog S unit) : prog S unit :=
  match xs with
  | [] => ret tt
  | x :: xs' => bind (body x) (λ _, for_each xs' body)
  end.

#[export] Instance prog_ret {S} : MRet (prog S) := @ret S.
#[export] Instance prog_bind {S} : MBind (prog S) := λ A B k m, bind m k.

(** Python's [date(y, m, d).toordinal()] (datetime's [_ymd2ord]). *)
Definition is_leap (y : Z) : bool :=
  (y mod 4 =? 0) && (negb (y mod 100 =? 0) || (y mod 400 =? 0)).

Definition days_before_year (y : Z) : Z :=
  let y1 := y - 1 in y1 * 365 + y1 / 4 - y1 / 100 + y1 / 400.

Definition days_before_month (y m : Z) : Z :=
  nth (Z.to_nat m) [0; 0; 31; 59; 90; 120; 151; 181; 212; 243; 273; 304; 334] 0
  + (if (2 <? m) && is_leap y then 1 else 0).

Definition ordinal (y m d : Z) : Z :=
  days_before_year y + days_before_month y m + d.

(** Python's [_days_in_month], the dates [datetime.date] accepts, and the
    civil date one day later. *)
Definition days_in_month (y m : Z) : Z :=
  if (m =? 2) && is_leap y then 29
  else nth (Z.to_nat m) [0; 31; 28; 31; 30; 31; 30; 31; 31; 30; 31; 30; 31] 0.

Definition valid_date (y m d : Z) : Prop :=
  1 ≤ m ≤ 12 ∧ 1 ≤ d ≤ days_in_month y m.

Definition tomorrow (y m d : Z) : Z * Z * Z :=
  if d <? days_in_month y m then (y, m, d + 1)
  else if m <? 12 then (y, m + 1, 1)
  else (y + 1, 1, 1).

(** The text of a date, [date.isoformat()]: '%04d-%02d-%02d'. *)
Definition digit (n : Z) : Ascii.ascii := Ascii.ascii_of_nat (48 + Z.to_nat n).

Definition pad2 (n : Z) : string :=
  String (digit (n / 10)) (String (digit (n mod 10)) EmptyString).

Definition pad4 (n : Z) : string :=
  String (digit (n / 1000)) (String (digit (n / 100 mod 10)) (pad2 (n mod 100))).

Definition isoformat (y m d : Z) : string :=
  pad4 y +:+ "-" +:+ pad2 m +:+ "-" +:+ pad2 d.

(** Comparison in lexicographic order: by [c], then by [rest]. *)
Definition then_compare (c : comparison) (rest : comparison) : comparison :=
  match c with Eq => rest | _ => c end.

(** ** scripts/extract_fred_data.py *)
Module ExtractScript.

(** Row of [series_metadata] without its key [id]. *)
Record series_info : Type := SeriesInfo {
  title : string;
  frequency : string;
  units : string;
  last_updated : string;
}.

(** Row of [fred_data_long]; the list of rows is kept in rowid order. *)
Record long_row : Type := LongRow {
  series_id : string;
  date : Z;
  value : option float;
}.

(** Row of [extraction_log]. *)
Record log_row : Type := LogRow {
  log_series_id : string;
  extracted_at : string;
  status : string;
  message : string;
}.

Record database : Type := Database {
  series_metadata : gmap string series_info;   (* id TEXT PRIMARY KEY *)
  fred_data_long : list long_row;              (* UNIQUE(series_id, date) *)
  extraction_log : list log_row;               (* append only *)
}.

(** Requests sent to the provider, oldest first. *)
Inductive call : Type :=
  | GetSeries (sid : string) (observation_start : Z)
  | GetSeriesInfo (sid : string).

(** The external collaborators: the fredapi client (whose answers may
    depend on everything requested before) and the clock. *)
Record environment : Type := Environment {
  fred_get_series : list call → string → Z → result (list (Z * pyval));
  fred_get_series_info : list call → string → result series_info;
  utcnow : nat → string;
}.

Record world : Type := World {
  db : database;
  calls : list call;
}.

(** Code of this script runs over the store (through the cursor) and the
    provider. *)
Abbreviation M := (prog world).

Definition read_db : M database := λ w, (Ok (db w), w).
Definition write_db (f : database → database) : M unit :=
  λ w, (Ok tt, World (f (db w)) (calls w)).

Section with_environment.
Context (env : environment).

Definition call_get_series (sid : string) (start : Z) : M (list (Z * pyval)) :=
  λ w, (fred_get_series env (calls w) sid start,
        World (db w) (calls w ++ [GetSeries sid start])).

Definition call_get_series_info (sid : string) : M series_info :=
  λ w, (fred_get_series_info env (calls w) sid,
        World (db w) (calls w ++ [GetSeriesInfo sid])).

(** [INSERT OR REPLACE INTO series_metadata]: [id] is the primary key. *)
Definition replace_metadata (sid : string) (info : series_info)
    (d : database) : database :=
  Database (<[sid := info]> (series_metadata d)) (fred_data_long d)
           (extraction_log d).

Definition upsert_series_metadata (sid : string) : M unit :=
  try_except
    (info ← call_get_series_info sid;
     write_db (replace_metadata sid info))
    (λ e, mret tt).

Definition same_key (sid : string) (d : Z) (r : long_row) : bool :=
  bool_decide (series_id r = sid ∧ date r = d).

(** [INSERT OR REPLACE INTO fred_data_long]: the row that holds the same
    (series_id, date) is deleted, the new row gets a fresh rowid. *)
Definition replace_long (r : long_row) (t : list long_row) : list long_row :=
  filter (λ r', ¬ same_key (series_id r) (date r) r') t ++ [r].

Definition insert_observation (sid : string) (item : Z * pyval)
    (d : database) : database :=
  let param := match item.2 with
               | PyNone => PyNone          (* ... else None *)
               | PyFloat f => PyFloat f    (* float(value) *)
               end in
  Database (series_metadata d)
           (replace_long (LongRow sid item.1 (bind_real param)) (fred_data_long d))
           (extraction_log d).

Definition insert_observations (sid : string) (data : list (Z * pyval)) : M unit :=
  write_db (λ d, foldl (λ d item, insert_observation sid item d) d data).

(** [INSERT INTO extraction_log]; [extracted_at] is the clock's reading. *)
Definition append_log (sid status message : string) (d : database) : database :=
  Database (series_metadata d) (fred_data_long d)
           (extraction_log d ++
              [LogRow sid (utcnow env (length (extraction_log d))) status message]).

Definition log_extraction (sid status message : string) : M unit :=
  write_db (append_log sid status message).

(** [SELECT MAX(date) FROM fred_data_long WHERE series_id = ?]. *)
Definition select_max_date (sid : string) (t : list long_row) : option Z :=
  foldl (λ acc r,
           if bool_decide (series_id r = sid)
           then Some (match acc with Some m => Z.max m (date r) | None => date r end)
           else acc)
        None t.

Definition get_latest_date (sid : string) : M (option Z) :=
  d ← read_db;
  mret (select_max_date sid (fred_data_long d)).

(** Lines 63-69 of [extract_and_store]: the start date of the next fetch. *)
Definition next_start_date (sid : string) (default_start_date : Z) : M Z :=
  latest_date ← get_latest_date sid;
  mret (match latest_date with
        | Some latest => latest + 1
        | None => default_start_date
        end).

(** The date [next_start_date] returns in world [w]. *)
Definition start_of (sid : string) (default_start_date : Z) (w : world) : Z :=
  match select_max_date sid (fred_data_long (db w)) with
  | Some latest => latest + 1
  | None => default_start_date
  end.

Definition extract_and_store (sid : string) (default_start_date : Z) : M unit :=
  try_except
    (start_date ← next_start_date sid default_start_date;
     data ← call_get_series sid start_date;
     _ ← upsert_series_metadata sid;
     _ ← insert_observations sid data;
     log_extraction sid "success" (pretty (length data) +:+ " records"))
    (λ e, log_extraction sid "error" e).

(** [main]: every series of every category in catalog order, a catalog
    entry being the series id (the first word of the YAML item); the commit
    after each series makes its writes durable. *)
Definition main (start_date : Z) (common_series : list (string * list string)) : M unit :=
  λ w, (Ok tt,
        foldl (λ w sid, (extract_and_store sid start_date w).2) w
              (concat (common_series.*2))).

End with_environment.
End ExtractScript.

(** ** src/setup_database.py *)
Module Setup.
(** The dates [setup_database] puts into [date_shell]: every day from
    2018-01-01 to 2030-12-31. *)
Definition date_shell : list Z :=
  let start := ordinal 2018 1 1 in
  let end_ := ordinal 2030 12 31 in
  let days := end_ - start + 1 in
  (λ i, start + i) <$> seqZ 0 days.
End Setup.

(** ** Column names of [fred_data_wide], as SQLite takes them *)
Module ColumnNames.

(** SQLite compares column names without regard to the case of the
    letters A-Z, and the script writes a name between double quotes as it
    is. *)
Definition lower_char (a : Ascii.ascii) : Ascii.ascii :=
  let n := Ascii.nat_of_ascii a in
  if ((65 <=? n) && (n <=? 90))%nat then Ascii.ascii_of_nat (n + 32) else a.

Fixpoint lower (s : string) : string :=
  match s with
  | EmptyString => EmptyString
  | String a s' => String (lower_char a) (lower s')
  end.

Fixpoint has_quote (s : string) : bool :=
  match s with
  | EmptyString => false
  | String a s' => (Ascii.nat_of_ascii a =? 34)%nat || has_quote s'
  end.

(** Names for which comparing exactly, as [ensure_columns] does, agrees
    with SQLite: none holds a double quote, and no two differ only in the
    case of their letters. *)
Definition plain_names (l : list string) : Prop :=
  Forall (λ c, has_quote c = false ∧ Forall (λ c', lower c = lower c' → c = c') l) l.

#[export] Instance plain_names_dec l : Decision (plain_names l).
Proof. unfold plain_names. apply _. Defined.

End ColumnNames.

(** ** scripts/transform_fred_data.py *)
Module Transform.

(** A row of the frame read from [fred_data_long]: (date, series_id, value). *)
Abbreviation obs := (Z * string * option float)%type.

Definition obs_date (r : obs) : Z := r.1.1.
Definition obs_series (r : obs) : string := r.1.2.
Definition obs_value (r : obs) : option float := r.2.
Definition obs_key (r : obs) : Z * string := r.1.

(** A wide frame: its column labels, and its rows in index order, each the
    date label with the non-missing cells of the row (a missing cell, NaN in
    pandas, has no entry; a cell [Some v] is a value that is not missing). *)
Record frame : Type := Frame {
  columns : list string;
  rows : list (Z * gmap string float);
}.

(** [df.drop_duplicates(subset=["date", "series_id"], keep="last")]. *)
Fixpoint drop_duplicates (df : list obs) : list obs :=
  match df with
  | [] => []
  | r :: df' =>
      if bool_decide (obs_key r ∈ obs_key <$> df')
      then drop_duplicates df'
      else r :: drop_duplicates df'
  end.

Definition string_le (a b : string) : Prop := String.leb a b.
#[export] Instance string_le_dec : RelDecision string_le :=
  λ a b, decide (Is_true (String.leb a b)).

(** The cells of the pivot's row for date [d]. *)
Definition pivot_row (d : Z) (df : list obs) : gmap string float :=
  list_to_map
    (omap (λ r, if bool_decide (obs_date r = d)
                then (λ v, (obs_series r, v)) <$> obs_value r
                else None) df).

(** [df.pivot(index="date", columns="series_id", values="value")]: the index
    and the columns are the sorted distinct dates and series ids; a key
    that occurs twice is a ValueError. *)
Definition pivot (df : list obs) : result frame :=
  if bool_decide (NoDup (obs_key <$> df)) then
    Ok (Frame (merge_sort string_le (remove_dups (obs_series <$> df)))
              ((λ d, (d, pivot_row d df)) <$>
                 merge_sort Z.le (remove_dups (obs_date <$> df))))
  else Raise "Index contains duplicate entries, cannot reshape".

Definition fred_col (col : string) : string := "fred_" +:+ col.

(** [wide_df.columns = [f"fred_{col}" for col in wide_df.columns]]. *)
Definition rename_row (row : gmap string float) : gmap string float :=
  kmap (M1 := gmap string) (M2 := gmap string) fred_col row.

Definition rename_columns (f : frame) : frame :=
  Frame (fred_col <$> columns f) ((λ r, (r.1, rename_row r.2)) <$> rows f).

(** [wide_df.reindex(date_shell_df['date'])]: one row per label of the new
    index, all cells missing where the old index has no such label. *)
Definition reindex (shell : list Z) (f : frame) : frame :=
  Frame (columns f)
        ((λ d, (d, default ∅ ((list_to_map (rows f) : gmap Z (gmap string float)) !! d)))
           <$> shell).

Definition index_le (r1 r2 : Z * gmap string float) : Prop := r1.1 ≤ r2.1.
#[export] Instance index_le_dec : RelDecision index_le :=
  λ r1 r2, decide (r1.1 ≤ r2.1).

Definition sort_index (f : frame) : frame :=
  Frame (columns f) (merge_sort index_le (rows f)).

(** [ffill]: in every column a missing cell takes the last value above it. *)
Fixpoint ffill_rows (prev : gmap string float) (rs : list (Z * gmap string float))
    : list (Z * gmap string float) :=
  match rs with
  | [] => []
  | (d, r) :: rs' => let r' := r ∪ prev in (d, r') :: ffill_rows r' rs'
  end.

Definition ffill (f : frame) : frame :=
  Frame (columns f) (ffill_rows ∅ (rows f)).

(** [.loc[:today]] on the sorted index: the rows labelled up to [today]. *)
Definition loc_until (today : Z) (f : frame) : frame :=
  Frame (columns f) (filter (λ r, r.1 ≤ today) (rows f)).

(** [today] is [pd.Timestamp.today()] read when the function runs. *)
Definition denormalize_observations (today : Z) (df : list obs) (date_shell : list Z)
    : result frame :=
  let df := drop_duplicates df in
  match pivot df with
  | Raise e => Raise e
  | Ok wide_df =>
      let wide_df := rename_columns wide_df in
      let wide_df := reindex date_shell wide_df in
      let wide_df := sort_index wide_df in
      Ok (loc_until today (ffill wide_df))
  end.

(** Vocabulary for the statements about [denormalize_observations]: the
    cells the row of date [d] holds after the pivot and the renaming, before
    the rows are sorted and filled. *)
Definition cells_of (df : list obs) (d : Z) : gmap string float :=
  rename_row (pivot_row d (drop_duplicates df)).

(** The table [fred_data_wide]: its column names as [PRAGMA table_info]
    lists them, and its rows by their primary key [date]; a NULL cell has
    no entry in its row. *)
Record wide_table : Type := WideTable {
  table_columns : list string;
  table_rows : gmap Z (gmap string float);
}.

(** [ALTER TABLE fred_data_wide ADD COLUMN "col" REAL]; it fails when the
    table has the column.  Column names are compared as Python compares
    them, exactly: this is what SQLite does for the names of
    [ColumnNames.plain_names], and the statements below that need a column
    to be added are made for such names. *)
Definition add_column (col : string) : prog wide_table unit :=
  λ t, if bool_decide (col ∈ table_columns t)
       then (Raise ("duplicate column name: " +:+ col), t)
       else (Ok tt, WideTable (table_columns t ++ [col]) (table_rows t)).

Definition ensure_columns (cols : list string) : prog wide_table unit :=
  λ t, let existing_cols := table_columns t in
       for_each cols
         (λ col, if bool_decide (col ∈ existing_cols) then mret tt else add_column col)
         t.

(** The cells of a stored row after [SET "col"=excluded."col"] for every
    column of the frame, [excluded] holding [row[col]], NULL where that is
    missing. *)
Definition set_cells (cols : list string) (row stored : gmap string float)
    : gmap string float :=
  foldl (λ m col, match row !! col with
                  | Some v => <[col := v]> m
                  | None => delete col m
                  end) stored cols.

(** [INSERT INTO fred_data_wide ("date", cols...) VALUES (...)
     ON CONFLICT(date) DO UPDATE SET ...], for frame columns that are
    [ColumnNames.plain_names] and none of them the key column [date]. *)
Definition execute_upsert (cols : list string) (date : Z) (row : gmap string float)
    : prog wide_table unit :=
  λ t, if bool_decide (cols = [])
       then (Raise "incomplete input", t)
       else if bool_decide (cols ⊆ table_columns t)
       then (Ok tt,
             WideTable (table_columns t)
               (<[date := set_cells cols row (default ∅ (table_rows t !! date))]>
                  (table_rows t)))
       else (Raise "table fred_data_wide has no column named", t).

(** The frame's column labels are distinct (pandas gives [row[col]] as a
    single cell only then). *)
Definition upsert_wide_table (wide_df : frame) : prog wide_table unit :=
  _ ← ensure_columns (columns wide_df);
  for_each (rows wide_df)
    (λ '(date, row), execute_upsert (columns wide_df) date row).

(** Vocabulary for the statements about [upsert_wide_table]: the rows of
    the table after the upserts of the frame's rows, and the value stored
    for a date and a column, if any. *)
Definition upsert_rows (cols : list string) (rs : list (Z * gmap string float))
    (m : gmap Z (gmap string float)) : gmap Z (gmap string float) :=
  foldl (λ m r, <[r.1 := set_cells cols r.2 (default ∅ (m !! r.1))]> m) m rs.

Definition cell (m : gmap Z (gmap string float)) (d : Z) (c : string) : option float :=
  m !! d ≫= (.!! c).

End Transform.

(** ** src/database.py and src/fred_extractor.py *)
Module Package.

(** A JSON object of the provider's answer, its scalars as text. *)
Abbreviation json_object := (gmap string string).

(** Row of [series_metadata]: [id] and the twelve other inserted columns. *)
Record metadata_row : Type := MetadataRow {
  id : option string;
  fields : list (option string);
}.

Definition metadata_fields : list string :=
  ["title"; "observation_start"; "observation_end"; "frequency";
   "frequency_short"; "units"; "units_short"; "seasonal_adjustment";
   "seasonal_adjustment_short"; "last_updated"; "popularity"; "notes"]%string.

(** Row of [observations]; the list is kept in rowid order. *)
Record observation_row : Type := ObservationRow {
  series_id : string;
  date : option string;
  value : option string;
  realtime_start : option string;
  realtime_end : option string;
}.

(** Row of [extraction_log]. *)
Record log_row : Type := LogRow {
  log_series_id : string;
  status : string;
  records_extracted : nat;
  error_message : option string;
}.

Record database : Type := Database {
  series_metadata : list metadata_row;     (* id TEXT PRIMARY KEY *)
  observations : list observation_row;     (* UNIQUE(series_id, date, realtime_start, realtime_end) *)
  extraction_log : list log_row;
}.

(** Parameters of a request, as [_make_request] receives them. *)
Record request : Type := Request {
  endpoint : string;
  param_series_id : string;
  observation_start : option string;
  observation_end : option string;
}.

(** The keys of the answer the code reads. *)
Record response : Type := Response {
  seriess : option (list json_object);
  observations_of : option (list json_object);
}.

(** The external collaborators: the HTTP endpoint behind [_make_request]
    (whose answers may depend on everything requested before), and whether
    the store accepts the metadata write. *)
Record environment : Type := Environment {
  http_get : list request → request → result response;
  metadata_write_ok : json_object → bool;
}.

Record world : Type := World {
  db : database;
  requests : list request;
}.

Abbreviation M := (prog world).

Definition read_db : M database := λ w, (Ok (db w), w).
Definition write_db (f : database → database) : M unit :=
  λ w, (Ok tt, World (f (db w)) (requests w)).

(** Vocabulary for the statements about [extract_series]: whether the call
    returns at once because the series is stored and [force_update] is off;
    the world with one more row in [extraction_log]; the request
    [get_series_info] sends. *)
Definition skipped (sid : string) (force_update : bool) (w : world) : bool :=
  bool_decide (Some sid ∈ remove_dups (id <$> series_metadata (db w))) && negb force_update.

Definition add_log (sid status : string) (n : nat) (msg : option string) (w : world) : world :=
  World (Database (series_metadata (db w)) (observations (db w))
                  (extraction_log (db w) ++ [LogRow sid status n msg]))
        (requests w).

Definition info_request (sid : string) : request := Request "series" sid None None.

(** The JSON object the provider sends for one observation. *)
Definition observation_json (date value realtime_start realtime_end : string)
    : json_object :=
  {[ "date" := date; "value" := value;
     "realtime_start" := realtime_start; "realtime_end" := realtime_end ]}.

Section with_environment.
Context (env : environment).

(** *** database.py *)

(** [INSERT OR REPLACE INTO series_metadata]: the row with the same non-NULL
    [id] is deleted, the new row is added. *)
Definition replace_metadata (series_data : json_object) (d : database) : database :=
  let new_id := series_data !! "id" in
  Database
    (filter (λ r, ¬ (is_Some new_id ∧ id r = new_id)) (series_metadata d)
       ++ [MetadataRow new_id ((λ k, series_data !! k) <$> metadata_fields)])
    (observations d) (extraction_log d).

(** Returns [True], or [False] when the store raised. *)
Definition insert_series_metadata (series_data : json_object) : M bool :=
  if metadata_write_ok env series_data then
    _ ← write_db (replace_metadata series_data);
    mret true
  else mret false.

(** The uniqueness constraint of [observations]; SQLite never takes two
    NULLs for equal. *)
Definition conflicts (r r' : observation_row) : Prop :=
  series_id r' = series_id r ∧
  is_Some (date r) ∧ date r' = date r ∧
  is_Some (realtime_start r) ∧ realtime_start r' = realtime_start r ∧
  is_Some (realtime_end r) ∧ realtime_end r' = realtime_end r.

#[export] Instance conflicts_dec r r' : Decision (conflicts r r').
Proof. unfold conflicts. apply _. Defined.

(** The row bound for one fetched observation. *)
Definition observation_params (sid : string) (obs : json_object) : observation_row :=
  ObservationRow sid (obs !! "date")
    (if bool_decide (obs !! "value" ≠ Some ".") then obs !! "value" else None)
    (obs !! "realtime_start") (obs !! "realtime_end").

(** [INSERT OR IGNORE INTO observations] for every fetched observation;
    returns how many rows were inserted. *)
Definition insert_observation (sid : string) (acc : nat * list observation_row)
    (obs : json_object) : nat * list observation_row :=
  let r := observation_params sid obs in
  if bool_decide (Exists (conflicts r) acc.2)
  then acc                              (* rowcount = 0 *)
  else (S acc.1, acc.2 ++ [r]).         (* rowcount = 1 *)

Definition insert_observations (sid : string) (obss : list json_object) : M nat :=
  d ← read_db;
  let '(inserted_count, t) := foldl (insert_observation sid) (0%nat, observations d) obss in
  _ ← write_db (λ d, Database (series_metadata d) t (extraction_log d));
  mret inserted_count.

Definition log_extraction (sid status : string) (records_extracted : nat)
    (error_message : option string) : M unit :=
  write_db (λ d,
    Database (series_metadata d) (observations d)
             (extraction_log d ++ [LogRow sid status records_extracted error_message])).

(** [SELECT DISTINCT id FROM series_metadata ORDER BY id]; the caller
    only tests membership. *)
Definition get_series_list : M (list (option string)) :=
  d ← read_db;
  mret (remove_dups (id <$> series_metadata d)).

(** *** fred_extractor.py *)

Definition _make_request (rq : request) : M response :=
  λ w, (http_get env (requests w) rq, World (db w) (requests w ++ [rq])).

Definition get_series_info (sid : string) : M json_object :=
  data ← _make_request (Request "series" sid None None);
  match seriess data with
  | Some (info :: _) => mret info
  | _ => raise ("Series " +:+ sid +:+ " not found")
  end.

(** [if start_date:] and [if end_date:] leave out an empty string too. *)
Definition truthy (s : option string) : option string :=
  match s with
  | Some EmptyString => None
  | _ => s
  end.

(** The request [get_series_observations] sends. *)
Definition observations_request (sid : string) (start_date end_date : option string)
    : request :=
  Request "series/observations" sid (truthy start_date) (truthy end_date).

Definition get_series_observations (sid : string) (start_date end_date : option string)
    : M (list json_object) :=
  data ← _make_request (observations_request sid start_date end_date);
  mret (default [] (observations_of data)).

Definition extract_series (sid : string) (start_date end_date : option string)
    (force_update : bool) : M bool :=
  try_except
    (existing_series ← get_series_list;
     if bool_decide (Some sid ∈ existing_series) && negb force_update then mret true
     else
       series_info ← get_series_info sid;
       stored ← insert_series_metadata series_info;
       if (stored : bool) then
         obss ← get_series_observations sid start_date end_date;
         match (obss : list json_object) with
         | _ :: _ =>
             records_inserted ← insert_observations sid obss;
             _ ← log_extraction sid "success" records_inserted None;
             mret true
         | [] =>
             _ ← log_extraction sid "success" 0 (Some "No observations found");
             mret true
         end
       else
         _ ← log_extraction sid "failed" 0 (Some "Failed to store metadata");
         mret false)
    (λ e, _ ← log_extraction sid "failed" 0 (Some e); mret false).

(** The loop of [extract_multiple_series], [results] being its dict. *)
Fixpoint extract_loop (series_ids : list string) (start_date end_date : option string)
    (force_update : bool) (results : gmap string bool) : M (gmap string bool) :=
  match series_ids with
  | [] => mret results
  | sid :: rest =>
      ok ← extract_series sid start_date end_date force_update;
      extract_loop rest start_date end_date force_update (<[sid := ok]> results)
  end.

Definition extract_multiple_series (series_ids : list string)
    (start_date end_date : option string) (force_update : bool)
    : M (gmap string bool) :=
  extract_loop series_ids start_date end_date force_update ∅.

End with_environment.
End Package.

(** ** Sample collaborators and stores, for the concrete instances below *)
Module Samples.

(** A provider that delivers one observation, dated at the requested start,
    and refuses every metadata lookup. *)
Definition script_env_no_metadata : ExtractScript.environment :=
  ExtractScript.Environment
    (λ _ _ start, Ok [(start, PyFloat 1%float)])
    (λ _ _, Raise "Bad Request.  The series does not exist.")
    (λ _, "2024-06-02T00:00:00+00:00").

Definition script_empty_world : ExtractScript.world :=
  ExtractScript.World (ExtractScript.Database ∅ [] []) [].

(** An endpoint that refuses every request, over a store that accepts every
    write. *)
Definition package_env_refusing : Package.environment :=
  Package.Environment (λ _ _, Raise "400 Client Error: Bad Request") (λ _, true).

Definition package_empty_world : Package.world :=
  Package.World (Package.Database [] [] []) [].

(** A store that holds the metadata of GDP. *)
Definition package_world_with_gdp : Package.world :=
  Package.World
    (Package.Database
       [Package.MetadataRow (Some "GDP")
          ((λ k, ({[ "id" := "GDP"; "title" := "Gross Domestic Product" ]}
                    : Package.json_object) !! k) <$> Package.metadata_fields)]
       [] [])
    [].

(** The long rows of the spec's pivot example, for any two dates. *)
Definition example_rows (d1 d2 : Z) : list Transform.obs :=
  [(d1, "A", Some 1%float); (d1, "B", Some 2%float); (d2, "A", Some 3%float)].

(** A wide table with a column the frame below does not have and a value
    the frame overwrites with null, and a frame that brings a new column. *)
Definition wide_table_before : Transform.wide_table :=
  Transform.WideTable ["date"; "fred_A"; "fred_C"]
    {[ 1 := {[ "fred_A" := 5%float; "fred_C" := 6%float ]} ]}.

Definition incoming_frame : Transform.frame :=
  Transform.Frame ["fred_A"; "fred_B"]
    [(1, {[ "fred_B" := 2%float ]}); (2, {[ "fred_A" := 3%float; "fred_B" := 2%float ]})].

(** A store that holds 5.0 for X on 2024-01-01, and the provider's object
    that reports the same observation as missing. *)
Definition package_world_with_value : Package.world :=
  Package.World
    (Package.Database []
       [Package.ObservationRow "X" (Some "2024-01-01") (Some "5.0")
          (Some "2024-01-02") (Some "2024-01-02")]
       [])
    [].

Definition missing_observation : Package.json_object :=
  Package.observation_json "2024-01-01" "." "2024-01-02" "2024-01-02".

End Samples.

(** ** Vocabulary for the statements about the long store *)
Module LongStore.
Import ExtractScript.

(** The key of the UNIQUE constraint of [fred_data_long]. *)
Definition long_key (r : long_row) : string * Z := (series_id r, date r).

(** The row [insert_observations] binds for one item of the fetched data. *)
Definition long_row_of (sid : string) (item : Z * pyval) : long_row :=
  LongRow sid item.1 (bind_real item.2).

(** The rows [insert_observations] leaves for a batch in an empty table. *)
Definition batch_rows (sid : string) (data : list (Z * pyval)) : list long_row :=
  foldl (λ t item, replace_long (long_row_of sid item) t) [] data.

End LongStore.

(** ** scripts/transform_fred_data.py: [main] and its two queries *)
Module TransformMain.
Import Transform.

(** The tables the script reads and writes. *)
Record store : Type := Store {
  fred_data_long : list ExtractScript.long_row;    (* in rowid order *)
  date_shell : list Z;                             (* date TEXT PRIMARY KEY *)
  fred_data_wide : wide_table;
}.

(** [SELECT date, series_id, value FROM fred_data_long]. *)
Definition fetch_observations (s : store) : list obs :=
  (λ r, (ExtractScript.date r, ExtractScript.series_id r, ExtractScript.value r))
    <$> fred_data_long s.

(** [SELECT date FROM date_shell ORDER BY date]. *)
Definition fetch_date_shell (s : store) : list Z :=
  merge_sort Z.le (date_shell s).

(** [df.empty]. *)
Definition empty {A} (df : list A) : bool :=
  match df with [] => true | _ => false end.

Definition main (today : Z) : prog store unit :=
  λ s, let df := fetch_observations s in
       let date_shell_df := fetch_date_shell s in
       if empty df || empty date_shell_df then (Ok tt, s)
       else
         match denormalize_observations today df date_shell_df with
         | Raise e => (Raise e, s)
         | Ok wide_df =>
             let '(r, t) := upsert_wide_table wide_df (fred_data_wide s) in
             (r, Store (fred_data_long s) (date_shell s) t)
         end.

End TransformMain.

(** ** Vocabulary for the statements about the table [observations] *)
Module ObservationStore.
Import Package.

(** The UNIQUE constraint of [observations] holds: no row conflicts with
    a row stored before it. *)
Definition unique_key (t : list observation_row) : Prop :=
  ∀ (i j : nat) r r', (i < j)%nat → t !! i = Some r' → t !! j = Some r → ¬ conflicts r r'.

End ObservationStore.

(** ** More sample collaborators and stores *)
Module Fixtures.

(** A provider that refuses every request. *)
Definition script_env_down : ExtractScript.environment :=
  ExtractScript.Environment
    (λ _ _ _, Raise "HTTP Error 500: Internal Server Error")
    (λ _ _, Raise "HTTP Error 500: Internal Server Error")
    (λ _, "2024-06-02T00:00:00+00:00").

(** A provider that delivers two observations, dated at the requested
    start and the day after, and the metadata of every series. *)
Definition script_env_up : ExtractScript.environment :=
  ExtractScript.Environment
    (λ _ _ start, Ok [(start, PyFloat 1%float); (start + 1, PyNone)])
    (λ _ sid, Ok (ExtractScript.SeriesInfo sid "Monthly" "Percent" "2024-06-01"))
    (λ _, "2024-06-02T00:00:00+00:00").

(** A long store that holds two series. *)
Definition script_world_two_series : ExtractScript.world :=
  ExtractScript.World
    (ExtractScript.Database ∅
       [ExtractScript.LongRow "A" 10 (Some 1%float);
        ExtractScript.LongRow "B" 10 (Some 2%float);
        ExtractScript.LongRow "A" 11 None]
       [])
    [].

(** An endpoint that answers every metadata lookup with an object that
    holds the requested id and refuses every other request, over a store
    that accepts every write. *)
Definition package_env_no_observations : Package.environment :=
  Package.Environment
    (λ _ rq, if bool_decide (Package.endpoint rq = "series")
             then Ok (Package.Response
                        (Some [({[ "id" := Package.param_series_id rq ]} : Package.json_object)])
                        None)
             else Raise "500 Server Error")
    (λ _, true).

(** An endpoint that answers every metadata lookup with an object that
    holds the requested id, and every other request with one observation,
    the one of [Samples.missing_observation]. *)
Definition package_env_one_observation : Package.environment :=
  Package.Environment
    (λ _ rq, if bool_decide (Package.endpoint rq = "series")
             then Ok (Package.Response
                        (Some [({[ "id" := Package.param_series_id rq ]} : Package.json_object)])
                        None)
             else Ok (Package.Response None (Some [Samples.missing_observation])))
    (λ _, true).

(** A store with two observations of one series, a shell of four days and
    an empty wide table. *)
Definition transform_store : TransformMain.store :=
  TransformMain.Store
    [ExtractScript.LongRow "A" 1 (Some 7%float);
     ExtractScript.LongRow "A" 4 (Some 9%float)]
    [4; 3; 2; 1]
    (Transform.WideTable ["date"] ∅).

End Fixtures.

(** * Properties *)

(** ** The representation of dates

    Adding one to the ordinal of a date gives the ordinal of the next civil
    date, and the ISO text of two dates compares as their ordinals do. *)
Section calendar.

Lemma days_before_next_month y m :
  1 ≤ m < 12 → days_before_month y (m + 1) = days_before_month y m + days_in_month y m.
Proof.
  intros Hm. unfold days_before_month, days_in_month.
  destruct (is_leap y);
    (assert (m = 1 ∨ m = 2 ∨ m = 3 ∨ m = 4 ∨ m = 5 ∨ m = 6 ∨ m = 7 ∨ m = 8 ∨ m = 9
             ∨ m = 10 ∨ m = 11) as Hc by lia);
    repeat (destruct Hc as [->|Hc]); subst; reflexivity.
Qed.

Lemma days_before_december y :
  days_before_month y 12 = 334 + if is_leap y then 1 else 0.
Proof. unfold days_before_month. change (Z.to_nat 12) with 12%nat. reflexivity. Qed.

Lemma days_before_next_year y :
  days_before_year (y + 1) = days_before_year y + days_before_month y 12 + 31.
Proof.
  rewrite days_before_december. unfold days_before_year, is_leap.
  replace (y + 1 - 1) with y by lia. cbn zeta.
  destruct (Z.eqb_spec (y mod 4) 0), (Z.eqb_spec (y mod 100) 0), (Z.eqb_spec (y mod 400) 0);
    cbn [andb orb negb]; Z.to_euclidean_division_equations; lia.
Qed.

Lemma days_in_month_bounds y m : 1 ≤ m ≤ 12 → 28 ≤ days_in_month y m ≤ 31.
Proof.
  intros Hm. unfold days_in_month.
  assert (m = 1 ∨ m = 2 ∨ m = 3 ∨ m = 4 ∨ m = 5 ∨ m = 6 ∨ m = 7 ∨ m = 8 ∨ m = 9
          ∨ m = 10 ∨ m = 11 ∨ m = 12) as Hc by lia.
  destruct (is_leap y); repeat (destruct Hc as [->|Hc]); subst; compute_done.
Qed.

Lemma ordinal_tomorrow y m d :
  valid_date y m d →
  let '(y', m', d') := tomorrow y m d in
  ordinal y' m' d' = ordinal y m d + 1 ∧ valid_date y' m' d'.
Proof.
  intros [Hm Hd]. unfold tomorrow.
  destruct (Z.ltb_spec d (days_in_month y m)).
  - split; [unfold ordinal; lia|]. split; lia.
  - destruct (Z.ltb_spec m 12).
    + split.
      * unfold ordinal. rewrite days_before_next_month by lia. lia.
      * split; [lia|]. pose proof (days_in_month_bounds y (m + 1)). lia.
    + assert (m = 12) as -> by lia.
      assert (days_in_month y 12 = 31) as Hdec by (unfold days_in_month; by destruct (is_leap y)).
      assert (days_before_month (y + 1) 1 = 0) as Hjan
        by (unfold days_before_month; by destruct (is_leap (y + 1))).
      split.
      * unfold ordinal. rewrite days_before_next_year, Hjan. lia.
      * split; [lia|]. pose proof (days_in_month_bounds (y + 1) 1). lia.
Qed.

Lemma days_before_month_le y m (k : nat) :
  1 ≤ m → m + Z.of_nat k ≤ 12 →
  days_before_month y m ≤ days_before_month y (m + Z.of_nat k).
Proof.
  intros Hm. induction k as [|k IH]; intros Hk.
  - replace (m + Z.of_nat 0) with m by lia. lia.
  - replace (m + Z.of_nat (S k)) with (m + Z.of_nat k + 1) by lia.
    rewrite days_before_next_month by lia.
    pose proof (days_in_month_bounds y (m + Z.of_nat k)). lia.
Qed.

Lemma day_of_year_bounds y m d :
  valid_date y m d →
  1 ≤ days_before_month y m + d ≤ days_before_month y 12 + 31.
Proof.
  intros [Hm Hd].
  pose proof (days_before_month_le y 1 (Z.to_nat (m - 1))) as Hlo.
  replace (1 + Z.of_nat (Z.to_nat (m - 1))) with m in Hlo by lia.
  assert (days_before_month y 1 = 0) as Hjan
    by (unfold days_before_month; by destruct (is_leap y)).
  split; [lia|].
  destruct (decide (m = 12)) as [->|Hne].
  - assert (days_in_month y 12 = 31) as Hdec
      by (unfold days_in_month; by destruct (is_leap y)).
    lia.
  - pose proof (days_before_month_le y (m + 1) (Z.to_nat (12 - (m + 1)))) as Hhi.
    replace (m + 1 + Z.of_nat (Z.to_nat (12 - (m + 1)))) with 12 in Hhi by lia.
    rewrite days_before_next_month in Hhi by lia. lia.
Qed.

Lemma days_before_year_le y1 y2 : y1 ≤ y2 → days_before_year y1 ≤ days_before_year y2.
Proof. intros Hy. unfold days_before_year. cbn zeta. Z.to_euclidean_division_equations. lia. Qed.

(** The ordinal grows with the date in the order of (year, month, day),
    which is the order of the ISO text. *)
Lemma ordinal_lt y1 m1 d1 y2 m2 d2 :
  valid_date y1 m1 d1 → valid_date y2 m2 d2 →
  y1 < y2 ∨ (y1 = y2 ∧ (m1 < m2 ∨ (m1 = m2 ∧ d1 < d2))) →
  ordinal y1 m1 d1 < ordinal y2 m2 d2.
Proof.
  intros Hv1 Hv2 Hlt. unfold ordinal.
  pose proof (day_of_year_bounds y1 m1 d1 Hv1) as Hb1.
  pose proof (day_of_year_bounds y2 m2 d2 Hv2) as Hb2.
  destruct Hlt as [Hy|[-> Hlt]].
  - pose proof (days_before_next_year y1) as Hnext.
    pose proof (days_before_year_le (y1 + 1) y2). lia.
  - destruct Hlt as [Hm|[-> Hd]]; [|lia].
    destruct Hv1 as [Hm1 Hd1], Hv2 as [Hm2 Hd2].
    pose proof (days_before_month_le y2 (m1 + 1) (Z.to_nat (m2 - (m1 + 1)))) as Hle.
    replace (m1 + 1 + Z.of_nat (Z.to_nat (m2 - (m1 + 1)))) with m2 in Hle by lia.
    rewrite days_before_next_month in Hle by lia. lia.
Qed.

Lemma digit_compare a b :
  0 ≤ a ≤ 9 → 0 ≤ b ≤ 9 → Ascii.compare (digit a) (digit b) = (a ?= b).
Proof.
  intros Ha Hb.
  assert (a = 0 ∨ a = 1 ∨ a = 2 ∨ a = 3 ∨ a = 4 ∨ a = 5 ∨ a = 6 ∨ a = 7 ∨ a = 8 ∨ a = 9)
    as Hca by lia.
  assert (b = 0 ∨ b = 1 ∨ b = 2 ∨ b = 3 ∨ b = 4 ∨ b = 5 ∨ b = 6 ∨ b = 7 ∨ b = 8 ∨ b = 9)
    as Hcb by lia.
  repeat (destruct Hca as [->|Hca]); subst; repeat (destruct Hcb as [->|Hcb]); subst;
    reflexivity.
Qed.

Lemma append_String c s t : String c s +:+ t = String c (s +:+ t).
Proof. reflexivity. Qed.

Lemma append_Empty t : "" +:+ t = t.
Proof. reflexivity. Qed.

Lemma compare_String c1 s1 c2 s2 :
  String.compare (String c1 s1) (String c2 s2)
  = then_compare (Ascii.compare c1 c2) (String.compare s1 s2).
Proof. cbn [String.compare]. by destruct (Ascii.compare c1 c2). Qed.

Lemma ascii_compare_refl c : Ascii.compare c c = Eq.
Proof. unfold Ascii.compare. apply N.compare_refl. Qed.

Lemma pad2_compare a b s t :
  0 ≤ a < 100 → 0 ≤ b < 100 →
  String.compare (pad2 a +:+ s) (pad2 b +:+ t) = then_compare (a ?= b) (String.compare s t).
Proof.
  intros Ha Hb. unfold pad2. rewrite !append_String, !append_Empty, !compare_String.
  rewrite !digit_compare by (Z.to_euclidean_division_equations; lia).
  destruct (Z.compare_spec (a / 10) (b / 10)) as [Hq|Hq|Hq];
    destruct (Z.compare_spec (a mod 10) (b mod 10)) as [Hr|Hr|Hr];
    destruct (Z.compare_spec a b) as [Hab|Hab|Hab]; cbn [then_compare]; try reflexivity;
    exfalso; Z.to_euclidean_division_equations; lia.
Qed.

Lemma pad2_compare_end a b :
  0 ≤ a < 100 → 0 ≤ b < 100 → String.compare (pad2 a) (pad2 b) = (a ?= b).
Proof.
  intros Ha Hb.
  pose proof (pad2_compare a b "" "" Ha Hb) as Hc.
  unfold pad2 in *. rewrite !append_String, !append_Empty in Hc. rewrite Hc.
  by destruct (a ?= b).
Qed.

Lemma pad4_compare a b s t :
  0 ≤ a < 10000 → 0 ≤ b < 10000 →
  String.compare (pad4 a +:+ s) (pad4 b +:+ t) = then_compare (a ?= b) (String.compare s t).
Proof.
  intros Ha Hb. unfold pad4. rewrite !append_String, !compare_String.
  rewrite !digit_compare by (Z.to_euclidean_division_equations; lia).
  rewrite pad2_compare by (Z.to_euclidean_division_equations; lia).
  destruct (Z.compare_spec (a / 1000) (b / 1000)) as [Hq|Hq|Hq];
    destruct (Z.compare_spec (a / 100 mod 10) (b / 100 mod 10)) as [Hh|Hh|Hh];
    destruct (Z.compare_spec (a mod 100) (b mod 100)) as [Hr|Hr|Hr];
    destruct (Z.compare_spec a b) as [Hab|Hab|Hab]; cbn [then_compare]; try reflexivity;
    exfalso; Z.to_euclidean_division_equations; lia.
Qed.

Lemma isoformat_compare y1 m1 d1 y2 m2 d2 :
  0 ≤ y1 < 10000 → 0 ≤ y2 < 10000 →
  0 ≤ m1 < 100 → 0 ≤ m2 < 100 → 0 ≤ d1 < 100 → 0 ≤ d2 < 100 →
  String.compare (isoformat y1 m1 d1) (isoformat y2 m2 d2)
  = then_compare (y1 ?= y2) (then_compare (m1 ?= m2) (d1 ?= d2)).
Proof.
  intros Hy1 Hy2 Hm1 Hm2 Hd1 Hd2. unfold isoformat.
  rewrite pad4_compare by done. f_equal.
  rewrite !append_String, !append_Empty, compare_String.
  rewrite ascii_compare_refl. cbn [then_compare].
  rewrite pad2_compare by done. f_equal.
  rewrite compare_String, ascii_compare_refl. cbn [then_compare].
  by apply pad2_compare_end.
Qed.

(** SQLite, pandas and Python compare the stored text of two dates as the
    ordinals of the dates compare. *)
Lemma isoformat_compare_ordinal y1 m1 d1 y2 m2 d2 :
  0 ≤ y1 < 10000 → 0 ≤ y2 < 10000 →
  valid_date y1 m1 d1 → valid_date y2 m2 d2 →
  String.compare (isoformat y1 m1 d1) (isoformat y2 m2 d2)
  = (ordinal y1 m1 d1 ?= ordinal y2 m2 d2).
Proof.
  intros Hy1 Hy2 Hv1 Hv2.
  pose proof (days_in_month_bounds y1 m1 (proj1 Hv1)) as Hb1.
  pose proof (days_in_month_bounds y2 m2 (proj1 Hv2)) as Hb2.
  rewrite isoformat_compare; [|done|done|destruct Hv1, Hv2; lia..].
  symmetry.
  destruct (Z.compare_spec y1 y2) as [->|Hy|Hy]; cbn [then_compare].
  - destruct (Z.compare_spec m1 m2) as [->|Hm|Hm]; cbn [then_compare].
    + destruct (Z.compare_spec d1 d2) as [->|Hd|Hd].
      * apply Z.compare_refl.
      * apply Z.compare_lt_iff. apply ordinal_lt; auto.
      * apply Z.compare_gt_iff. apply ordinal_lt; auto.
    + apply Z.compare_lt_iff. apply ordinal_lt; auto.
    + apply Z.compare_gt_iff. apply ordinal_lt; auto.
  - apply Z.compare_lt_iff. apply ordinal_lt; auto.
  - apply Z.compare_gt_iff. apply ordinal_lt; auto.
Qed.

Example isoformat_2024_06_01 : isoformat 2024 6 1 = "2024-06-01".
Proof. reflexivity. Qed.

(** The spec's dates: the day after 2024-06-01 is 2024-06-02. *)
Example tomorrow_2024_06_01 :
  tomorrow 2024 6 1 = (2024, 6, 2) ∧ ordinal 2024 6 2 = ordinal 2024 6 1 + 1.
Proof. split; reflexivity. Qed.
End calendar.

(** ** Watermark (extract_fred_data.py) *)
Section watermark.
Import ExtractScript.
Context (env : environment).

Lemma select_max_date_snoc sid t r :
  select_max_date sid (t ++ [r]) =
    if bool_decide (series_id r = sid)
    then Some (match select_max_date sid t with
               | Some m => Z.max m (date r)
               | None => date r
               end)
    else select_max_date sid t.
Proof. unfold select_max_date. by rewrite foldl_snoc. Qed.

Lemma select_max_date_spec sid t :
  match select_max_date sid t with
  | None => ∀ r, r ∈ t → series_id r ≠ sid
  | Some m =>
      (∃ r, r ∈ t ∧ series_id r = sid ∧ date r = m) ∧
      (∀ r, r ∈ t → series_id r = sid → date r ≤ m)
  end.
Proof.
  induction t as [|r t IH] using rev_ind.
  - cbn. intros r Hr. by apply elem_of_nil in Hr.
  - rewrite select_max_date_snoc. case_bool_decide as Hsid.
    + destruct (select_max_date sid t) as [m|].
      * destruct IH as [(r0 & Hin & Hs & Hd) Hmax]. split.
        -- destruct (Z.max_spec m (date r)) as [[_ ->]|[_ ->]].
           ++ exists r. set_solver.
           ++ exists r0. set_solver.
        -- intros r' [Hr'| ->%list_elem_of_singleton]%elem_of_app Hs'.
           ++ specialize (Hmax r' Hr' Hs'). lia.
           ++ lia.
      * split.
        -- exists r. set_solver.
        -- intros r' [Hr'| ->%list_elem_of_singleton]%elem_of_app Hs'.
           ++ by destruct (IH r' Hr').
           ++ lia.
    + destruct (select_max_date sid t) as [m|].
      * destruct IH as [(r0 & Hin & Hs & Hd) Hmax]. split.
        -- exists r0. set_solver.
        -- intros r' [Hr'| ->%list_elem_of_singleton]%elem_of_app Hs'; [by apply Hmax|done].
      * intros r' [Hr'| ->%list_elem_of_singleton]%elem_of_app; [by apply IH|done].
Qed.
End watermark.

Section watermark_claim.
Import ExtractScript.

Lemma next_start_date_eq sid default_start_date w :
  next_start_date sid default_start_date w =
    (Ok (match select_max_date sid (fred_data_long (db w)) with
         | Some latest => latest + 1
         | None => default_start_date
         end), w).
Proof. reflexivity. Qed.

Lemma extract_and_store_first_call env sid default_start_date w :
  ∃ rest,
    calls (extract_and_store env sid default_start_date w).2 =
      calls w ++
        GetSeries sid
          (match select_max_date sid (fred_data_long (db w)) with
           | Some latest => latest + 1
           | None => default_start_date
           end) :: rest.
Proof.
  unfold extract_and_store, try_except, mbind, prog_bind, bind.
  rewrite next_start_date_eq. cbn.
  destruct (fred_get_series env (calls w) sid _) as [data|e]; cbn.
  - unfold upsert_series_metadata, try_except, mbind, prog_bind, bind. cbn.
    destruct (fred_get_series_info env _ sid) as [info|e]; cbn;
      rewrite <- (assoc_L (++)); eauto.
  - eauto.
Qed.

(** C1. For every series id, the watermark computation ([get_latest_date]
    and the start-date lines of [extract_and_store]) returns without
    changing the store or calling the provider; its result is the default
    start date when no row of the series is stored, and otherwise the day
    after [m], where [m] is the date of a stored row of the series and no
    stored row of the series is later than [m]; and that result is the
    start date of the fetch [extract_and_store] then requests. *)
Theorem watermark_correct (env : environment) (sid : string)
    (default_start_date : Z) (w : world) :
  ∃ start_date : Z,
    next_start_date sid default_start_date w = (Ok start_date, w) ∧
    (get_latest_date sid w).2 = w ∧
    ((∀ r, r ∈ fred_data_long (db w) → series_id r ≠ sid) →
       start_date = default_start_date) ∧
    (∀ r, r ∈ fred_data_long (db w) → series_id r = sid →
       ∃ m, (∃ r', r' ∈ fred_data_long (db w) ∧ series_id r' = sid ∧ date r' = m) ∧
            (∀ r', r' ∈ fred_data_long (db w) → series_id r' = sid → date r' ≤ m) ∧
            start_date = m + 1) ∧
    (∃ rest, calls (extract_and_store env sid default_start_date w).2 =
               calls w ++ GetSeries sid start_date :: rest).
Proof.
  eexists. split; [apply next_start_date_eq|].
  split; [reflexivity|].
  pose proof (select_max_date_spec sid (fred_data_long (db w))) as Hmax.
  destruct (select_max_date sid (fred_data_long (db w))) as [m|] eqn:Hsel.
  - destruct Hmax as [Hex Hle]. repeat split.
    + intros Hnone. destruct Hex as (r & Hin & Hs & _). by destruct (Hnone r Hin).
    + intros _ _ _. exists m. done.
    + pose proof (extract_and_store_first_call env sid default_start_date w) as Hc.
      by rewrite Hsel in Hc.
  - repeat split.
    + intros r Hin Hs. by destruct (Hmax r Hin).
    + pose proof (extract_and_store_first_call env sid default_start_date w) as Hc.
      by rewrite Hsel in Hc.
Qed.

(** The spec's example: with 2024-06-01 the latest stored date of the
    series, the next fetch starts at 2024-06-02. *)
Example watermark_2024_06_01 :
  let t := [LongRow "X" (ordinal 2024 5 31) (Some 1%float);
            LongRow "Y" (ordinal 2024 7 4) (Some 9%float);
            LongRow "X" (ordinal 2024 6 1) None] in
  (next_start_date "X" (ordinal 1950 1 1) (World (Database ∅ t []) [])).1
    = Ok (ordinal 2024 6 2)
  ∧ (next_start_date "Z" (ordinal 1950 1 1) (World (Database ∅ t []) [])).1
    = Ok (ordinal 1950 1 1).
Proof. split; reflexivity. Qed.

Lemma watermark_correct_witness :
  let t := [LongRow "X" (ordinal 2024 5 31) (Some 1%float);
            LongRow "Y" (ordinal 2024 7 4) (Some 9%float);
            LongRow "X" (ordinal 2024 6 1) None] in
  let w := World (Database ∅ t []) [] in
  ∃ start_date,
    next_start_date "X" (ordinal 1950 1 1) w = (Ok start_date, w) ∧
    start_date = ordinal 2024 6 2.
Proof.
  intros t w.
  destruct (watermark_correct Samples.script_env_no_metadata "X" (ordinal 1950 1 1) w)
    as (start_date & Heq & _ & _ & Hmax & _).
  exists start_date. split; [exact Heq|].
  destruct (Hmax (LongRow "X" (ordinal 2024 6 1) None)) as (m & (r' & Hin & Hs & Hd) & Hle & ->).
  { subst w t. cbn. do 2 apply list_elem_of_further. apply list_elem_of_here. }
  { reflexivity. }
  specialize (Hle (LongRow "X" (ordinal 2024 6 1) None)).
  assert (ordinal 2024 6 1 ≤ m) as Hle'.
  { apply Hle; [|reflexivity].
    subst w t. cbn. do 2 apply list_elem_of_further. apply list_elem_of_here. }
  subst m w t. cbn [fred_data_long db] in Hin.
  apply elem_of_cons in Hin as [->|Hin]; [vm_compute in Hle'; by destruct Hle'|].
  apply elem_of_cons in Hin as [->|Hin]; [discriminate Hs|].
  apply elem_of_cons in Hin as [->|Hin]; [reflexivity|].
  by apply elem_of_nil in Hin.
Defined.
End watermark_claim.

(** ** Observation upsert *)
Section observation_upsert.
Import ExtractScript.

Lemma same_key_iff sid d r :
  same_key sid d r ↔ series_id r = sid ∧ date r = d.
Proof. unfold same_key. apply bool_decide_spec. Qed.

Lemma filter_same_key_replace_long sid d v t :
  filter (λ r, same_key sid d r) (replace_long (LongRow sid d v) t) = [LongRow sid d v].
Proof.
  unfold replace_long. rewrite filter_app, list_filter_filter.
  rewrite (filter_singleton_True _ _ []) by by apply same_key_iff.
  replace (filter _ t) with (@nil long_row); [done|].
  symmetry. induction t as [|r t IH]; [done|].
  rewrite filter_cons_False by tauto. done.
Qed.

Lemma filter_other_key_replace_long sid d r t :
  ¬ same_key sid d r →
  filter (λ r, same_key sid d r) (replace_long r t) = filter (λ r, same_key sid d r) t.
Proof.
  intros Hr. unfold replace_long.
  rewrite filter_app, list_filter_filter, (filter_singleton_False _ _ []), app_nil_r by done.
  apply list_filter_iff. intros r'. split; [tauto|]. intros Hk. split; [done|].
  intros Hk'. apply Hr. apply same_key_iff in Hk, Hk'. apply same_key_iff.
  destruct Hk, Hk'. split; congruence.
Qed.

(** Every stored key stays unique under [INSERT OR REPLACE]. *)
Lemma replace_long_unique sid d r t :
  (length (filter (λ r, same_key sid d r) t) ≤ 1)%nat →
  (length (filter (λ r, same_key sid d r) (replace_long r t)) ≤ 1)%nat.
Proof.
  intros Hlen. destruct (decide (same_key sid d r)) as [Hk|Hk].
  - destruct r as [sid' d' v]. apply same_key_iff in Hk. cbn in Hk.
    destruct Hk as [-> ->]. by rewrite filter_same_key_replace_long.
  - by rewrite filter_other_key_replace_long.
Qed.

Lemma insert_observations_eq sid data w :
  insert_observations sid data w =
    (Ok tt, World (foldl (λ d item, insert_observation sid item d) (db w) data) (calls w)).
Proof. reflexivity. Qed.

(** In a batch the last value given for a date is the one stored. *)
Lemma insert_observations_last_wins sid d v data1 data2 w :
  d ∉ data2.*1 →
  filter (λ r, same_key sid d r)
    (fred_data_long (db (insert_observations sid (data1 ++ (d, v) :: data2) w).2))
  = [LongRow sid d (bind_real v)].
Proof.
  intros Hd. rewrite insert_observations_eq. cbn [snd db].
  rewrite foldl_app. cbn [foldl].
  set (d0 := insert_observation sid (d, v) _).
  assert (filter (λ r, same_key sid d r) (fred_data_long d0) = [LongRow sid d (bind_real v)]) as H0.
  { unfold d0, insert_observation. cbn. destruct v; apply filter_same_key_replace_long. }
  clearbody d0. revert d0 H0.
  induction data2 as [|[d' v'] data2 IH]; intros d0 H0; [done|].
  cbn [foldl]. apply IH.
  - intros Hin. apply Hd. cbn. by right.
  - unfold insert_observation at 1. cbn.
    rewrite filter_other_key_replace_long; [by destruct v'|].
    rewrite same_key_iff. cbn. intros [_ ->]. destruct Hd. cbn. by left.
Qed.
End observation_upsert.

Section package_insert_or_ignore.
Import Package.

Lemma observation_params_json sid d v rs re :
  observation_params sid (observation_json d v rs re) =
    ObservationRow sid (Some d) (if bool_decide (v = ".") then None else Some v)
                   (Some rs) (Some re).
Proof.
  unfold observation_params, observation_json. simplify_map_eq.
  repeat case_bool_decide; congruence.
Qed.

Lemma insert_observation_ignored sid acc obs :
  Exists (conflicts (observation_params sid obs)) acc.2 →
  insert_observation sid acc obs = acc.
Proof. intros Hc. unfold insert_observation. by rewrite bool_decide_eq_true_2. Qed.

Lemma insert_observation_inserted sid acc obs :
  ¬ Exists (conflicts (observation_params sid obs)) acc.2 →
  insert_observation sid acc obs = (S acc.1, acc.2 ++ [observation_params sid obs]).
Proof. intros Hc. unfold insert_observation. by rewrite bool_decide_eq_false_2. Qed.

Lemma insert_observations_single sid obs w :
  insert_observations sid [obs] w =
    let acc := insert_observation sid (0%nat, observations (db w)) obs in
    (Ok acc.1,
     World (Database (series_metadata (db w)) acc.2 (extraction_log (db w))) (requests w)).
Proof.
  unfold insert_observations, mbind, prog_bind, bind, read_db. cbn.
  by destruct (insert_observation sid _ obs).
Qed.

(** After an observation was offered to [insert_observations], a row with
    its key is stored, whatever the store held before. *)
Lemma insert_observation_key_stored sid d v rs re t :
  Exists (conflicts (observation_params sid (observation_json d v rs re)))
    (insert_observation sid (0%nat, t) (observation_json d v rs re)).2.
Proof.
  destruct (decide (Exists (conflicts (observation_params sid (observation_json d v rs re))) t))
    as [Hc|Hc].
  - by rewrite insert_observation_ignored.
  - rewrite insert_observation_inserted by done. cbn.
    apply Exists_app. right. apply Exists_cons_hd.
    rewrite observation_params_json. unfold conflicts. cbn. eauto 10.
Qed.

(** A second offer of the same (series_id, date, realtime_start,
    realtime_end) is ignored, whatever its value. *)
Lemma insert_observations_second_ignored sid d v1 v2 rs re w :
  let w1 := (insert_observations sid [observation_json d v1 rs re] w).2 in
  insert_observations sid [observation_json d v2 rs re] w1 = (Ok 0%nat, w1).
Proof.
  intros w1. subst w1. rewrite !insert_observations_single. cbn zeta. cbn [snd db observations].
  rewrite (insert_observation_ignored sid (0%nat, _) (observation_json d v2 rs re)).
  - cbn. done.
  - cbn [snd].
    pose proof (insert_observation_key_stored sid d v1 rs re (observations (db w))) as Hk.
    by rewrite !observation_params_json in *.
Qed.
End package_insert_or_ignore.

(** C2 (amended). On the long store [fred_data_long], written by the script's
    [insert_observations], the upsert is replace-on-conflict: after the
    upsert of (series, d, v1) and, later (after any other batches), of
    (series, d, v2), exactly one row is stored for (series, d), and its value
    is v2 as SQLite stores it.  [FREDDatabase.insert_observations] writes the
    table [observations] with insert-or-ignore on (series_id, date,
    realtime_start, realtime_end): a second offer of a stored key inserts
    nothing and leaves the store as it was, so from an empty table the value
    stored for the key is the first one. *)
Theorem observation_upsert_conflict :
  (∀ (sid : string) (d : Z) (v1 v2 : pyval) (w : ExtractScript.world)
     (later : list (string * list (Z * pyval))),
     let w1 := (ExtractScript.insert_observations sid [(d, v1)] w).2 in
     let w' := foldl (λ w b, (ExtractScript.insert_observations b.1 b.2 w).2) w1 later in
     let w2 := (ExtractScript.insert_observations sid [(d, v2)] w').2 in
     filter (λ r, ExtractScript.same_key sid d r)
            (ExtractScript.fred_data_long (ExtractScript.db w2))
     = [ExtractScript.LongRow sid d (bind_real v2)])
  ∧
  (∀ (sid d v1 v2 rs re : string) (w : Package.world),
     let w1 := (Package.insert_observations sid [Package.observation_json d v1 rs re] w).2 in
     Package.insert_observations sid [Package.observation_json d v2 rs re] w1
     = (Ok 0%nat, w1))
  ∧
  (∀ (sid d v1 v2 rs re : string),
     let w0 := Package.World (Package.Database [] [] []) [] in
     let w1 := (Package.insert_observations sid [Package.observation_json d v1 rs re] w0).2 in
     let w2 := (Package.insert_observations sid [Package.observation_json d v2 rs re] w1).2 in
     Package.observations (Package.db w2)
     = [Package.ObservationRow sid (Some d)
          (if bool_decide (v1 = ".") then None else Some v1) (Some rs) (Some re)]).
Proof.
  split; [|split].
  - intros sid d v1 v2 w later w1 w' w2. subst w2.
    apply (insert_observations_last_wins sid d v2 [] []). apply not_elem_of_nil.
  - intros sid d v1 v2 rs re w. apply insert_observations_second_ignored.
  - intros sid d v1 v2 rs re w0 w1 w2.
    pose proof (insert_observations_second_ignored sid d v1 v2 rs re w0) as Hsecond.
    cbn zeta in Hsecond. subst w2 w1. rewrite Hsecond. cbn [snd].
    subst w0. rewrite insert_observations_single. cbn zeta.
    rewrite insert_observation_inserted.
    + cbn. by rewrite observation_params_json.
    + cbn. by intros ?%Exists_nil.
Qed.

(** C2 as stated fails on [FREDDatabase.insert_observations]: after 1.0 and
    then 2.0 were offered for the same key, the one stored row holds 1.0. *)
Lemma upsert_overwrite_fails_on_observations_table :
  let w0 := Package.World (Package.Database [] [] []) [] in
  let o1 := Package.observation_json "2024-01-01" "1.0" "2024-01-02" "2024-01-02" in
  let o2 := Package.observation_json "2024-01-01" "2.0" "2024-01-02" "2024-01-02" in
  let w1 := (Package.insert_observations "X" [o1] w0).2 in
  let w2 := (Package.insert_observations "X" [o2] w1).2 in
  Package.value <$>
    filter (λ r, Package.series_id r = "X" ∧ Package.date r = Some "2024-01-01")
           (Package.observations (Package.db w2))
  = [Some "1.0"]
  ∧ ¬ (Package.value <$>
         filter (λ r, Package.series_id r = "X" ∧ Package.date r = Some "2024-01-01")
                (Package.observations (Package.db w2))
       = [Some "2.0"]).
Proof. split; [by vm_compute|]. vm_compute. intros [=]. Qed.

(** ** One extraction of one series (extract_fred_data.py) *)
Section script_extraction.
Import ExtractScript.
Context (env : environment).

(** What one call of [extract_and_store] does, by the provider's answers. *)
Lemma extract_and_store_eq sid default_start_date w :
  extract_and_store env sid default_start_date w =
    let start := start_of sid default_start_date w in
    let calls1 := calls w ++ [GetSeries sid start] in
    match fred_get_series env (calls w) sid start with
    | Raise e => (Ok tt, World (append_log env sid "error" e (db w)) calls1)
    | Ok data =>
        let d1 := match fred_get_series_info env calls1 sid with
                  | Ok info => replace_metadata sid info (db w)
                  | Raise _ => db w
                  end in
        let d2 := foldl (λ d item, insert_observation sid item d) d1 data in
        (Ok tt,
         World (append_log env sid "success" (pretty (length data) +:+ " records") d2)
               (calls1 ++ [GetSeriesInfo sid]))
    end.
Proof.
  unfold extract_and_store, try_except, mbind, prog_bind, bind.
  rewrite next_start_date_eq. fold (start_of sid default_start_date w). cbn.
  destruct (fred_get_series env (calls w) sid _) as [data|e]; cbn; [|done].
  unfold upsert_series_metadata, try_except, mbind, prog_bind, bind. cbn.
  by destruct (fred_get_series_info env _ sid) as [info|e].
Qed.

Lemma insert_observation_log sid item d :
  extraction_log (insert_observation sid item d) = extraction_log d.
Proof. done. Qed.

Lemma insert_observation_metadata sid item d :
  series_metadata (insert_observation sid item d) = series_metadata d.
Proof. done. Qed.

Lemma foldl_insert_observation_log sid data d :
  extraction_log (foldl (λ d item, insert_observation sid item d) d data) = extraction_log d.
Proof. revert d. induction data as [|item data IH]; intros d; [done|]. cbn [foldl]. by rewrite IH. Qed.

Lemma foldl_insert_observation_metadata sid data d :
  series_metadata (foldl (λ d item, insert_observation sid item d) d data) = series_metadata d.
Proof. revert d. induction data as [|item data IH]; intros d; [done|]. cbn [foldl]. by rewrite IH. Qed.

(** Exactly one log row is appended by [extract_and_store]. *)
Lemma extract_and_store_log sid default_start_date w :
  ∃ entry,
    extraction_log (db (extract_and_store env sid default_start_date w).2)
      = extraction_log (db w) ++ [entry] ∧
    log_series_id entry = sid ∧
    match fred_get_series env (calls w) sid (start_of sid default_start_date w) with
    | Ok data =>
        status entry = "success" ∧ message entry = pretty (length data) +:+ " records"
    | Raise e => status entry = "error" ∧ message entry = e
    end.
Proof.
  rewrite extract_and_store_eq. cbn zeta.
  destruct (fred_get_series env (calls w) sid _) as [data|e]; cbn.
  - rewrite foldl_insert_observation_log.
    destruct (fred_get_series_info env _ sid); eexists; done.
  - eexists. done.
Qed.

Lemma extract_and_store_calls sid default_start_date w :
  ∃ new, calls (extract_and_store env sid default_start_date w).2 = calls w ++ new ∧
         GetSeries sid (start_of sid default_start_date w) ∈ new.
Proof.
  rewrite extract_and_store_eq. cbn zeta.
  destruct (fred_get_series env (calls w) sid _) as [data|e]; cbn.
  - rewrite <- (assoc_L (++)). eexists. split; [done|]. set_solver.
  - eexists. split; [done|]. set_solver.
Qed.

(** [main] goes on to every series of the catalog, whatever happened to
    the ones before: each gets its fetch request and its log row. *)
Lemma main_eq start_date common_series w :
  main env start_date common_series w =
    (Ok tt, foldl (λ w sid, (extract_and_store env sid start_date w).2) w
                  (concat (common_series.*2))).
Proof. done. Qed.

Lemma run_calls_grow start_date sids w :
  ∃ new, calls (foldl (λ w sid, (extract_and_store env sid start_date w).2) w sids)
         = calls w ++ new.
Proof.
  revert w. induction sids as [|sid sids IH]; intros w; cbn [foldl].
  - exists []. by rewrite app_nil_r.
  - destruct (IH (extract_and_store env sid start_date w).2) as [new2 ->].
    destruct (extract_and_store_calls sid start_date w) as (new1 & -> & _).
    exists (new1 ++ new2). by rewrite (assoc_L (++)).
Qed.

Lemma run_log_grow start_date sids w :
  ∃ new, extraction_log (db (foldl (λ w sid, (extract_and_store env sid start_date w).2) w sids))
         = extraction_log (db w) ++ new.
Proof.
  revert w. induction sids as [|sid sids IH]; intros w; cbn [foldl].
  - exists []. by rewrite app_nil_r.
  - destruct (IH (extract_and_store env sid start_date w).2) as [new2 ->].
    destruct (extract_and_store_log sid start_date w) as (entry & -> & _).
    exists ([entry] ++ new2). by rewrite (assoc_L (++)).
Qed.

Lemma main_reaches_every_series start_date common_series w sid :
  sid ∈ concat (common_series.*2) →
  let w' := (main env start_date common_series w).2 in
  (∃ start, GetSeries sid start ∈ calls w') ∧
  (∃ entry, entry ∈ extraction_log (db w') ∧ log_series_id entry = sid).
Proof.
  rewrite main_eq. cbn [snd]. generalize (concat (common_series.*2)). intros sids.
  revert w. induction sids as [|sid' sids IH]; intros w Hin; [by apply elem_of_nil in Hin|].
  apply elem_of_cons in Hin. cbn [foldl]. destruct Hin as [->|Hin]; [|by apply IH].
  set (w1 := (extract_and_store env sid' start_date w).2).
  destruct (run_calls_grow start_date sids w1) as [newc Hc].
  destruct (run_log_grow start_date sids w1) as [newl Hl].
  cbn zeta. rewrite Hc, Hl. subst w1.
  destruct (extract_and_store_calls sid' start_date w) as (new1 & -> & Hnew).
  destruct (extract_and_store_log sid' start_date w) as (entry & -> & Hsid & _).
  split.
  - exists (start_of sid' start_date w). rewrite !elem_of_app. auto.
  - exists entry. split; [|done]. rewrite !elem_of_app, list_elem_of_singleton. auto.
Qed.
End script_extraction.

(** ** One extraction of one series (fred_extractor.py) *)
Section package_extraction.
Import Package.
Context (env : environment).

Lemma get_series_info_eq sid w :
  get_series_info env sid w =
    (match http_get env (requests w) (info_request sid) with
     | Ok data => match seriess data with
                  | Some (info :: _) => Ok info
                  | _ => Raise ("Series " +:+ sid +:+ " not found")
                  end
     | Raise e => Raise e
     end,
     World (db w) (requests w ++ [info_request sid])).
Proof.
  unfold get_series_info, mbind, prog_bind, bind, _make_request, info_request.
  destruct (http_get env (requests w) _) as [data|e]; [|done].
  by destruct (seriess data) as [[|info l]|].
Qed.

Lemma get_series_list_eq w :
  get_series_list w = (Ok (remove_dups (id <$> series_metadata (db w))), w).
Proof. done. Qed.

(** A series that is stored already is not extracted again unless
    [force_update] is set: nothing is requested, written or logged. *)
Lemma extract_series_skipped sid start_date end_date force_update w :
  skipped sid force_update w = true →
  extract_series env sid start_date end_date force_update w = (Ok true, w).
Proof.
  intros Hs. unfold extract_series, try_except, mbind, prog_bind, bind.
  rewrite get_series_list_eq. unfold skipped in Hs. by rewrite Hs.
Qed.

(** When the metadata lookup fails, [extract_series] logs the failure and
    stops. *)
Lemma extract_series_lookup_failed sid start_date end_date force_update w e :
  skipped sid force_update w = false →
  (get_series_info env sid w).1 = Raise e →
  extract_series env sid start_date end_date force_update w =
    (Ok false,
     add_log sid "failed" 0 (Some e) (World (db w) (requests w ++ [info_request sid]))).
Proof.
  intros Hs He. unfold extract_series, try_except, mbind, prog_bind, bind.
  rewrite get_series_list_eq. unfold skipped in Hs. rewrite Hs.
  rewrite get_series_info_eq in He |- *. cbn [fst] in He. by rewrite He.
Qed.
End package_extraction.

Section package_extraction_cases.
Import Package.
Context (env : environment).

(** What [extract_series] does when it does not return at once, by the
    answers of the provider and of the store. *)
Lemma extract_series_eq sid start_date end_date force_update w :
  skipped sid force_update w = false →
  extract_series env sid start_date end_date force_update w =
    let rq1 := info_request sid in
    let w1 := World (db w) (requests w ++ [rq1]) in
    match (get_series_info env sid w).1 with
    | Raise e => (Ok false, add_log sid "failed" 0 (Some e) w1)
    | Ok info =>
        if metadata_write_ok env info then
          let rq2 := observations_request sid start_date end_date in
          let w3 := World (replace_metadata info (db w)) (requests w1 ++ [rq2]) in
          match http_get env (requests w1) rq2 with
          | Raise e => (Ok false, add_log sid "failed" 0 (Some e) w3)
          | Ok data =>
              match default [] (observations_of data) with
              | [] => (Ok true, add_log sid "success" 0 (Some "No observations found") w3)
              | obss =>
                  let acc := foldl (insert_observation sid) (0%nat, observations (db w3)) obss in
                  (Ok true,
                   add_log sid "success" acc.1 None
                     (World (Database (series_metadata (db w3)) acc.2 (extraction_log (db w3)))
                            (requests w3)))
              end
          end
        else (Ok false, add_log sid "failed" 0 (Some "Failed to store metadata") w1)
    end.
Proof.
  intros Hs. unfold extract_series, try_except, mbind, prog_bind, bind.
  rewrite get_series_list_eq. unfold skipped in Hs. rewrite Hs.
  rewrite get_series_info_eq. cbn [fst].
  destruct (match http_get env (requests w) (info_request sid) with
            | Ok data => _ | Raise e => _ end) as [info|e]; [|done].
  unfold insert_series_metadata.
  destruct (metadata_write_ok env info); [|done].
  unfold mbind, prog_bind, bind, write_db, mret, prog_ret, ret.
  unfold get_series_observations, mbind, prog_bind, bind, _make_request. cbn [db requests].
  destruct (http_get env _ (observations_request sid start_date end_date)) as [data|e]; [|done].
  unfold mret, prog_ret, ret.
  destruct (default [] (observations_of data)) as [|o obss]; [done|].
  unfold insert_observations, mbind, prog_bind, bind, read_db, write_db, mret, prog_ret, ret.
  cbn [db requests].
  by destruct (foldl (insert_observation sid) _ (o :: obss)).
Qed.
End package_extraction_cases.

Section package_extraction_log.
Import Package.
Context (env : environment).

Lemma insert_observation_count sid acc obs n0 (t0 : list observation_row) :
  (length acc.2 + n0 = length t0 + acc.1)%nat →
  (length (insert_observation sid acc obs).2 + n0
   = length t0 + (insert_observation sid acc obs).1)%nat.
Proof.
  intros Hinv. unfold insert_observation. case_bool_decide; [done|].
  cbn. rewrite length_app. cbn. lia.
Qed.

(** The count [insert_observations] returns is the number of rows it added. *)
Lemma foldl_insert_observation_count sid obss t :
  (length (foldl (insert_observation sid) (0%nat, t) obss).2
   = length t + (foldl (insert_observation sid) (0%nat, t) obss).1)%nat.
Proof.
  assert (∀ acc n0 (t0 : list observation_row), (length acc.2 + n0 = length t0 + acc.1)%nat →
            (length (foldl (insert_observation sid) acc obss).2 + n0
             = length t0 + (foldl (insert_observation sid) acc obss).1)%nat) as Hgen.
  { induction obss as [|o obss IH]; intros acc n0 t0 Hinv; [done|].
    cbn [foldl]. apply IH. by apply insert_observation_count. }
  specialize (Hgen (0%nat, t) 0%nat t). cbn in Hgen. lia.
Qed.

Lemma extract_series_ok sid start_date end_date force_update w :
  ∃ b w', extract_series env sid start_date end_date force_update w = (Ok b, w').
Proof.
  destruct (skipped sid force_update w) eqn:Hs.
  - rewrite extract_series_skipped by done. eauto.
  - rewrite extract_series_eq by done. cbn zeta.
    destruct (get_series_info env sid w).1 as [info|e]; [|eauto].
    destruct (metadata_write_ok env info); [|eauto].
    destruct (http_get env _ _) as [data|e]; [|eauto].
    destruct (default [] (observations_of data)); eauto.
Qed.

(** [extract_multiple_series] returns a result for every series id given. *)
Lemma extract_loop_total series_ids start_date end_date force_update results w :
  ∃ results' w',
    extract_loop env series_ids start_date end_date force_update results w = (Ok results', w') ∧
    ∀ sid, sid ∈ series_ids ∨ is_Some (results !! sid) → is_Some (results' !! sid).
Proof.
  revert results w. induction series_ids as [|sid rest IH]; intros results w.
  - exists results, w. split; [done|]. intros sid [Hin|Hs]; [by apply elem_of_nil in Hin|done].
  - cbn [extract_loop]. unfold mbind, prog_bind, bind.
    destruct (extract_series_ok sid start_date end_date force_update w) as (b & w1 & ->).
    destruct (IH (<[sid := b]> results) w1) as (results' & w' & -> & Hres).
    exists results', w'. split; [done|]. intros sid' [Hin|Hs].
    + apply elem_of_cons in Hin as [->|Hin]; [|by apply Hres; left].
      apply Hres. right. rewrite lookup_insert_eq. eauto.
    + apply Hres. right. rewrite lookup_insert. case_decide; eauto.
Qed.
End package_extraction_log.

(** C8 (amended). Every call of the script's [extract_and_store] appends
    exactly one row to [extraction_log], for that series: status "success"
    and the number of fetched records when the fetch returned (zero records
    included: "0 records"), status "error" and the exception text when it
    raised.  A call of [FREDExtractor.extract_series] appends no row when the
    series is stored already and [force_update] is off; otherwise it appends
    exactly one row, for that series: "failed" with the exception text when a
    provider request raised, "failed" when the metadata write failed,
    "success" with count 0 when no observation came back, and otherwise
    "success" with the number of rows that were newly inserted. *)
Theorem extraction_log_entries :
  (∀ (env : ExtractScript.environment) (sid : string) (default_start_date : Z)
     (w : ExtractScript.world),
     ∃ entry,
       ExtractScript.extraction_log
         (ExtractScript.db (ExtractScript.extract_and_store env sid default_start_date w).2)
       = ExtractScript.extraction_log (ExtractScript.db w) ++ [entry] ∧
       ExtractScript.log_series_id entry = sid ∧
       match ExtractScript.fred_get_series env (ExtractScript.calls w) sid
               (ExtractScript.start_of sid default_start_date w) with
       | Ok data =>
           ExtractScript.status entry = "success" ∧
           ExtractScript.message entry = pretty (length data) +:+ " records" ∧
           match data with
           | [] => ExtractScript.message entry = "0 records"
           | _ => True
           end
       | Raise e =>
           ExtractScript.status entry = "error" ∧ ExtractScript.message entry = e
       end)
  ∧
  (∀ (env : Package.environment) (sid : string) (start_date end_date : option string)
     (force_update : bool) (w : Package.world),
     let w' := (Package.extract_series env sid start_date end_date force_update w).2 in
     if Package.skipped sid force_update w then w' = w
     else
       ∃ entry,
         Package.extraction_log (Package.db w')
         = Package.extraction_log (Package.db w) ++ [entry] ∧
         Package.log_series_id entry = sid ∧
         match (Package.get_series_info env sid w).1 with
         | Raise e => entry = Package.LogRow sid "failed" 0 (Some e)
         | Ok info =>
             if Package.metadata_write_ok env info then
               match Package.http_get env
                       (Package.requests w ++ [Package.info_request sid])
                       (Package.observations_request sid start_date end_date) with
               | Raise e => entry = Package.LogRow sid "failed" 0 (Some e)
               | Ok data =>
                   Package.status entry = "success" ∧
                   (length (Package.observations (Package.db w'))
                    = length (Package.observations (Package.db w))
                      + Package.records_extracted entry)%nat ∧
                   match default [] (Package.observations_of data) with
                   | [] => entry = Package.LogRow sid "success" 0 (Some "No observations found")
                   | _ => Package.error_message entry = None
                   end
               end
             else entry = Package.LogRow sid "failed" 0 (Some "Failed to store metadata")
         end).
Proof.
  split.
  - intros env sid default_start_date w.
    destruct (extract_and_store_log env sid default_start_date w) as (entry & Hlog & Hsid & Hcase).
    exists entry. split; [done|]. split; [done|].
    destruct (ExtractScript.fred_get_series env _ sid _) as [data|e]; [|done].
    destruct Hcase as [Hst Hmsg]. split; [done|]. split; [done|].
    destruct data; [|done]. by rewrite Hmsg.
  - intros env sid start_date end_date force_update w w'. subst w'.
    destruct (Package.skipped sid force_update w) eqn:Hs.
    { by rewrite extract_series_skipped. }
    rewrite extract_series_eq by done. cbn zeta.
    destruct (Package.get_series_info env sid w).1 as [info|e]; [|by eexists].
    destruct (Package.metadata_write_ok env info); [|by eexists].
    cbn [Package.requests].
    destruct (Package.http_get env _ _) as [data|e]; [|by eexists].
    destruct (default [] (Package.observations_of data)) as [|o obss].
    { eexists. split; [done|]. split; [done|]. split; [done|]. split; [|done].
      cbn. lia. }
    eexists. split; [done|]. split; [done|]. split; [done|]. split; [|done].
    cbn [snd Package.add_log Package.db Package.observations Package.records_extracted].
    apply foldl_insert_observation_count.
Qed.

(** C8 as stated fails on [extract_series]: for a series that is stored
    already, a call without [force_update] appends no log row; and where one
    observation is fetched whose key is stored already, the count logged is
    0, the number of rows inserted, not 1, the number fetched. *)
Lemma extract_series_skip_logs_nothing :
  (let w := Samples.package_world_with_gdp in
   let w' := (Package.extract_series Samples.package_env_refusing
                "GDP" (Some "2020-01-01") None false w).2 in
   Package.extraction_log (Package.db w') = [] ∧
   ¬ ∃ entry, Package.extraction_log (Package.db w')
              = Package.extraction_log (Package.db w) ++ [entry])
  ∧
  (let env := Fixtures.package_env_one_observation in
   let w := Samples.package_world_with_value in
   let w' := (Package.extract_series env "X" None None false w).2 in
   Package.http_get env [Package.info_request "X"]
     (Package.observations_request "X" None None)
   = Ok (Package.Response None (Some [Samples.missing_observation])) ∧
   Package.extraction_log (Package.db w') = [Package.LogRow "X" "success" 0 None]).
Proof.
  split.
  - split; [by vm_compute|]. intros [entry Hentry]. vm_compute in Hentry. discriminate.
  - split; by vm_compute.
Qed.

(** ** Failure of the metadata lookup *)
Section metadata_lookup.

Lemma extract_and_store_lookup_failed (env : ExtractScript.environment) sid
    default_start_date w data e :
  let start := ExtractScript.start_of sid default_start_date w in
  ExtractScript.fred_get_series env (ExtractScript.calls w) sid start = Ok data →
  ExtractScript.fred_get_series_info env
    (ExtractScript.calls w ++ [ExtractScript.GetSeries sid start]) sid = Raise e →
  ExtractScript.extract_and_store env sid default_start_date w =
    (Ok tt,
     ExtractScript.World
       (ExtractScript.append_log env sid "success" (pretty (length data) +:+ " records")
          (foldl (λ d item, ExtractScript.insert_observation sid item d)
                 (ExtractScript.db w) data))
       (ExtractScript.calls w ++
          [ExtractScript.GetSeries sid start; ExtractScript.GetSeriesInfo sid])).
Proof.
  intros start Hdata Hinfo. rewrite extract_and_store_eq. cbn zeta.
  fold start. rewrite Hdata, Hinfo. by rewrite <- (assoc_L (++)).
Qed.

(** C5 (amended). In [FREDExtractor.extract_series], when the series is not
    skipped and the metadata lookup fails, no metadata row and no observation
    is written, one "failed" log row with the error text is appended, the
    only request made is the lookup (the observations are not requested), and
    [extract_multiple_series] goes on with the remaining series and returns
    a result for every series.  In the script's [extract_and_store] the
    observations are fetched before the lookup; when the lookup then fails
    no metadata row is written, the fetched observations are stored and the
    log row appended is the "success" row with the record count; [main] goes
    on to every series of the catalog. *)
Theorem metadata_lookup_failure :
  (∀ (env : Package.environment) (sid : string) (start_date end_date : option string)
     (force_update : bool) (w : Package.world) (e : string),
     Package.skipped sid force_update w = false →
     (Package.get_series_info env sid w).1 = Raise e →
     let w' := (Package.extract_series env sid start_date end_date force_update w).2 in
     Package.series_metadata (Package.db w') = Package.series_metadata (Package.db w) ∧
     Package.observations (Package.db w') = Package.observations (Package.db w) ∧
     Package.extraction_log (Package.db w')
     = Package.extraction_log (Package.db w) ++ [Package.LogRow sid "failed" 0 (Some e)] ∧
     Package.requests w' = Package.requests w ++ [Package.info_request sid] ∧
     ∀ rest results,
       Package.extract_loop env (sid :: rest) start_date end_date force_update results w
       = Package.extract_loop env rest start_date end_date force_update
           (<[sid := false]> results) w')
  ∧
  (∀ (env : Package.environment) (series_ids : list string)
     (start_date end_date : option string) (force_update : bool) (w : Package.world),
     ∃ results w',
       Package.extract_multiple_series env series_ids start_date end_date force_update w
       = (Ok results, w') ∧
       ∀ sid, sid ∈ series_ids → is_Some (results !! sid))
  ∧
  (∀ (env : ExtractScript.environment) (sid : string) (default_start_date : Z)
     (w : ExtractScript.world) (data : list (Z * pyval)) (e : string),
     let start := ExtractScript.start_of sid default_start_date w in
     ExtractScript.fred_get_series env (ExtractScript.calls w) sid start = Ok data →
     ExtractScript.fred_get_series_info env
       (ExtractScript.calls w ++ [ExtractScript.GetSeries sid start]) sid = Raise e →
     let w' := (ExtractScript.extract_and_store env sid default_start_date w).2 in
     ExtractScript.series_metadata (ExtractScript.db w')
     = ExtractScript.series_metadata (ExtractScript.db w) ∧
     ExtractScript.calls w'
     = ExtractScript.calls w ++
         [ExtractScript.GetSeries sid start; ExtractScript.GetSeriesInfo sid] ∧
     ExtractScript.fred_data_long (ExtractScript.db w')
     = ExtractScript.fred_data_long
         (foldl (λ d item, ExtractScript.insert_observation sid item d)
                (ExtractScript.db w) data) ∧
     ∃ entry,
       ExtractScript.extraction_log (ExtractScript.db w')
       = ExtractScript.extraction_log (ExtractScript.db w) ++ [entry] ∧
       ExtractScript.log_series_id entry = sid ∧
       ExtractScript.status entry = "success" ∧
       ExtractScript.message entry = pretty (length data) +:+ " records")
  ∧
  (∀ (env : ExtractScript.environment) (start_date : Z)
     (common_series : list (string * list string)) (w : ExtractScript.world) (sid : string),
     sid ∈ concat (common_series.*2) →
     let w' := (ExtractScript.main env start_date common_series w).2 in
     (∃ start, ExtractScript.GetSeries sid start ∈ ExtractScript.calls w') ∧
     (∃ entry, entry ∈ ExtractScript.extraction_log (ExtractScript.db w') ∧
               ExtractScript.log_series_id entry = sid)).
Proof.
  split; [|split; [|split]].
  - intros env sid start_date end_date force_update w e Hs He w'. subst w'.
    repeat split.
    1-4: by rewrite (extract_series_lookup_failed env _ _ _ _ _ e).
    intros rest results. cbn [Package.extract_loop]. unfold mbind, prog_bind, bind.
    by rewrite (extract_series_lookup_failed env _ _ _ _ _ e).
  - intros env series_ids start_date end_date force_update w.
    destruct (extract_loop_total env series_ids start_date end_date force_update ∅ w)
      as (results & w' & Hrun & Hres).
    exists results, w'. split; [done|]. intros sid Hin. apply Hres. by left.
  - intros env sid default_start_date w data e start Hdata Hinfo w'. subst w'.
    rewrite (extract_and_store_lookup_failed env sid default_start_date w data e) by done.
    cbn [snd ExtractScript.db ExtractScript.calls]. repeat split.
    + cbn. apply foldl_insert_observation_metadata.
    + eexists. cbn. rewrite foldl_insert_observation_log. done.
  - intros env start_date common_series w sid Hin.
    by apply main_reaches_every_series.
Qed.

Lemma metadata_lookup_failure_witness :
  (let w := Samples.package_empty_world in
   let w' := (Package.extract_series Samples.package_env_refusing
                "NOSUCH" None None false w).2 in
   Package.series_metadata (Package.db w') = [] ∧
   Package.extraction_log (Package.db w')
   = [Package.LogRow "NOSUCH" "failed" 0 (Some "400 Client Error: Bad Request")] ∧
   Package.requests w' = [Package.info_request "NOSUCH"])
  ∧
  (let w := Samples.script_empty_world in
   let w' := (ExtractScript.extract_and_store Samples.script_env_no_metadata
                "X" (ordinal 1950 1 1) w).2 in
   ExtractScript.series_metadata (ExtractScript.db w') = ∅ ∧
   ExtractScript.calls w'
   = [ExtractScript.GetSeries "X" (ordinal 1950 1 1); ExtractScript.GetSeriesInfo "X"])
  ∧
  (∃ start, ExtractScript.GetSeries "B" start
            ∈ ExtractScript.calls
                (ExtractScript.main Samples.script_env_no_metadata (ordinal 1950 1 1)
                   [("rates", ["A"; "B"])] Samples.script_empty_world).2).
Proof.
  split; [|split].
  - pose proof (proj1 metadata_lookup_failure Samples.package_env_refusing
                  "NOSUCH" None None false Samples.package_empty_world
                  "400 Client Error: Bad Request" eq_refl eq_refl) as H.
    cbn zeta in H. destruct H as (Hm & _ & Hl & Hr & _). cbn zeta. auto.
  - pose proof (proj1 (proj2 (proj2 metadata_lookup_failure))
                  Samples.script_env_no_metadata "X" (ordinal 1950 1 1)
                  Samples.script_empty_world
                  [(ordinal 1950 1 1, PyFloat 1%float)]
                  "Bad Request.  The series does not exist." eq_refl eq_refl) as H.
    cbn zeta in H. destruct H as (Hm & Hc & _). cbn zeta. auto.
  - pose proof (proj2 (proj2 (proj2 metadata_lookup_failure))
                  Samples.script_env_no_metadata (ordinal 1950 1 1)
                  [("rates", ["A"; "B"])] Samples.script_empty_world "B") as H.
    cbn zeta in H. apply H. cbn. rewrite !elem_of_cons. auto.
Defined.

(** C5 as stated fails on the script: the provider refuses the metadata
    lookup, yet the observations were requested before it, they are stored,
    and the log row appended has status "success", not an error status. *)
Lemma metadata_failure_in_script_is_not_logged :
  let env := Samples.script_env_no_metadata in
  let d0 := ordinal 1950 1 1 in
  let w' := (ExtractScript.extract_and_store env "X" d0 Samples.script_empty_world).2 in
  ExtractScript.fred_get_series_info env [ExtractScript.GetSeries "X" d0] "X"
  = Raise "Bad Request.  The series does not exist." ∧
  ExtractScript.calls w' = [ExtractScript.GetSeries "X" d0; ExtractScript.GetSeriesInfo "X"] ∧
  ExtractScript.status <$> ExtractScript.extraction_log (ExtractScript.db w') = ["success"] ∧
  ExtractScript.fred_data_long (ExtractScript.db w')
  = [ExtractScript.LongRow "X" d0 (Some 1%float)] ∧
  ¬ ((∃ entry, entry ∈ ExtractScript.extraction_log (ExtractScript.db w') ∧
               ExtractScript.status entry = "error") ∧
     (∀ start, ExtractScript.GetSeries "X" start ∉ ExtractScript.calls w')).
Proof.
  repeat split; try by vm_compute.
  intros [_ Hnone]. apply (Hnone (ordinal 1950 1 1)). vm_compute. apply list_elem_of_here.
Qed.
End metadata_lookup.

(** ** The provider's missing-value token *)
Section missing_value.

Lemma observation_params_never_sentinel sid obs :
  Package.value (Package.observation_params sid obs) ≠ Some ".".
Proof. unfold Package.observation_params. cbn. by case_bool_decide. Qed.

Lemma observation_params_sentinel sid obs :
  obs !! "value" = Some "." →
  Package.observation_params sid obs
  = Package.ObservationRow sid (obs !! "date") None
      (obs !! "realtime_start") (obs !! "realtime_end").
Proof.
  intros Hv. unfold Package.observation_params.
  by rewrite bool_decide_eq_false_2 by (by intros []).
Qed.

Lemma foldl_insert_observation_rows sid obss acc r :
  r ∈ (foldl (Package.insert_observation sid) acc obss).2 →
  r ∈ acc.2 ∨ ∃ obs, obs ∈ obss ∧ r = Package.observation_params sid obs.
Proof.
  revert acc. induction obss as [|o obss IH]; intros acc Hr; [by left|].
  cbn [foldl] in Hr. apply IH in Hr as [Hr|(obs & Hin & ->)].
  - unfold Package.insert_observation in Hr. case_bool_decide; [by left|].
    cbn in Hr. apply elem_of_app in Hr as [Hr|Hr%list_elem_of_singleton]; [by left|].
    right. exists o. split; [apply list_elem_of_here|done].
  - right. exists obs. split; [by apply list_elem_of_further|done].
Qed.

Lemma package_insert_observations_eq sid obss w :
  Package.observations (Package.db (Package.insert_observations sid obss w).2)
  = (foldl (Package.insert_observation sid) (0%nat, Package.observations (Package.db w)) obss).2.
Proof.
  unfold Package.insert_observations, mbind, prog_bind, bind, Package.read_db. cbn.
  by destruct (foldl _ _ obss).
Qed.

(** C7 (amended). In [FREDDatabase.insert_observations] an observation whose
    raw value is the token "." is bound with value NULL; no call ever adds a
    row that holds the token; and when no row with the observation's
    (series_id, date, realtime_start, realtime_end) is stored, the row stored
    for it holds NULL (a stored row with that key is kept as it is: the
    offer inserts nothing).  In the script the client delivers a missing
    value as NaN (or None), and [insert_observations] leaves NULL stored for
    (series id, date). *)
Theorem missing_value_is_null :
  (∀ (sid : string) (obs : Package.json_object),
     obs !! "value" = Some "." →
     Package.value (Package.observation_params sid obs) = None)
  ∧
  (∀ (sid : string) (obss : list Package.json_object) (w : Package.world)
     (r : Package.observation_row),
     r ∈ Package.observations (Package.db (Package.insert_observations sid obss w).2) →
     Package.value r = Some "." →
     r ∈ Package.observations (Package.db w))
  ∧
  (∀ (sid : string) (obs : Package.json_object) (w : Package.world),
     obs !! "value" = Some "." →
     ¬ Exists (Package.conflicts (Package.observation_params sid obs))
         (Package.observations (Package.db w)) →
     Package.observations (Package.db (Package.insert_observations sid [obs] w).2)
     = Package.observations (Package.db w) ++
         [Package.ObservationRow sid (obs !! "date") None
            (obs !! "realtime_start") (obs !! "realtime_end")])
  ∧
  (∀ (sid : string) (d : Z) (v : pyval) (data1 data2 : list (Z * pyval))
     (w : ExtractScript.world),
     v = PyNone ∨ v = PyFloat nan →
     d ∉ data2.*1 →
     filter (λ r, ExtractScript.same_key sid d r)
       (ExtractScript.fred_data_long
          (ExtractScript.db
             (ExtractScript.insert_observations sid (data1 ++ (d, v) :: data2) w).2))
     = [ExtractScript.LongRow sid d None])
  ∧
  (∀ (sid : string) (obs : Package.json_object) (w : Package.world),
     Exists (Package.conflicts (Package.observation_params sid obs))
       (Package.observations (Package.db w)) →
     (Package.insert_observations sid [obs] w).1 = Ok 0%nat ∧
     Package.observations (Package.db (Package.insert_observations sid [obs] w).2)
     = Package.observations (Package.db w)).
Proof.
  split; [|split; [|split; [|split]]].
  - intros sid obs Hv. by rewrite observation_params_sentinel.
  - intros sid obss w r Hr Hv. rewrite package_insert_observations_eq in Hr.
    apply foldl_insert_observation_rows in Hr as [Hr|(obs & _ & ->)]; [done|].
    by destruct (observation_params_never_sentinel sid obs).
  - intros sid obs w Hv Hfree. rewrite package_insert_observations_eq. cbn [foldl].
    rewrite insert_observation_inserted by done. cbn [snd].
    by rewrite observation_params_sentinel.
  - intros sid d v data1 data2 w Hv Hd.
    rewrite insert_observations_last_wins by done.
    by destruct Hv as [-> | ->].
  - intros sid obs w Hstored. rewrite insert_observations_single. cbn zeta.
    by rewrite insert_observation_ignored.
Qed.

Lemma missing_value_is_null_witness :
  Package.value (Package.observation_params "X" Samples.missing_observation) = None
  ∧ Package.observations
      (Package.db (Package.insert_observations "X" [Samples.missing_observation]
                     Samples.package_empty_world).2)
    = [Package.ObservationRow "X" (Some "2024-01-01") None
         (Some "2024-01-02") (Some "2024-01-02")]
  ∧ filter (λ r, ExtractScript.same_key "X" (ordinal 2024 1 1) r)
      (ExtractScript.fred_data_long
         (ExtractScript.db
            (ExtractScript.insert_observations "X"
               [(ordinal 2024 1 1, PyFloat 5%float); (ordinal 2024 1 1, PyFloat nan)]
               Samples.script_empty_world).2))
    = [ExtractScript.LongRow "X" (ordinal 2024 1 1) None].
Proof.
  split; [|split].
  - apply (proj1 missing_value_is_null "X" Samples.missing_observation). reflexivity.
  - apply (proj1 (proj2 (proj2 missing_value_is_null)) "X" Samples.missing_observation
             Samples.package_empty_world); [reflexivity|].
    intros Hex. apply Exists_nil in Hex. exact Hex.
  - apply (proj1 (proj2 (proj2 (proj2 missing_value_is_null))) "X" (ordinal 2024 1 1)
             (PyFloat nan) [(ordinal 2024 1 1, PyFloat 5%float)] []
             Samples.script_empty_world); [by right|].
    apply not_elem_of_nil.
Defined.

(** C7 as stated fails on [FREDDatabase.insert_observations]: 5.0 is stored
    for the key, the provider then reports "." for it, and 5.0 stays
    stored. *)
Lemma missing_value_ignored_on_conflict :
  let w' := (Package.insert_observations "X" [Samples.missing_observation]
               Samples.package_world_with_value).2 in
  Samples.missing_observation !! "value" = Some "." ∧
  Package.value <$>
    filter (λ r, Package.series_id r = "X" ∧ Package.date r = Some "2024-01-01")
           (Package.observations (Package.db w'))
  = [Some "5.0"] ∧
  ¬ (∀ r, r ∈ Package.observations (Package.db w') →
          Package.series_id r = "X" → Package.date r = Some "2024-01-01" →
          Package.value r = None).
Proof.
  split; [by vm_compute|]. split; [by vm_compute|].
  intros Hnull.
  specialize (Hnull (Package.ObservationRow "X" (Some "2024-01-01") (Some "5.0")
                       (Some "2024-01-02") (Some "2024-01-02"))).
  discriminate Hnull; [|done|done]. vm_compute. apply list_elem_of_here.
Qed.
End missing_value.

(** ** Denormalisation (transform_fred_data.py) *)

(** *** drop_duplicates *)
Section drop_duplicates.
Import Transform.

Lemma drop_duplicates_cons r df :
  drop_duplicates (r :: df) =
    if bool_decide (obs_key r ∈ obs_key <$> df)
    then drop_duplicates df
    else r :: drop_duplicates df.
Proof. done. Qed.

Lemma drop_duplicates_subset df r : r ∈ drop_duplicates df → r ∈ df.
Proof.
  induction df as [|r0 df IH]; [done|]. rewrite drop_duplicates_cons. case_bool_decide.
  - intros Hr. right. by apply IH.
  - intros [->|Hr]%elem_of_cons; [left|right; by apply IH].
Qed.

Lemma drop_duplicates_keys df k :
  k ∈ obs_key <$> drop_duplicates df ↔ k ∈ obs_key <$> df.
Proof.
  induction df as [|r0 df IH]; [done|].
  rewrite drop_duplicates_cons. case_bool_decide as Hk.
  - rewrite IH, fmap_cons, elem_of_cons. split; [by right|]. by intros [->|Hin].
  - by rewrite !fmap_cons, !elem_of_cons, IH.
Qed.

Lemma drop_duplicates_NoDup df : NoDup (obs_key <$> drop_duplicates df).
Proof.
  induction df as [|r0 df IH]; [constructor|].
  rewrite drop_duplicates_cons. case_bool_decide as Hk; [done|].
  rewrite fmap_cons. apply NoDup_cons. split; [|done]. by rewrite drop_duplicates_keys.
Qed.

(** Of the rows that share a key, the last one is kept. *)
Lemma drop_duplicates_last df1 r df2 :
  obs_key r ∉ obs_key <$> df2 →
  r ∈ drop_duplicates (df1 ++ r :: df2).
Proof.
  intros Hlast. induction df1 as [|r0 df1 IH].
  - rewrite app_nil_l, drop_duplicates_cons, bool_decide_eq_false_2 by done. left.
  - rewrite <- app_comm_cons, drop_duplicates_cons. case_bool_decide; [done|]. by right.
Qed.

(** A frame without duplicate keys is left as it is. *)
Lemma drop_duplicates_id df : NoDup (obs_key <$> df) → drop_duplicates df = df.
Proof.
  induction df as [|r0 df IH]; [done|]. rewrite fmap_cons, NoDup_cons. intros [Hr0 Hnd].
  rewrite drop_duplicates_cons, bool_decide_eq_false_2 by done. by rewrite IH.
Qed.

(** Dropping duplicates and selecting rows by their key commute. *)
Lemma drop_duplicates_filter (P : Z * string → Prop) `{!∀ k, Decision (P k)} df :
  drop_duplicates (filter (λ r, P (obs_key r)) df)
  = filter (λ r, P (obs_key r)) (drop_duplicates df).
Proof.
  induction df as [|r0 df IH]; [done|].
  destruct (decide (P (obs_key r0))) as [HP|HP].
  - rewrite filter_cons_True by done. rewrite !drop_duplicates_cons.
    assert (obs_key r0 ∈ obs_key <$> filter (λ r, P (obs_key r)) df
            ↔ obs_key r0 ∈ obs_key <$> df) as Hiff.
    { rewrite !list_elem_of_fmap. split.
      - intros (r & Hk & Hr%list_elem_of_filter). exists r. tauto.
      - intros (r & Hk & Hr). exists r. split; [done|].
        apply list_elem_of_filter. split; [|done]. by rewrite <- Hk. }
    destruct (decide (obs_key r0 ∈ obs_key <$> df)) as [Hin|Hin].
    + rewrite !bool_decide_eq_true_2 by tauto. done.
    + rewrite !bool_decide_eq_false_2 by tauto.
      rewrite filter_cons_True by done. by rewrite IH.
  - rewrite filter_cons_False by done. rewrite drop_duplicates_cons. case_bool_decide; [done|].
    by rewrite filter_cons_False.
Qed.
End drop_duplicates.

(** *** pivot, column names, reindex *)
Section pivot.
Import Transform.

#[global] Instance fred_col_inj : Inj (=) (=) fred_col.
Proof. intros a b Hab. unfold fred_col in Hab. cbn in Hab. by simplify_eq. Qed.

(** A cell of the pivot holds a value only if a row of the frame gives it. *)
Lemma pivot_row_Some d df s v :
  pivot_row d df !! s = Some v → (d, s, Some v) ∈ df.
Proof.
  unfold pivot_row. intros Hl%elem_of_list_to_map_2.
  apply list_elem_of_omap in Hl as ([[d' s'] ov] & Hin & Hr).
  unfold obs_date, obs_series, obs_value in Hr. cbn in Hr.
  case_bool_decide as Hd; [|done]. destruct ov as [v'|]; [|done]. by simplify_eq/=.
Qed.

Lemma pivot_row_lookup d df s v :
  NoDup (obs_key <$> df) → (d, s, Some v) ∈ df → pivot_row d df !! s = Some v.
Proof.
  intros Hnd Hin. unfold pivot_row. apply elem_of_list_to_map_1.
  - clear Hin. induction df as [|[[d' s'] ov] df IH]; [constructor|].
    rewrite fmap_cons, NoDup_cons in Hnd. destruct Hnd as [Hk Hnd].
    cbn [omap list_omap]. unfold obs_date at 1, obs_series at 1, obs_value at 1. cbn [fst snd].
    case_bool_decide as Hd; [|by apply IH]. destruct ov as [v'|]; [|by apply IH].
    cbn [fmap option_fmap option_map]. rewrite fmap_cons. apply NoDup_cons.
    split; [|by apply IH]. cbn [fst]. intros Hs.
    apply list_elem_of_fmap in Hs as ([s'' v''] & -> & Hs).
    apply list_elem_of_omap in Hs as ([[d2 s2] ov2] & Hin2 & Hr).
    unfold obs_date, obs_series, obs_value in Hr. cbn in Hr.
    case_bool_decide as Hd2; [|done]. destruct ov2; [|done]. simplify_eq/=.
    apply Hk. apply list_elem_of_fmap. by exists (d, s'', Some v'').
  - apply list_elem_of_omap. exists (d, s, Some v). split; [done|].
    unfold obs_date, obs_series, obs_value. cbn. by rewrite bool_decide_eq_true_2.
Qed.

(** The cells of a date depend on the rows of that date only. *)
Lemma pivot_row_filter (P : Z * string → Prop) `{!∀ k, Decision (P k)} d df :
  (∀ s, P (d, s)) →
  pivot_row d (filter (λ r, P (obs_key r)) df) = pivot_row d df.
Proof.
  intros HP. unfold pivot_row. f_equal.
  induction df as [|[[d' s'] ov] df IH]; [done|].
  destruct (decide (P (obs_key (d', s', ov)))) as [Hk|Hk].
  - rewrite filter_cons_True by done. cbn [omap list_omap]. by rewrite IH.
  - rewrite filter_cons_False by done. cbn [omap list_omap]. rewrite IH.
    rewrite bool_decide_eq_false_2; [done|].
    unfold obs_date. cbn [fst snd]. intros ->. apply Hk. apply HP.
Qed.

Lemma rename_row_lookup row s : rename_row row !! fred_col s = row !! s.
Proof. unfold rename_row. apply (lookup_kmap fred_col). Qed.

Lemma rename_row_Some row c v :
  rename_row row !! c = Some v → ∃ s, c = fred_col s ∧ row !! s = Some v.
Proof. unfold rename_row. intros Hc. by apply (lookup_kmap_Some fred_col) in Hc. Qed.

Lemma pivot_ok df :
  NoDup (obs_key <$> df) →
  pivot df =
    Ok (Frame (merge_sort string_le (remove_dups (obs_series <$> df)))
              ((λ d, (d, pivot_row d df)) <$> merge_sort Z.le (remove_dups (obs_date <$> df)))).
Proof. intros Hnd. unfold pivot. by rewrite bool_decide_eq_true_2. Qed.

Lemma lookup_list_to_map_fmap {A} (f : Z → A) (l : list Z) d :
  (list_to_map ((λ d, (d, f d)) <$> l) : gmap Z A) !! d
  = if bool_decide (d ∈ l) then Some (f d) else None.
Proof.
  induction l as [|d0 l IH]; [done|].
  rewrite fmap_cons, list_to_map_cons. destruct (decide (d0 = d)) as [->|Hne].
  - rewrite lookup_insert_eq. by rewrite bool_decide_eq_true_2 by left.
  - rewrite lookup_insert_ne by done. rewrite IH. case_bool_decide as Hin.
    + by rewrite bool_decide_eq_true_2 by by right.
    + rewrite bool_decide_eq_false_2; [done|]. by intros [?|?]%elem_of_cons.
Qed.

Lemma pivot_row_absent d df : d ∉ obs_date <$> df → pivot_row d df = ∅.
Proof.
  intros Hd. unfold pivot_row.
  replace (omap _ df) with (@nil (string * float)); [done|]. symmetry.
  induction df as [|r df IH]; [done|]. rewrite fmap_cons, not_elem_of_cons in Hd.
  destruct Hd as [Hr Hd]. cbn [omap list_omap].
  rewrite bool_decide_eq_false_2 by done. by apply IH.
Qed.

(** After the pivot, the renaming and the reindexing, the row of every index
    date holds the cells of that date, under the prefixed column names. *)
Lemma reindex_rename_pivot shell df wide :
  pivot df = Ok wide →
  rows (reindex shell (rename_columns wide))
  = (λ d, (d, rename_row (pivot_row d df))) <$> shell.
Proof.
  unfold pivot. case_bool_decide as Hnd; [|done]. intros [= <-].
  unfold reindex, rename_columns. cbn [rows columns].
  apply list_fmap_ext. intros _ d _. f_equal.
  rewrite <- list_fmap_compose.
  rewrite (lookup_list_to_map_fmap (λ d, rename_row (pivot_row d df))).
  case_bool_decide as Hin; [done|]. cbn.
  rewrite pivot_row_absent; [by unfold rename_row; rewrite kmap_empty|].
  intros Hd. apply Hin.
  rewrite merge_sort_Permutation. by apply elem_of_remove_dups.
Qed.
End pivot.

(** *** sort_index, ffill, truncation *)
Section fill.
Import Transform.

#[global] Instance index_le_trans : Transitive index_le.
Proof. intros x y z. unfold index_le. lia. Qed.

#[global] Instance index_le_total : Total index_le.
Proof. intros x y. unfold index_le. lia. Qed.

(** The function never raises: the pivot always gets a frame without
    duplicate keys. *)
Lemma denormalize_observations_eq today df shell :
  denormalize_observations today df shell =
    Ok (Frame
          (fred_col <$> merge_sort string_le (remove_dups (obs_series <$> drop_duplicates df)))
          (filter (λ r, r.1 ≤ today)
             (ffill_rows ∅ (merge_sort index_le ((λ d, (d, cells_of df d)) <$> shell))))).
Proof.
  unfold denormalize_observations.
  pose proof (pivot_ok (drop_duplicates df) (drop_duplicates_NoDup df)) as Hp.
  rewrite Hp. unfold loc_until, ffill, sort_index. cbn [rows columns]. f_equal. f_equal.
  rewrite (reindex_rename_pivot shell _ _ Hp). done.
Qed.

Lemma ffill_rows_dates prev rs : (ffill_rows prev rs).*1 = rs.*1.
Proof.
  revert prev. induction rs as [|[d r] rs IH]; intros prev; [done|].
  cbn [ffill_rows]. rewrite !fmap_cons. by rewrite IH.
Qed.

(** A filled row is the row itself over what was carried to it. *)
Lemma ffill_rows_elem prev rs d row :
  (d, row) ∈ ffill_rows prev rs →
  ∃ row0 carried, (d, row0) ∈ rs ∧ row = row0 ∪ carried.
Proof.
  revert prev. induction rs as [|[d0 r0] rs IH]; intros prev Hin; [by apply elem_of_nil in Hin|].
  cbn [ffill_rows] in Hin. apply elem_of_cons in Hin as [[= -> ->]|Hin].
  - exists r0, prev. split; [left|done].
  - destruct (IH _ Hin) as (row0 & carried & Hin0 & ->).
    exists row0, carried. split; [by right|done].
Qed.

(** A value in a filled row was carried in from above the frame, or stands
    in a row of the frame whose date is not later. *)
Lemma ffill_rows_source prev rs d row c v :
  StronglySorted index_le rs →
  (d, row) ∈ ffill_rows prev rs →
  row !! c = Some v →
  prev !! c = Some v ∨ ∃ d' row', (d', row') ∈ rs ∧ d' ≤ d ∧ row' !! c = Some v.
Proof.
  intros Hsorted. revert prev.
  induction Hsorted as [|[d0 r0] rs Hsorted IH Hhd]; intros prev Hin Hv;
    [by apply elem_of_nil in Hin|].
  cbn [ffill_rows] in Hin. apply elem_of_cons in Hin as [[= -> ->]|Hin].
  - apply lookup_union_Some_raw in Hv as [Hv|[_ Hv]]; [|by left].
    right. exists d0, r0. split; [left|]. split; [lia|done].
  - assert (d0 ≤ d) as Hle.
    { assert (d ∈ (ffill_rows (r0 ∪ prev) rs).*1) as Hd.
      { apply list_elem_of_fmap. by exists (d, row). }
      rewrite ffill_rows_dates in Hd. apply list_elem_of_fmap in Hd as ([d1 r1] & -> & Hin1).
      rewrite Forall_forall in Hhd. by apply (Hhd (d1, r1)). }
    destruct (IH _ Hin Hv) as [Hprev|(d' & row' & Hin' & Hle' & Hv')].
    + apply lookup_union_Some_raw in Hprev as [Hprev|[_ Hprev]]; [|by left].
      right. exists d0, r0. split; [left|done].
    + right. exists d', row'. split; [by right|done].
Qed.

(** Every value of the wide frame is the value of an observation of that
    column's series, dated in the index and not later than the row. *)
Lemma denormalize_cell_source today df shell wide d row c v :
  denormalize_observations today df shell = Ok wide →
  (d, row) ∈ rows wide →
  row !! c = Some v →
  ∃ d' s, c = fred_col s ∧ d' ≤ d ∧ d' ∈ shell ∧ (d', s, Some v) ∈ drop_duplicates df.
Proof.
  rewrite denormalize_observations_eq. intros [= <-]. cbn [rows].
  intros [_ Hin]%list_elem_of_filter Hv.
  apply (ffill_rows_source ∅ _ d row c v) in Hin; [|apply StronglySorted_merge_sort; apply _|done].
  destruct Hin as [Hempty|(d' & row' & Hin' & Hle & Hv')]; [by rewrite lookup_empty in Hempty|].
  rewrite merge_sort_Permutation in Hin'.
  apply list_elem_of_fmap in Hin' as (d'' & [= -> ->] & Hshell).
  unfold cells_of in Hv'. apply rename_row_Some in Hv' as (s & -> & Hs).
  apply pivot_row_Some in Hs. eauto 10.
Qed.
End fill.

(** *** The claims about the wide frame *)
Section wide_frame.
Import Transform.

(** C4. [denormalize_observations] returns a frame, and in it, for every
    row (calendar date) and every series column, the cell is null when the
    long rows hold no non-null observation of that series dated at or before
    the row's date: a value is only ever carried forward in time. *)
Theorem forward_fill_only_forward (today : Z) (df : list obs) (shell : list Z) :
  ∃ wide,
    denormalize_observations today df shell = Ok wide ∧
    ∀ (d : Z) (row : gmap string float) (s : string),
      (d, row) ∈ rows wide →
      (∀ d' v, (d', s, Some v) ∈ df → ¬ d' ≤ d) →
      row !! fred_col s = None.
Proof.
  eexists. split; [apply denormalize_observations_eq|].
  intros d row s Hin Hnone.
  destruct (row !! fred_col s) as [v|] eqn:Hv; [|done]. exfalso.
  destruct (denormalize_cell_source today df shell _ d row (fred_col s) v
              (denormalize_observations_eq today df shell) Hin Hv)
    as (d' & s' & Hs & Hle & _ & Hobs).
  apply (inj fred_col) in Hs as <-.
  apply drop_duplicates_subset in Hobs. by apply (Hnone d' v).
Qed.

Lemma forward_fill_only_forward_witness :
  ∃ wide,
    denormalize_observations 10 [(3, "A", Some 7%float); (1, "B", Some 2%float)] [1; 2; 3; 4]
    = Ok wide ∧
    (2, {[ fred_col "B" := 2%float ]}) ∈ rows wide ∧
    ∀ row, (2, row) ∈ rows wide → row !! fred_col "A" = None.
Proof.
  destruct (forward_fill_only_forward 10
              [(3, "A", Some 7%float); (1, "B", Some 2%float)] [1; 2; 3; 4])
    as (wide & Heq & Hcells).
  exists wide. split; [exact Heq|]. split.
  { vm_compute in Heq. injection Heq as <-. cbn [rows].
    apply list_elem_of_further, list_elem_of_here. }
  intros row Hin.
  apply (Hcells 2 row "A" Hin). intros d' v Hobs Hle.
  apply elem_of_cons in Hobs as [Hobs|Hobs]; [injection Hobs as -> _; lia|].
  apply elem_of_cons in Hobs as [Hobs|Hobs]; [discriminate Hobs|].
  by apply elem_of_nil in Hobs.
Defined.
End wide_frame.

(** *** The columns of the frame *)
Section frame_columns.
Import Transform.

Lemma obs_series_drop_duplicates df s :
  s ∈ obs_series <$> drop_duplicates df ↔ s ∈ obs_series <$> df.
Proof.
  assert (∀ l : list obs, s ∈ obs_series <$> l ↔ ∃ d, (d, s) ∈ obs_key <$> l) as Hkey.
  { intros l. rewrite list_elem_of_fmap. split.
    - intros ([[d s'] v] & -> & Hin). exists d. apply list_elem_of_fmap. by exists (d, s', v).
    - intros (d & ([[d' s'] v] & [= -> ->] & Hin)%list_elem_of_fmap). by exists (d', s', v). }
  rewrite !Hkey. by setoid_rewrite drop_duplicates_keys.
Qed.

Lemma denormalize_columns_elem today df shell wide c :
  denormalize_observations today df shell = Ok wide →
  c ∈ columns wide ↔ ∃ s, c = fred_col s ∧ s ∈ obs_series <$> df.
Proof.
  rewrite denormalize_observations_eq. intros [= <-]. cbn [columns].
  rewrite list_elem_of_fmap.
  setoid_rewrite merge_sort_Permutation. setoid_rewrite elem_of_remove_dups.
  by setoid_rewrite obs_series_drop_duplicates.
Qed.

End frame_columns.

Section out_of_shell.
Import Transform.

Lemma cells_of_in_shell (shell : list Z) (df : list obs) (d : Z) :
  d ∈ shell → cells_of (filter (λ r, obs_date r ∈ shell) df) d = cells_of df d.
Proof.
  intros Hd. unfold cells_of. f_equal.
  pose proof (drop_duplicates_filter (λ k, k.1 ∈ shell) df) as Hdd. cbn beta in Hdd.
  change (drop_duplicates (filter (λ r, obs_date r ∈ shell) df)
          = filter (λ r, obs_date r ∈ shell) (drop_duplicates df)) in Hdd.
  rewrite Hdd.
  pose proof (pivot_row_filter (λ k, k.1 ∈ shell) d (drop_duplicates df)) as Hp.
  cbn beta in Hp. rewrite <- Hp by done. done.
Qed.

(** C10 (amended). [denormalize_observations] returns a frame whose rows
    are labelled by dates of the calendar shell only, and whose rows (every
    cell of every row, filled cells included) are the same as when the
    observations dated outside the shell are removed from the long rows
    beforehand; every value in the frame is the value of an observation
    dated in the shell, at or before the row.  The columns are not reduced:
    the frame lists the column of every series of the long rows, also of a
    series that is observed only outside the shell. *)
Theorem out_of_shell_observations_dropped (today : Z) (df : list obs) (shell : list Z) :
  ∃ wide wide',
    denormalize_observations today df shell = Ok wide ∧
    denormalize_observations today (filter (λ r, obs_date r ∈ shell) df) shell = Ok wide' ∧
    rows wide = rows wide' ∧
    (∀ d row, (d, row) ∈ rows wide → d ∈ shell) ∧
    (∀ d row c v, (d, row) ∈ rows wide → row !! c = Some v →
       ∃ d' s, c = fred_col s ∧ d' ∈ shell ∧ d' ≤ d ∧ (d', s, Some v) ∈ df) ∧
    (∀ c, c ∈ columns wide ↔ ∃ s, c = fred_col s ∧ s ∈ obs_series <$> df) ∧
    columns wide' ⊆ columns wide.
Proof.
  pose proof (denormalize_observations_eq today df shell) as Heq.
  pose proof (denormalize_observations_eq today (filter (λ r, obs_date r ∈ shell) df) shell)
    as Heq'.
  eexists _, _. split; [exact Heq|]. split; [exact Heq'|]. split; [|split; [|split; [|split]]].
  - cbn [rows]. do 3 f_equal. apply list_fmap_ext. intros i d Hd.
    f_equal. symmetry. apply cells_of_in_shell. by eapply list_elem_of_lookup_2.
  - cbn [rows]. intros d row [_ Hin]%list_elem_of_filter.
    assert (d ∈ (ffill_rows ∅ (merge_sort index_le ((λ d, (d, cells_of df d)) <$> shell))).*1)
      as Hd by (apply list_elem_of_fmap; by exists (d, row)).
    rewrite ffill_rows_dates, merge_sort_Permutation, <- list_fmap_compose in Hd.
    apply list_elem_of_fmap in Hd as (d' & -> & Hd'). done.
  - intros d row c v Hin Hv.
    destruct (denormalize_cell_source today df shell _ d row c v Heq Hin Hv)
      as (d' & s & -> & Hle & Hshell & Hobs).
    exists d', s. repeat split; try done. by apply drop_duplicates_subset.
  - intros c. apply (denormalize_columns_elem today df shell _ c Heq).
  - intros c Hc.
    apply (denormalize_columns_elem today _ shell _ c Heq') in Hc as (s & -> & Hs).
    apply (denormalize_columns_elem today df shell _ _ Heq). exists s. split; [done|].
    apply list_elem_of_fmap in Hs as (r & -> & [_ Hr]%list_elem_of_filter).
    apply list_elem_of_fmap. by exists r.
Qed.

Lemma out_of_shell_observations_dropped_witness :
  ∃ wide,
    denormalize_observations 3 [(0, "A", Some 5%float); (2, "A", Some 6%float)] [1; 2; 3]
    = Ok wide ∧
    (1, ∅) ∈ rows wide ∧
    ∀ row, (1, row) ∈ rows wide → row !! fred_col "A" = None.
Proof.
  destruct (out_of_shell_observations_dropped 3
              [(0, "A", Some 5%float); (2, "A", Some 6%float)] [1; 2; 3])
    as (wide & wide' & Heq & _ & _ & _ & Hsrc & _ & _).
  exists wide. split; [exact Heq|]. split.
  { vm_compute in Heq. injection Heq as <-. apply list_elem_of_here. }
  intros row Hin. destruct (row !! fred_col "A") as [v|] eqn:Hv; [|reflexivity].
  destruct (Hsrc 1 row (fred_col "A") v Hin Hv) as (d' & s & _ & Hshell & Hle & Hobs).
  exfalso.
  apply elem_of_cons in Hobs as [Hobs|Hobs].
  { injection Hobs as -> _ _. revert Hshell. compute_done. }
  apply elem_of_cons in Hobs as [Hobs|Hobs]; [injection Hobs as -> _ _; lia|].
  by apply elem_of_nil in Hobs.
Defined.

(** C10 as stated fails: an observation dated outside the shell is not
    entirely absent from the frame.  The series Z is observed only outside
    the shell; its column stays in the frame, which therefore differs from
    the frame computed without the observation. *)
Lemma out_of_shell_series_keeps_its_column :
  let df := [(0, "Z", Some 5%float); (2, "A", Some 6%float)] in
  let shell := [1; 2; 3] in
  (∀ r, r ∈ df → obs_series r = "Z" → obs_date r ∉ shell) ∧
  denormalize_observations 3 df shell
  = Ok (Frame [fred_col "A"; fred_col "Z"]
          [(1, ∅); (2, {[ fred_col "A" := 6%float ]}); (3, {[ fred_col "A" := 6%float ]})]) ∧
  denormalize_observations 3 (filter (λ r, obs_date r ∈ shell) df) shell
  = Ok (Frame [fred_col "A"]
          [(1, ∅); (2, {[ fred_col "A" := 6%float ]}); (3, {[ fred_col "A" := 6%float ]})]) ∧
  ¬ (denormalize_observations 3 df shell
     = denormalize_observations 3 (filter (λ r, obs_date r ∈ shell) df) shell).
Proof.
  intros df shell. split; [|split; [|split]].
  - intros r Hr Hs. subst df.
    apply elem_of_cons in Hr as [->|Hr]; [cbn; compute_done|].
    apply elem_of_cons in Hr as [->|Hr]; [discriminate Hs|].
    by apply elem_of_nil in Hr.
  - by vm_compute.
  - by vm_compute.
  - vm_compute. intros [=].
Qed.

(** An observation dated before the first date of the shell does not seed
    the fill of the first dates of the shell. *)
Example observation_before_shell_is_dropped :
  let d0 := ordinal 2017 12 31 in
  let d1 := ordinal 2018 1 1 in
  denormalize_observations (ordinal 2018 1 3)
    [(d0, "A", Some 5%float); (d1 + 1, "A", Some 6%float)]
    (take 4 Setup.date_shell)
  = Ok (Frame [fred_col "A"]
          [(d1, ∅); (d1 + 1, {[ fred_col "A" := 6%float ]});
           (d1 + 2, {[ fred_col "A" := 6%float ]})]).
Proof. by vm_compute. Qed.
End out_of_shell.

Section duplicates.
Import Transform.

Lemma filter_key_unique (l : list obs) (r : obs) :
  NoDup (obs_key <$> l) → r ∈ l →
  filter (λ r', obs_key r' = obs_key r) l = [r].
Proof.
  induction l as [|r0 l IH]; intros Hnd Hin; [by apply elem_of_nil in Hin|].
  rewrite fmap_cons, NoDup_cons in Hnd. destruct Hnd as [Hr0 Hnd].
  apply elem_of_cons in Hin as [->|Hin].
  - rewrite filter_cons_True by done. f_equal.
    clear IH Hnd. induction l as [|r1 l IH]; [done|].
    rewrite fmap_cons, not_elem_of_cons in Hr0. destruct Hr0 as [Hne Hr0].
    rewrite filter_cons_False by done. by apply IH.
  - rewrite filter_cons_False; [by apply IH|].
    intros Heq. apply Hr0. rewrite Heq. apply list_elem_of_fmap. by exists r.
Qed.

(** The cells of a date before filling: the value of the last row of its
    key, null included. *)
Lemma cells_of_last df1 df2 d s v :
  (d, s) ∉ obs_key <$> df2 →
  cells_of (df1 ++ (d, s, v) :: df2) d !! fred_col s = v.
Proof.
  intros Hlast. unfold cells_of. rewrite rename_row_lookup.
  pose proof (drop_duplicates_last df1 (d, s, v) df2 Hlast) as Hin.
  pose proof (drop_duplicates_NoDup (df1 ++ (d, s, v) :: df2)) as Hnd.
  destruct v as [v|]; [by apply pivot_row_lookup|].
  destruct (pivot_row d _ !! s) as [v'|] eqn:Hv; [|done]. exfalso.
  apply pivot_row_Some in Hv.
  pose proof (filter_key_unique _ _ Hnd Hin) as Huniq.
  assert ((d, s, Some v') ∈ filter (λ r', obs_key r' = obs_key (d, s, @None float))
            (drop_duplicates (df1 ++ (d, s, None) :: df2))) as Hin'.
  { apply list_elem_of_filter. by split. }
  rewrite Huniq in Hin'. by apply list_elem_of_singleton in Hin'.
Qed.

(** C6. When several long rows share a (date, series id) key, whatever
    their values, [drop_duplicates] keeps exactly one row of that key, the
    last one; the pivot does not fail; the cell of that (date, series) holds
    the last row's value before the fill (null if that value is null); and
    in the frame returned, every row of that date has the last row's value in
    the series' column when that value is not null, such a row being there
    when the date is in the shell and not after today. *)
Theorem duplicates_keep_last (today : Z) (df1 df2 : list obs) (d : Z) (s : string)
    (v : option float) (shell : list Z) :
  (d, s) ∉ obs_key <$> df2 →
  let df := df1 ++ (d, s, v) :: df2 in
  filter (λ r, obs_key r = (d, s)) (drop_duplicates df) = [(d, s, v)] ∧
  cells_of df d !! fred_col s = v ∧
  ∃ wide,
    denormalize_observations today df shell = Ok wide ∧
    (d ∈ shell → d ≤ today → ∃ row, (d, row) ∈ rows wide) ∧
    (∀ row v', (d, row) ∈ rows wide → v = Some v' → row !! fred_col s = Some v').
Proof.
  intros Hlast df. split; [|split].
  - apply (filter_key_unique _ (d, s, v)); [apply drop_duplicates_NoDup|].
    by apply drop_duplicates_last.
  - by apply cells_of_last.
  - eexists. split; [apply denormalize_observations_eq|]. cbn [rows]. split.
    + intros Hshell Htoday.
      assert (d ∈ (ffill_rows ∅ (merge_sort index_le ((λ d, (d, cells_of df d)) <$> shell))).*1)
        as Hd.
      { rewrite ffill_rows_dates, merge_sort_Permutation, <- list_fmap_compose.
        apply list_elem_of_fmap. by exists d. }
      apply list_elem_of_fmap in Hd as ([d' row] & -> & Hin).
      exists row. apply list_elem_of_filter. by split.
    + intros row v' [_ Hin]%list_elem_of_filter ->.
      apply ffill_rows_elem in Hin as (row0 & carried & Hin & ->).
      rewrite merge_sort_Permutation in Hin.
      apply list_elem_of_fmap in Hin as (d' & [= <- ->] & _).
      apply lookup_union_Some_l. by apply cells_of_last.
Qed.

Lemma duplicates_keep_last_witness :
  let df := [(1, "A", Some 1%float); (1, "A", Some 2%float); (2, "A", None)] in
  filter (λ r, obs_key r = (1, "A")) (drop_duplicates df) = [(1, "A", Some 2%float)] ∧
  ∃ wide,
    denormalize_observations 5 df [1; 2; 3] = Ok wide ∧
    (∃ row, (1, row) ∈ rows wide) ∧
    (∀ row, (1, row) ∈ rows wide → row !! fred_col "A" = Some 2%float).
Proof.
  intros df.
  destruct (duplicates_keep_last 5 [(1, "A", Some 1%float)] [(2, "A", None)]
              1 "A" (Some 2%float) [1; 2; 3]) as (Hdd & _ & wide & Heq & Hrow & Hcell).
  { cbn. rewrite list_elem_of_singleton. discriminate. }
  split; [exact Hdd|]. exists wide. split; [exact Heq|]. split.
  - apply Hrow; [apply list_elem_of_here|lia].
  - intros row Hin. by apply (Hcell row 2%float).
Defined.
End duplicates.

Section pivot_example.
Import Transform Samples.

Lemma example_rows_NoDup d1 d2 : d1 < d2 → NoDup (obs_key <$> example_rows d1 d2).
Proof.
  intros Hlt. unfold example_rows, obs_key. cbn. repeat apply NoDup_cons_2.
  - rewrite !not_elem_of_cons. repeat split; [discriminate|intros [=]; lia|apply not_elem_of_nil].
  - rewrite !not_elem_of_cons. repeat split; [intros [=]; lia|apply not_elem_of_nil].
  - apply not_elem_of_nil.
  - constructor.
Qed.

Lemma example_cells d1 d2 d3 :
  d1 < d2 → d2 < d3 →
  cells_of (example_rows d1 d2) d1 = {[ fred_col "A" := 1%float; fred_col "B" := 2%float ]} ∧
  cells_of (example_rows d1 d2) d2 = {[ fred_col "A" := 3%float ]} ∧
  cells_of (example_rows d1 d2) d3 = ∅.
Proof.
  intros H12 H23. unfold cells_of.
  rewrite drop_duplicates_id by by apply example_rows_NoDup.
  unfold pivot_row, example_rows, obs_date, obs_series, obs_value. cbn [omap list_omap fst snd].
  rewrite !(bool_decide_eq_true_2 (d1 = d1)) by done.
  rewrite !(bool_decide_eq_true_2 (d2 = d2)) by done.
  rewrite !(bool_decide_eq_false_2 (d2 = d1)) by lia.
  rewrite !(bool_decide_eq_false_2 (d1 = d2)) by lia.
  rewrite !(bool_decide_eq_false_2 (d1 = d3)) by lia.
  rewrite !(bool_decide_eq_false_2 (d2 = d3)) by lia.
  repeat split; by vm_compute.
Qed.

Lemma sort_three (d1 d2 d3 : Z) (r1 r2 r3 : gmap string float) :
  d1 < d2 → d2 < d3 →
  merge_sort index_le [(d1, r1); (d2, r2); (d3, r3)] = [(d1, r1); (d2, r2); (d3, r3)].
Proof.
  intros H12 H23.
  apply (Sorted_unique_strong index_le).
  - intros x1 x2 Hx1 Hx2 Hle1 Hle2. rewrite merge_sort_Permutation in Hx1.
    unfold index_le in *.
    repeat (apply elem_of_cons in Hx1 as [->|Hx1]); [| | |by apply elem_of_nil in Hx1];
      repeat (apply elem_of_cons in Hx2 as [->|Hx2]);
      try (by apply elem_of_nil in Hx2); cbn in *; done || lia.
  - apply Sorted_merge_sort. apply _.
  - repeat constructor; unfold index_le; cbn; lia.
  - apply merge_sort_Permutation.
Qed.

(** C3. For dates d1 < d2 < d3 with d2 not after the current date, the long
    rows [(d1,"A",1), (d1,"B",2), (d2,"A",3)] over the calendar [d1, d2, d3]
    give exactly the columns fred_A and fred_B; the row of d1 is (1, 2); the
    row of d2 is (3, 2), B filled forward from d1; the row of d3 is left out
    when d3 is after the current date and is (3, 2) otherwise. *)
Theorem pivot_correct (d1 d2 d3 today : Z) :
  d1 < d2 → d2 < d3 → d2 ≤ today →
  denormalize_observations today
    [(d1, "A", Some 1%float); (d1, "B", Some 2%float); (d2, "A", Some 3%float)]
    [d1; d2; d3]
  = Ok (Frame ["fred_A"; "fred_B"]
          ([(d1, {[ "fred_A" := 1%float; "fred_B" := 2%float ]});
            (d2, {[ "fred_A" := 3%float; "fred_B" := 2%float ]})]
           ++ if bool_decide (d3 ≤ today)
              then [(d3, {[ "fred_A" := 3%float; "fred_B" := 2%float ]})]
              else [])).
Proof.
  intros H12 H23 Htoday. rewrite denormalize_observations_eq. f_equal.
  fold (example_rows d1 d2).
  destruct (example_cells d1 d2 d3 H12 H23) as (Hc1 & Hc2 & Hc3).
  f_equal.
  - rewrite drop_duplicates_id by by apply example_rows_NoDup. by vm_compute.
  - cbn [fmap list_fmap]. rewrite Hc1, Hc2, Hc3.
    rewrite sort_three by done. cbn [ffill_rows].
    rewrite filter_cons_True by (cbn; lia).
    rewrite filter_cons_True by (cbn; lia).
    case_bool_decide as H3.
    + rewrite filter_cons_True by done. rewrite filter_nil.
      repeat f_equal; by vm_compute.
    + rewrite filter_cons_False by done. rewrite filter_nil.
      repeat f_equal; by vm_compute.
Qed.

Lemma pivot_correct_witness :
  denormalize_observations (ordinal 2024 1 2)
    [(ordinal 2024 1 1, "A", Some 1%float); (ordinal 2024 1 1, "B", Some 2%float);
     (ordinal 2024 1 2, "A", Some 3%float)]
    [ordinal 2024 1 1; ordinal 2024 1 2; ordinal 2024 1 3]
  = Ok (Frame ["fred_A"; "fred_B"]
          [(ordinal 2024 1 1, {[ "fred_A" := 1%float; "fred_B" := 2%float ]});
           (ordinal 2024 1 2, {[ "fred_A" := 3%float; "fred_B" := 2%float ]})]).
Proof.
  apply (pivot_correct (ordinal 2024 1 1) (ordinal 2024 1 2) (ordinal 2024 1 3)
           (ordinal 2024 1 2)); vm_compute; congruence.
Defined.
End pivot_example.

(** ** The wide-store writer (transform_fred_data.py) *)
Section wide_store.
Import Transform.

Lemma ensure_columns_loop_present (existing cols : list string) t :
  cols ⊆ existing →
  for_each cols
    (λ col, if bool_decide (col ∈ existing) then mret tt else add_column col) t
  = (Ok tt, t).
Proof.
  intros Hsub. induction cols as [|c cols IH]; [done|].
  cbn [for_each]. unfold bind.
  rewrite bool_decide_eq_true_2 by (apply Hsub; left).
  apply IH. intros c' Hc'. apply Hsub. by right.
Qed.

(** A column that is there already is not added again. *)
Lemma ensure_columns_present cols t :
  cols ⊆ table_columns t → ensure_columns cols t = (Ok tt, t).
Proof. intros Hsub. unfold ensure_columns. by apply ensure_columns_loop_present. Qed.

Lemma ensure_columns_loop (existing cols : list string) t :
  NoDup cols →
  (∀ c, c ∈ cols → c ∉ existing → c ∉ table_columns t) →
  for_each cols
    (λ col, if bool_decide (col ∈ existing) then mret tt else add_column col) t
  = (Ok tt,
     WideTable (table_columns t ++ filter (λ c, c ∉ existing) cols) (table_rows t)).
Proof.
  revert t. induction cols as [|c cols IH]; intros t Hnd Hfresh.
  - cbn. rewrite app_nil_r. by destruct t.
  - apply NoDup_cons in Hnd as [Hc Hnd]. cbn [for_each]. unfold bind.
    case_bool_decide as Hex.
    + rewrite filter_cons_False by tauto. unfold mret, prog_ret, ret. apply IH; [done|].
      intros c' Hc'. apply Hfresh. by right.
    + unfold add_column. rewrite bool_decide_eq_false_2 by (apply Hfresh; [left|done]).
      rewrite IH; [|done|].
      * cbn [table_columns table_rows]. rewrite filter_cons_True by done.
        by rewrite <- (assoc_L (++)).
      * cbn [table_columns]. intros c' Hc' Hne'. rewrite not_elem_of_app. split.
        -- apply Hfresh; [by right|done].
        -- rewrite list_elem_of_singleton. intros ->. done.
Qed.

(** [ensure_columns] adds the missing columns at the end and writes no row. *)
Lemma ensure_columns_eq cols t :
  NoDup cols →
  ensure_columns cols t
  = (Ok tt,
     WideTable (table_columns t ++ filter (λ c, c ∉ table_columns t) cols) (table_rows t)).
Proof.
  intros Hnd. unfold ensure_columns. by apply ensure_columns_loop.
Qed.

Lemma set_cells_lookup cols row stored c :
  set_cells cols row stored !! c = if bool_decide (c ∈ cols) then row !! c else stored !! c.
Proof.
  unfold set_cells. induction cols as [|c0 cols IH] using rev_ind; [done|].
  rewrite foldl_snoc. destruct (decide (c = c0)) as [->|Hne].
  - rewrite bool_decide_eq_true_2 by (apply elem_of_app; right; left).
    destruct (row !! c0); [by rewrite lookup_insert_eq|by rewrite lookup_delete_eq].
  - assert (c ∈ cols ++ [c0] ↔ c ∈ cols) as Hiff.
    { rewrite elem_of_app, list_elem_of_singleton. tauto. }
    rewrite (bool_decide_ext _ _ Hiff), <- IH.
    destruct (row !! c0); [by rewrite lookup_insert_ne|by rewrite lookup_delete_ne].
Qed.

Lemma execute_upsert_ok cols d row t :
  cols ≠ [] → cols ⊆ table_columns t →
  execute_upsert cols d row t
  = (Ok tt,
     WideTable (table_columns t)
       (<[d := set_cells cols row (default ∅ (table_rows t !! d))]> (table_rows t))).
Proof.
  intros Hne Hsub. unfold execute_upsert.
  by rewrite bool_decide_eq_false_2, bool_decide_eq_true_2.
Qed.

Lemma upsert_loop cols rs t :
  cols ≠ [] → cols ⊆ table_columns t →
  for_each rs (λ '(date, row), execute_upsert cols date row) t
  = (Ok tt, WideTable (table_columns t) (upsert_rows cols rs (table_rows t))).
Proof.
  intros Hne Hsub. revert t Hsub. induction rs as [|[d row] rs IH]; intros t Hsub.
  - cbn. by destruct t.
  - cbn [for_each]. unfold bind. rewrite execute_upsert_ok by done.
    rewrite IH by done. done.
Qed.

Lemma upsert_rows_other_column cols rs m d c :
  c ∉ cols → cell (upsert_rows cols rs m) d c = cell m d c.
Proof.
  intros Hc. unfold upsert_rows. revert m.
  induction rs as [|[d0 row] rs IH]; intros m; [done|].
  cbn [foldl]. rewrite IH. unfold cell. cbn [fst snd].
  destruct (decide (d0 = d)) as [->|Hne].
  - rewrite lookup_insert_eq. cbn. rewrite set_cells_lookup, bool_decide_eq_false_2 by done.
    by destruct (m !! d).
  - by rewrite lookup_insert_ne.
Qed.

Lemma upsert_rows_other_date cols rs m d :
  d ∉ rs.*1 → upsert_rows cols rs m !! d = m !! d.
Proof.
  unfold upsert_rows. revert m. induction rs as [|[d0 row] rs IH]; intros m Hd; [done|].
  rewrite fmap_cons, not_elem_of_cons in Hd. destruct Hd as [Hne Hd]. cbn [foldl].
  rewrite IH by done. cbn [fst snd]. by rewrite lookup_insert_ne.
Qed.

Lemma upsert_rows_written cols rs1 d row rs2 m c :
  d ∉ rs2.*1 → c ∈ cols →
  cell (upsert_rows cols (rs1 ++ (d, row) :: rs2) m) d c = row !! c.
Proof.
  intros Hd Hc. unfold upsert_rows. rewrite foldl_app. cbn [foldl fst snd].
  unfold cell. fold (upsert_rows cols rs1 m).
  fold (upsert_rows cols rs2
          (<[d := set_cells cols row (default ∅ (upsert_rows cols rs1 m !! d))]>
             (upsert_rows cols rs1 m))).
  rewrite upsert_rows_other_date by done. rewrite lookup_insert_eq. cbn.
  by rewrite set_cells_lookup, bool_decide_eq_true_2.
Qed.
End wide_store.

Section wide_store_claim.
Import Transform ColumnNames.

(** The frames [denormalize_observations] returns have distinct column
    labels, none of them the key column. *)
Lemma denormalize_columns_wf today df shell wide :
  denormalize_observations today df shell = Ok wide →
  NoDup (columns wide) ∧ "date" ∉ columns wide.
Proof.
  rewrite denormalize_observations_eq. intros [= <-]. cbn [columns]. split.
  - apply (NoDup_fmap_2 fred_col). rewrite merge_sort_Permutation. apply NoDup_remove_dups.
  - intros (s & Hs & _)%list_elem_of_fmap. unfold fred_col in Hs. cbn in Hs. discriminate.
Qed.

Lemma upsert_wide_table_eq f t :
  upsert_wide_table f t
  = match ensure_columns (columns f) t with
    | (Ok _, t1) =>
        for_each (rows f) (λ '(date, row), execute_upsert (columns f) date row) t1
    | (Raise e, t1) => (Raise e, t1)
    end.
Proof.
  unfold upsert_wide_table, mbind, prog_bind, bind.
  by destruct (ensure_columns (columns f) t) as [[[]|e] t1].
Qed.

Lemma upsert_without_columns rs t :
  (for_each rs (λ '(date, row), execute_upsert [] date row) t).2 = t.
Proof. destruct rs as [|[d row] rs]; [done|]. cbn [for_each]. unfold bind. by cbn. Qed.

(** C9. For every frame with distinct series columns (the key column
    [date] is not one of them) whose names, with those of the table, are
    plain (SQLite tells them apart as the script does):
    [ensure_columns] runs first and succeeds; it adds exactly the frame's columns the table lacks,
    after the existing ones, and writes no row; run again it succeeds and
    changes nothing; [upsert_wide_table] is the row loop over the table so
    extended, and it leaves the column list as [ensure_columns] made it, so
    no column is dropped and every frame column is there.  A cell of a column
    that is not in the frame keeps its value, on every date; a date that is
    not in the frame keeps its row; and when the frame has a column, the
    upsert succeeds and the cell of every frame column on a frame date holds
    what the frame's (last) row of that date holds, null where that is
    null. *)
Theorem wide_upsert_frame_effect (f : frame) (t : wide_table) :
  NoDup (columns f) →
  "date" ∉ columns f →
  plain_names ("date" :: table_columns t ++ columns f) →
  let t1 := (ensure_columns (columns f) t).2 in
  let t' := (upsert_wide_table f t).2 in
  ensure_columns (columns f) t = (Ok tt, t1) ∧
  table_columns t1 = table_columns t ++ filter (λ c, c ∉ table_columns t) (columns f) ∧
  table_rows t1 = table_rows t ∧
  ensure_columns (columns f) t1 = (Ok tt, t1) ∧
  upsert_wide_table f t
  = for_each (rows f) (λ '(date, row), execute_upsert (columns f) date row) t1 ∧
  table_columns t' = table_columns t1 ∧
  table_columns t ⊆ table_columns t' ∧
  columns f ⊆ table_columns t' ∧
  (∀ d c, c ∉ columns f → cell (table_rows t') d c = cell (table_rows t) d c) ∧
  (∀ d, d ∉ (rows f).*1 → table_rows t' !! d = table_rows t !! d) ∧
  (columns f ≠ [] →
     (upsert_wide_table f t).1 = Ok tt ∧
     ∀ rs1 d row rs2 c,
       rows f = rs1 ++ (d, row) :: rs2 → d ∉ rs2.*1 → c ∈ columns f →
       cell (table_rows t') d c = row !! c).
Proof.
  intros Hnd _ _ t1 t'.
  assert (ensure_columns (columns f) t = (Ok tt, t1)) as Hens.
  { subst t1. by rewrite ensure_columns_eq. }
  assert (table_columns t1
          = table_columns t ++ filter (λ c, c ∉ table_columns t) (columns f)) as Hcols.
  { subst t1. by rewrite ensure_columns_eq. }
  assert (table_rows t1 = table_rows t) as Hrows.
  { subst t1. by rewrite ensure_columns_eq. }
  assert (columns f ⊆ table_columns t1) as Hsub.
  { intros c Hc. rewrite Hcols, elem_of_app, list_elem_of_filter.
    destruct (decide (c ∈ table_columns t)); auto. }
  assert (upsert_wide_table f t
          = for_each (rows f) (λ '(date, row), execute_upsert (columns f) date row) t1)
    as Hup.
  { by rewrite upsert_wide_table_eq, Hens. }
  assert (t' = if bool_decide (columns f = []) then t1
               else WideTable (table_columns t1)
                      (upsert_rows (columns f) (rows f) (table_rows t1))) as Ht'.
  { subst t'. rewrite Hup. case_bool_decide as Hempty.
    - rewrite Hempty. apply upsert_without_columns.
    - by rewrite upsert_loop. }
  assert (table_columns t' = table_columns t1) as Hcols'.
  { rewrite Ht'. by case_bool_decide. }
  repeat split; try done.
  - by apply ensure_columns_present.
  - rewrite Hcols', Hcols. intros c Hc. apply elem_of_app. by left.
  - by rewrite Hcols'.
  - intros d c Hc. rewrite Ht'. case_bool_decide; [by rewrite Hrows|].
    cbn [table_rows]. by rewrite upsert_rows_other_column, Hrows.
  - intros d Hd. rewrite Ht'. case_bool_decide; [by rewrite Hrows|].
    cbn [table_rows]. by rewrite upsert_rows_other_date, Hrows.
  - rewrite Hup. by rewrite upsert_loop.
  - intros rs1 d row rs2 c Hf Hd Hc. rewrite Ht', bool_decide_eq_false_2 by done.
    cbn [table_rows]. rewrite Hf. by apply upsert_rows_written.
Qed.

Lemma wide_upsert_frame_effect_witness :
  let t' := (upsert_wide_table Samples.incoming_frame Samples.wide_table_before).2 in
  table_columns t' = ["date"; "fred_A"; "fred_C"; "fred_B"] ∧
  cell (table_rows t') 1 "fred_C" = Some 6%float ∧
  cell (table_rows t') 1 "fred_A" = None ∧
  cell (table_rows t') 2 "fred_B" = Some 2%float.
Proof.
  intros t'.
  destruct (wide_upsert_frame_effect Samples.incoming_frame Samples.wide_table_before)
    as (_ & Hcols1 & _ & _ & _ & Hcols & _ & _ & Hother & _ & Hwritten).
  { compute_done. }
  { compute_done. }
  { cbn. compute_done. }
  cbn zeta in *. destruct Hwritten as [_ Hwritten]; [discriminate|].
  split; [|split; [|split]].
  - subst t'. rewrite Hcols, Hcols1. reflexivity.
  - subst t'. rewrite Hother; [reflexivity|compute_done].
  - subst t'.
    rewrite (Hwritten [] 1 {[ "fred_B" := 2%float ]}
               [(2, {[ "fred_A" := 3%float; "fred_B" := 2%float ]})] "fred_A");
      [reflexivity|reflexivity|compute_done|compute_done].
  - subst t'.
    rewrite (Hwritten [(1, {[ "fred_B" := 2%float ]})] 2
               {[ "fred_A" := 3%float; "fred_B" := 2%float ]} [] "fred_B");
      [reflexivity|reflexivity|compute_done|compute_done].
Defined.
End wide_store_claim.

(** ** The long store under repeated extraction (extract_fred_data.py) *)
Section long_store.
Import ExtractScript LongStore.

Lemma insert_observation_long sid item d :
  fred_data_long (insert_observation sid item d)
  = replace_long (long_row_of sid item) (fred_data_long d).
Proof. unfold insert_observation, long_row_of. cbn. by destruct item.2. Qed.

Lemma foldl_insert_observation_long sid data d :
  fred_data_long (foldl (λ d item, insert_observation sid item d) d data)
  = foldl (λ t item, replace_long (long_row_of sid item) t) (fred_data_long d) data.
Proof.
  revert d. induction data as [|item data IH]; intros d; [done|].
  cbn [foldl]. by rewrite IH, insert_observation_long.
Qed.

(** The long store after one call of [extract_and_store]: the fetched
    items, if any, were upserted one by one. *)
Lemma extract_and_store_long env sid default_start_date w :
  ∃ data,
    fred_data_long (db (extract_and_store env sid default_start_date w).2)
    = foldl (λ t item, replace_long (long_row_of sid item) t) (fred_data_long (db w)) data.
Proof.
  rewrite extract_and_store_eq. cbn zeta.
  destruct (fred_get_series env (calls w) sid _) as [data|e]; cbn.
  - exists data. rewrite foldl_insert_observation_long.
    by destruct (fred_get_series_info env _ sid).
  - by exists [].
Qed.

(** A property of the long store that every upsert keeps is kept by the
    whole run. *)
Lemma main_long_invariant (P : list long_row → Prop) env start_date common_series w :
  (∀ r t, P t → P (replace_long r t)) →
  P (fred_data_long (db w)) →
  P (fred_data_long (db (main env start_date common_series w).2)).
Proof.
  intros Hstep. rewrite main_eq. cbn [snd].
  generalize (concat common_series.*2). intros sids. revert w.
  induction sids as [|sid sids IH]; intros w Hw; [done|].
  cbn [foldl]. apply IH.
  destruct (extract_and_store_long env sid start_date w) as [data ->].
  revert Hw. generalize (fred_data_long (db w)).
  induction data as [|item data IHd]; intros t Ht; [done|].
  cbn [foldl]. apply IHd, Hstep, Ht.
Qed.

Lemma replace_long_NoDup r t :
  NoDup (long_key <$> t) → NoDup (long_key <$> replace_long r t).
Proof.
  intros Hnd. unfold replace_long. rewrite fmap_app. apply NoDup_app. split; [|split].
  - eapply sublist_NoDup; [exact Hnd|]. apply fmap_sublist, sublist_filter.
  - intros k (r' & -> & [Hk _]%list_elem_of_filter)%list_elem_of_fmap
             Heq%list_elem_of_singleton.
    apply Hk. apply same_key_iff. unfold long_key in Heq. by simplify_eq.
  - apply NoDup_singleton.
Qed.

Lemma replace_long_keys r t k :
  k ∈ long_key <$> t → k ∈ long_key <$> replace_long r t.
Proof.
  intros (r' & -> & Hin)%list_elem_of_fmap. unfold replace_long. rewrite fmap_app, elem_of_app.
  destruct (decide (same_key (series_id r) (date r) r')) as [Hk|Hk].
  - right. apply same_key_iff in Hk as [Hs Hd]. unfold long_key. rewrite Hs, Hd.
    apply list_elem_of_here.
  - left. apply list_elem_of_fmap. exists r'. split; [done|]. by apply list_elem_of_filter.
Qed.

Lemma replace_long_other_series r t sid :
  series_id r ≠ sid →
  filter (λ r', series_id r' = sid) (replace_long r t) = filter (λ r', series_id r' = sid) t.
Proof.
  intros Hr. unfold replace_long.
  rewrite filter_app, list_filter_filter, (filter_singleton_False _ _ []), app_nil_r by done.
  apply list_filter_iff. intros r'. split; [tauto|]. intros Hs. split; [done|].
  intros [Hk _]%same_key_iff. congruence.
Qed.

Lemma foldl_replace_other_series sid sid' data t :
  sid ≠ sid' →
  filter (λ r', series_id r' = sid')
    (foldl (λ t item, replace_long (long_row_of sid item) t) t data)
  = filter (λ r', series_id r' = sid') t.
Proof.
  intros Hne. revert t. induction data as [|item data IH]; intros t; [done|].
  cbn [foldl]. rewrite IH. by apply replace_long_other_series.
Qed.

(** A batch replaces what the table holds under its keys and else leaves
    the table as it is. *)
Lemma foldl_replace_long_split sid data t :
  foldl (λ t item, replace_long (long_row_of sid item) t) t data
  = filter (λ r, long_key r ∉ long_key <$> (long_row_of sid <$> data)) t
    ++ batch_rows sid data.
Proof.
  unfold batch_rows. induction data as [|item data IH] using rev_ind.
  - cbn. rewrite app_nil_r. symmetry. induction t as [|r t IHt]; [done|].
    rewrite filter_cons_True; [by rewrite IHt|]. apply not_elem_of_nil.
  - rewrite !foldl_snoc, IH. unfold replace_long at 1 3.
    rewrite filter_app, list_filter_filter, <- (assoc_L (++)).
    f_equal. apply list_filter_iff. intros r.
    rewrite !fmap_app, elem_of_app, same_key_iff. cbn.
    rewrite list_elem_of_singleton. unfold long_key. cbn. split.
    + intros [Hk Hin] [Hin'|Heq]; [done|]. apply Hk. by simplify_eq.
    + intros Hn. split.
      * intros [Hs Hd]. apply Hn. right. by rewrite Hs, Hd.
      * intros Hin. apply Hn. by left.
Qed.

Lemma batch_rows_keys sid data r :
  r ∈ batch_rows sid data → long_key r ∈ long_key <$> (long_row_of sid <$> data).
Proof.
  unfold batch_rows. induction data as [|item data IH] using rev_ind.
  - by intros ?%elem_of_nil.
  - rewrite foldl_snoc. unfold replace_long at 1. rewrite !fmap_app, !elem_of_app.
    intros [[_ Hin]%list_elem_of_filter| ->%list_elem_of_singleton].
    + left. by apply IH.
    + right. apply list_elem_of_here.
Qed.

End long_store.

Section long_store_properties.
Import ExtractScript LongStore.

Lemma foldl_insert_observation_eq sid data d :
  foldl (λ d item, insert_observation sid item d) d data
  = Database (series_metadata d)
      (foldl (λ t item, replace_long (long_row_of sid item) t) (fred_data_long d) data)
      (extraction_log d).
Proof.
  revert d. induction data as [|item data IH]; intros d; [by destruct d|].
  cbn [foldl]. rewrite IH, insert_observation_long. done.
Qed.

Lemma select_max_date_filter sid t :
  select_max_date sid t = select_max_date sid (filter (λ r, series_id r = sid) t).
Proof.
  induction t as [|r t IH] using rev_ind; [done|].
  rewrite filter_app, select_max_date_snoc.
  destruct (decide (series_id r = sid)) as [Hs|Hs].
  - rewrite (filter_singleton_True _ _ []) by done.
    rewrite select_max_date_snoc, IH. done.
  - rewrite (filter_singleton_False _ _ []), app_nil_r by done.
    by rewrite bool_decide_eq_false_2.
Qed.

Lemma foldl_replace_long_key sid data t item :
  item ∈ data →
  (sid, item.1) ∈ long_key <$> foldl (λ t item, replace_long (long_row_of sid item) t) t data.
Proof.
  induction data as [|item' data IH] using rev_ind; [by intros ?%elem_of_nil|].
  rewrite foldl_snoc. intros [Hin| ->%list_elem_of_singleton]%elem_of_app.
  - by apply replace_long_keys, IH.
  - unfold replace_long. rewrite fmap_app, elem_of_app. right. apply list_elem_of_here.
Qed.

Lemma select_max_date_key sid d t :
  (sid, d) ∈ long_key <$> t → ∃ m, select_max_date sid t = Some m ∧ d ≤ m.
Proof.
  intros (r & Hk & Hin)%list_elem_of_fmap. unfold long_key in Hk. simplify_eq.
  pose proof (select_max_date_spec (series_id r) t) as Hmax.
  destruct (select_max_date (series_id r) t) as [m|].
  - exists m. split; [done|]. by apply Hmax.
  - by destruct (Hmax r Hin).
Qed.

(** X1. The key (series_id, date) stays unique in [fred_data_long]: when
    no two stored rows share their key before a run of [main], none do
    after it, whatever the provider delivers. *)
Theorem long_keys_stay_unique (env : environment) (start_date : Z)
    (common_series : list (string * list string)) (w : world) :
  NoDup (long_key <$> fred_data_long (db w)) →
  NoDup (long_key <$> fred_data_long (db (main env start_date common_series w).2)).
Proof.
  apply (main_long_invariant (λ t, NoDup (long_key <$> t))).
  intros r t. apply replace_long_NoDup.
Qed.

Lemma long_keys_stay_unique_witness :
  NoDup (long_key <$>
           fred_data_long
             (db (main Fixtures.script_env_up 0 [("rates", ["A"; "B"]); ("prices", ["A"])]
                       Fixtures.script_world_two_series).2)).
Proof. apply long_keys_stay_unique. cbn. compute_done. Defined.

(** X2. A run of [main] removes no key from [fred_data_long], and so the
    start date of the next fetch of a series that has a stored row never
    moves back. *)
Theorem watermark_never_moves_back (env : environment) (start_date : Z)
    (common_series : list (string * list string)) (w : world) :
  let w' := (main env start_date common_series w).2 in
  (∀ k, k ∈ long_key <$> fred_data_long (db w) → k ∈ long_key <$> fred_data_long (db w')) ∧
  (∀ sid default_start_date,
     (∃ r, r ∈ fred_data_long (db w) ∧ series_id r = sid) →
     start_of sid default_start_date w ≤ start_of sid default_start_date w').
Proof.
  intros w'.
  assert (∀ k, k ∈ long_key <$> fred_data_long (db w) →
               k ∈ long_key <$> fred_data_long (db w')) as Hkeys.
  { apply (main_long_invariant
             (λ t, ∀ k, k ∈ long_key <$> fred_data_long (db w) → k ∈ long_key <$> t));
      [|done].
    intros r t Ht k Hk. by apply replace_long_keys, Ht. }
  split; [done|]. intros sid default_start_date (r & Hin & Hs). unfold start_of.
  pose proof (select_max_date_spec sid (fred_data_long (db w))) as Hmax.
  destruct (select_max_date sid (fred_data_long (db w))) as [m|]; [|by destruct (Hmax r Hin)].
  destruct Hmax as [(r0 & Hin0 & Hs0 & Hd0) _].
  destruct (select_max_date_key sid m (fred_data_long (db w'))) as (m' & -> & Hle); [|lia].
  apply Hkeys. apply list_elem_of_fmap. exists r0. unfold long_key. by rewrite Hs0, Hd0.
Qed.

Lemma watermark_never_moves_back_witness :
  start_of "A" 0 Fixtures.script_world_two_series
  ≤ start_of "A" 0
      (main Fixtures.script_env_up 0 [("rates", ["B"; "A"])]
            Fixtures.script_world_two_series).2.
Proof.
  apply (watermark_never_moves_back Fixtures.script_env_up 0 [("rates", ["B"; "A"])]
           Fixtures.script_world_two_series).
  exists (LongRow "A" 10 (Some 1%float)). split; [apply list_elem_of_here|reflexivity].
Defined.

(** X3. One call of [extract_and_store] touches one series only: the
    stored rows of every other series stay as they are, in their order, and
    so do the metadata and the next start date of every other series. *)
Theorem extraction_leaves_other_series (env : environment) (sid sid' : string)
    (default_start_date : Z) (w : world) :
  sid ≠ sid' →
  let w' := (extract_and_store env sid default_start_date w).2 in
  filter (λ r, series_id r = sid') (fred_data_long (db w'))
  = filter (λ r, series_id r = sid') (fred_data_long (db w)) ∧
  series_metadata (db w') !! sid' = series_metadata (db w) !! sid' ∧
  ∀ default', start_of sid' default' w' = start_of sid' default' w.
Proof.
  intros Hne w'.
  assert (filter (λ r, series_id r = sid') (fred_data_long (db w'))
          = filter (λ r, series_id r = sid') (fred_data_long (db w))) as Hrows.
  { subst w'. destruct (extract_and_store_long env sid default_start_date w) as [data ->].
    by apply foldl_replace_other_series. }
  split; [done|]. split.
  - subst w'. rewrite extract_and_store_eq. cbn zeta.
    destruct (fred_get_series env (calls w) sid _) as [data|e]; cbn; [|done].
    rewrite foldl_insert_observation_metadata.
    destruct (fred_get_series_info env _ sid); [|done].
    cbn. by rewrite lookup_insert_ne.
  - intros default'. unfold start_of.
    by rewrite (select_max_date_filter sid' (fred_data_long (db w'))), Hrows,
      <- select_max_date_filter.
Qed.

Lemma extraction_leaves_other_series_witness :
  filter (λ r, series_id r = "B")
    (fred_data_long
       (db (extract_and_store Fixtures.script_env_up "A" 0 Fixtures.script_world_two_series).2))
  = [LongRow "B" 10 (Some 2%float)].
Proof.
  destruct (extraction_leaves_other_series Fixtures.script_env_up "A" "B" 0
              Fixtures.script_world_two_series) as [Hrows _]; [done|].
  exact Hrows.
Defined.

(** X4. Storing the same batch a second time changes nothing:
    [insert_observations] is idempotent, the upsert being keyed by
    (series_id, date). *)
Theorem insert_observations_idempotent (sid : string) (data : list (Z * pyval)) (w : world) :
  insert_observations sid data (insert_observations sid data w).2
  = insert_observations sid data w.
Proof.
  rewrite !insert_observations_eq. cbn [snd db calls]. do 2 f_equal.
  rewrite !foldl_insert_observation_eq. cbn [series_metadata fred_data_long extraction_log].
  f_equal. rewrite (foldl_replace_long_split sid data (fred_data_long (db w))).
  rewrite (foldl_replace_long_split sid data (_ ++ _)).
  rewrite filter_app, list_filter_filter.
  replace (filter _ (batch_rows sid data)) with (@nil long_row).
  - rewrite app_nil_r. f_equal. apply list_filter_iff. tauto.
  - symmetry. generalize (batch_rows_keys sid data).
    generalize (batch_rows sid data). intros l Hl.
    induction l as [|r l IH]; [done|].
    rewrite filter_cons_False.
    + apply IH. intros r' Hr'. apply Hl. by right.
    + intros Hn. apply Hn, Hl. by left.
Qed.

(** X5. When the fetch of the observations raises, [extract_and_store]
    writes nothing but the 'error' row of the log, with the exception's
    text: the long store and the metadata stay as they were, the metadata is
    not looked up, and the next call asks for the same start date. *)
Theorem failed_fetch_writes_only_the_log (env : environment) (sid : string)
    (default_start_date : Z) (w : world) (e : string) :
  fred_get_series env (calls w) sid (start_of sid default_start_date w) = Raise e →
  let w' := (extract_and_store env sid default_start_date w).2 in
  extract_and_store env sid default_start_date w = (Ok tt, w') ∧
  fred_data_long (db w') = fred_data_long (db w) ∧
  series_metadata (db w') = series_metadata (db w) ∧
  extraction_log (db w')
  = extraction_log (db w)
    ++ [LogRow sid (utcnow env (length (extraction_log (db w)))) "error" e] ∧
  calls w' = calls w ++ [GetSeries sid (start_of sid default_start_date w)] ∧
  start_of sid default_start_date w' = start_of sid default_start_date w.
Proof.
  intros Hfetch. cbn zeta. rewrite extract_and_store_eq. cbn zeta. rewrite Hfetch. done.
Qed.

Lemma failed_fetch_writes_only_the_log_witness :
  let w' := (extract_and_store Fixtures.script_env_down "A" 0
               Fixtures.script_world_two_series).2 in
  fred_data_long (db w') = fred_data_long (db Fixtures.script_world_two_series) ∧
  status <$> extraction_log (db w') = ["error"] ∧
  calls w' = [GetSeries "A" 12].
Proof.
  destruct (failed_fetch_writes_only_the_log Fixtures.script_env_down "A" 0
              Fixtures.script_world_two_series "HTTP Error 500: Internal Server Error")
    as (_ & Hlong & _ & Hlog & Hcalls & _); [reflexivity|].
  cbn zeta. rewrite Hlong, Hlog, Hcalls. done.
Defined.

(** X6. After an extraction whose two provider calls succeed, the store
    holds what was fetched: the metadata row of the series is the
    provider's, every fetched date has exactly one row, with the last value
    the batch gives for it, and the start date of the next fetch is later
    than every fetched date. *)
Theorem successful_extraction_is_stored (env : environment) (sid : string)
    (default_start_date : Z) (w : world) (data : list (Z * pyval)) (info : series_info) :
  let start := start_of sid default_start_date w in
  fred_get_series env (calls w) sid start = Ok data →
  fred_get_series_info env (calls w ++ [GetSeries sid start]) sid = Ok info →
  let w' := (extract_and_store env sid default_start_date w).2 in
  series_metadata (db w') !! sid = Some info ∧
  (∀ d v data1 data2,
     data = data1 ++ (d, v) :: data2 → d ∉ data2.*1 →
     filter (λ r, same_key sid d r) (fred_data_long (db w')) = [LongRow sid d (bind_real v)]) ∧
  (∀ item, item ∈ data → item.1 < start_of sid default_start_date w').
Proof.
  intros start Hfetch Hinfo w'.
  assert (db w' = append_log env sid "success" (pretty (length data) +:+ " records")
                    (foldl (λ d item, insert_observation sid item d)
                       (replace_metadata sid info (db w)) data)) as Hdb.
  { subst w'. rewrite extract_and_store_eq. cbn zeta. fold start. by rewrite Hfetch, Hinfo. }
  rewrite Hdb. cbn [append_log series_metadata fred_data_long]. split; [|split].
  - rewrite foldl_insert_observation_metadata. cbn. by rewrite lookup_insert_eq.
  - intros d v data1 data2 -> Hd.
    pose proof (insert_observations_last_wins sid d v data1 data2
                  (World (replace_metadata sid info (db w)) (calls w)) Hd) as Hlast.
    by rewrite insert_observations_eq in Hlast.
  - intros item Hitem. unfold start_of. rewrite Hdb. cbn [append_log fred_data_long].
    rewrite foldl_insert_observation_long.
    destruct (select_max_date_key sid item.1
                (foldl (λ t item, replace_long (long_row_of sid item) t)
                   (fred_data_long (replace_metadata sid info (db w))) data))
      as (m & -> & Hle); [|lia].
    by apply foldl_replace_long_key.
Qed.

Lemma successful_extraction_is_stored_witness :
  let w' := (extract_and_store Fixtures.script_env_up "A" 0
               Fixtures.script_world_two_series).2 in
  series_metadata (db w') !! "A" = Some (SeriesInfo "A" "Monthly" "Percent" "2024-06-01") ∧
  filter (λ r, same_key "A" 13 r) (fred_data_long (db w')) = [LongRow "A" 13 None] ∧
  13 < start_of "A" 0 w'.
Proof.
  destruct (successful_extraction_is_stored Fixtures.script_env_up "A" 0
              Fixtures.script_world_two_series
              [(12, PyFloat 1%float); (13, PyNone)]
              (SeriesInfo "A" "Monthly" "Percent" "2024-06-01"))
    as (Hmeta & Hrows & Hnext); [reflexivity|reflexivity|].
  split; [exact Hmeta|]. split.
  - apply (Hrows 13 PyNone [(12, PyFloat 1%float)] []); [reflexivity|apply not_elem_of_nil].
  - apply (Hnext (13, PyNone)). apply list_elem_of_further, list_elem_of_here.
Defined.

(** X7. A run of [main] appends one log row per catalog entry, in catalog
    order (categories in order, the series of a category in order), each
    with status 'success' or 'error'. *)
Theorem main_logs_the_catalog_in_order (env : environment) (start_date : Z)
    (common_series : list (string * list string)) (w : world) :
  ∃ new,
    extraction_log (db (main env start_date common_series w).2)
    = extraction_log (db w) ++ new ∧
    log_series_id <$> new = concat (common_series.*2) ∧
    Forall (λ entry, status entry = "success" ∨ status entry = "error") new.
Proof.
  rewrite main_eq. cbn [snd]. generalize (concat common_series.*2). intros sids. revert w.
  induction sids as [|sid sids IH]; intros w.
  - exists []. by rewrite app_nil_r.
  - cbn [foldl].
    destruct (extract_and_store_log env sid start_date w) as (entry & Hlog & Hsid & Hst).
    destruct (IH (extract_and_store env sid start_date w).2) as (new & -> & Hnew & Hall).
    exists (entry :: new). rewrite Hlog, <- (assoc_L (++)). split; [done|]. split.
    + cbn. by rewrite Hsid, Hnew.
    + apply Forall_cons. split; [|done].
      destruct (fred_get_series env (calls w) sid _); [left|right]; apply Hst.
Qed.

End long_store_properties.

(** ** The frame [denormalize_observations] returns *)
Section frame_properties.
Import Transform.

Lemma loc_until_dates {B} (today : Z) (l : list (Z * B)) :
  (filter (λ r, r.1 ≤ today) l).*1 = filter (λ d, d ≤ today) (l.*1).
Proof.
  induction l as [|[d r] l IH]; [done|]. rewrite fmap_cons. cbn [fst].
  destruct (decide (d ≤ today)) as [Hd|Hd].
  - rewrite !filter_cons_True by done. rewrite fmap_cons. by rewrite IH.
  - by rewrite !filter_cons_False.
Qed.

Lemma StronglySorted_filter {A} (R : relation A) (P : A → Prop) `{!∀ x, Decision (P x)} l :
  StronglySorted R l → StronglySorted R (filter P l).
Proof.
  induction 1 as [|x l Hs IH Hall]; [constructor|].
  destruct (decide (P x)).
  - rewrite filter_cons_True by done. constructor; [done|].
    rewrite Forall_forall in Hall. apply Forall_forall.
    intros y [_ Hy]%list_elem_of_filter. by apply Hall.
  - by rewrite filter_cons_False.
Qed.

(** Sorting the rows by their label sorts the labels. *)
Lemma merge_sort_index_dates (rs : list (Z * gmap string float)) :
  (merge_sort index_le rs).*1 = merge_sort Z.le (rs.*1).
Proof.
  apply (StronglySorted_unique Z.le).
  - apply (StronglySorted_fmap fst index_le Z.le); [done|].
    apply StronglySorted_merge_sort; apply _.
  - apply StronglySorted_merge_sort; apply _.
  - by rewrite !merge_sort_Permutation.
Qed.

Lemma denormalize_index today df shell wide :
  denormalize_observations today df shell = Ok wide →
  (rows wide).*1 = filter (λ d, d ≤ today) (merge_sort Z.le shell).
Proof.
  rewrite denormalize_observations_eq. intros [= <-]. cbn [rows].
  rewrite loc_until_dates, ffill_rows_dates, merge_sort_index_dates.
  rewrite <- list_fmap_compose. by rewrite list_fmap_id.
Qed.

Lemma frame_index_sorted today df shell :
  ∃ wide, denormalize_observations today df shell = Ok wide ∧
          StronglySorted Z.le (rows wide).*1.
Proof.
  eexists. split; [apply denormalize_observations_eq|].
  rewrite (denormalize_index today df shell _ (denormalize_observations_eq today df shell)).
  apply StronglySorted_filter, StronglySorted_merge_sort; apply _.
Qed.

Lemma ffill_rows_app prev rs1 rs2 :
  ∃ prev', ffill_rows prev (rs1 ++ rs2) = ffill_rows prev rs1 ++ ffill_rows prev' rs2.
Proof.
  revert prev. induction rs1 as [|[d r] rs1 IH]; intros prev; [by exists prev|].
  cbn [ffill_rows app]. destruct (IH (r ∪ prev)) as [prev' ->]. by exists prev'.
Qed.

(** A value that was carried to a row stays in the rows below it as long
    as they bring no other value for the column. *)
Lemma ffill_rows_carried prev rs d2 row2 c v :
  StronglySorted index_le rs →
  prev !! c = Some v →
  (∀ d' row', (d', row') ∈ rs → d' ≤ d2 → row' !! c = None ∨ row' !! c = Some v) →
  (d2, row2) ∈ ffill_rows prev rs →
  row2 !! c = Some v.
Proof.
  intros Hsorted. revert prev.
  induction Hsorted as [|[d0 r0] rs Hsorted IH Hhd]; intros prev Hprev Hrows Hin;
    [by apply elem_of_nil in Hin|].
  cbn [ffill_rows] in Hin.
  assert (d0 ≤ d2 → (r0 ∪ prev) !! c = Some v) as Hhead.
  { intros Hle. destruct (Hrows d0 r0) as [Hn|Hs]; [left|done| |].
    - by rewrite lookup_union_r.
    - by apply lookup_union_Some_l. }
  apply elem_of_cons in Hin as [[= -> ->]|Hin].
  - apply Hhead. lia.
  - assert (d0 ≤ d2) as Hle.
    { assert (d2 ∈ (ffill_rows (r0 ∪ prev) rs).*1) as Hd.
      { apply list_elem_of_fmap. by exists (d2, row2). }
      rewrite ffill_rows_dates in Hd. apply list_elem_of_fmap in Hd as ([d1 r1] & -> & Hin1).
      rewrite Forall_forall in Hhd. by apply (Hhd (d1, r1)). }
    apply (IH (r0 ∪ prev)); [by apply Hhead| |done].
    intros d' row' Hin' Hle'. apply (Hrows d' row'); [by right|done].
Qed.

(** A value of a row reaches every later row up to the next row that
    brings a value for the column. *)
Lemma ffill_rows_carries prev rs d row d2 row2 c v :
  StronglySorted index_le rs →
  (d, row) ∈ rs → d ≤ d2 →
  (∀ row', (d, row') ∈ rs → row' !! c = Some v) →
  (∀ d' row', (d', row') ∈ rs → d < d' ≤ d2 → row' !! c = None) →
  (d2, row2) ∈ ffill_rows prev rs →
  row2 !! c = Some v.
Proof.
  intros Hsorted Hin Hle Hsame Hgap Hin2.
  apply list_elem_of_split in Hin as (rs1 & rs2 & ->).
  destruct (ffill_rows_app prev rs1 ((d, row) :: rs2)) as [prev' Happ].
  rewrite Happ in Hin2. cbn [ffill_rows] in Hin2.
  apply StronglySorted_app in Hsorted as (Hcross & Hs1 & Hs2).
  apply elem_of_app in Hin2 as [Hin2|Hin2].
  - apply ffill_rows_elem in Hin2 as (row0 & carried & Hin0 & ->).
    assert (d2 ≤ d) as Hle' by (apply (Hcross (d2, row0) (d, row)); [done|left]).
    assert (d2 = d) as -> by lia.
    apply lookup_union_Some_l, Hsame. apply elem_of_app. by left.
  - assert ((row ∪ prev') !! c = Some v) as Hhere.
    { apply lookup_union_Some_l, Hsame. apply elem_of_app. right. left. }
    apply elem_of_cons in Hin2 as [[= -> ->]|Hin2]; [done|].
    apply StronglySorted_cons in Hs2 as [Hhd Hs2]. rewrite Forall_forall in Hhd.
    apply (ffill_rows_carried (row ∪ prev') rs2 d2 row2 c v); [done..| |done].
    intros d' row' Hin' Hle2.
    assert (d ≤ d') as Hge by (apply (Hhd (d', row')); done).
    destruct (decide (d' = d)) as [->|Hne].
    + right. apply Hsame. apply elem_of_app. right. by right.
    + left. apply (Hgap d' row'); [|lia]. apply elem_of_app. right. by right.
Qed.

End frame_properties.

Section frame_theorems.
Import Transform.

Lemma sorted_rows_split {B} (t : Z) (l : list (Z * B)) :
  StronglySorted Z.le (l.*1) →
  l = filter (λ r, r.1 ≤ t) l ++ filter (λ r, ¬ r.1 ≤ t) l.
Proof.
  induction l as [|[d r] l IH]; [done|].
  rewrite fmap_cons. cbn [fst]. intros [Hhd Hs]%StronglySorted_cons.
  destruct (decide (d ≤ t)) as [Hd|Hd].
  - rewrite filter_cons_True, (filter_cons_False (λ r, ¬ r.1 ≤ t)) by (cbn; tauto).
    cbn [app]. f_equal. by apply IH.
  - rewrite filter_cons_False, (filter_cons_True (λ r, ¬ r.1 ≤ t)) by done.
    replace (filter (λ r, r.1 ≤ t) l) with (@nil (Z * B)).
    + cbn [app]. f_equal.
      clear IH Hs. induction l as [|[d' r'] l IHl]; [done|].
      rewrite fmap_cons in Hhd. apply Forall_cons in Hhd as [Hle Hhd]. cbn [fst] in Hle.
      rewrite filter_cons_True by (cbn; lia). f_equal. by apply IHl.
    + symmetry. clear IH Hs. induction l as [|[d' r'] l IHl]; [done|].
      rewrite fmap_cons in Hhd. apply Forall_cons in Hhd as [Hle Hhd]. cbn [fst] in Hle.
      rewrite filter_cons_False by (cbn; lia). by apply IHl.
Qed.

(** X8. The row labels of the frame [denormalize_observations] returns are
    the dates of the date shell up to [today], in ascending order: every
    shell date up to [today] has a row, whether it has observations or not,
    no other date has one, and a date listed once in the shell has one
    row. *)
Theorem frame_index_is_the_sorted_shell (today : Z) (df : list obs) (shell : list Z) :
  ∃ wide,
    denormalize_observations today df shell = Ok wide ∧
    (rows wide).*1 = filter (λ d, d ≤ today) (merge_sort Z.le shell) ∧
    StronglySorted Z.le (rows wide).*1 ∧
    (∀ d, d ∈ (rows wide).*1 ↔ d ∈ shell ∧ d ≤ today) ∧
    (NoDup shell → NoDup (rows wide).*1).
Proof.
  eexists. split; [apply denormalize_observations_eq|].
  rewrite (denormalize_index today df shell _ (denormalize_observations_eq today df shell)).
  split; [done|]. split; [|split].
  - apply StronglySorted_filter, StronglySorted_merge_sort; apply _.
  - intros d. rewrite list_elem_of_filter, merge_sort_Permutation. tauto.
  - intros Hnd. apply NoDup_filter. by rewrite merge_sort_Permutation.
Qed.

(** X9. The columns of the frame are distinct and are exactly the names
    [fred_<series id>] of the series that occur in the long rows, and every
    cell that holds a value stands under one of these columns. *)
Theorem frame_columns_cover_cells (today : Z) (df : list obs) (shell : list Z) :
  ∃ wide,
    denormalize_observations today df shell = Ok wide ∧
    NoDup (columns wide) ∧
    (∀ c, c ∈ columns wide ↔ ∃ s, c = fred_col s ∧ s ∈ obs_series <$> df) ∧
    (∀ d row c, (d, row) ∈ rows wide → is_Some (row !! c) → c ∈ columns wide).
Proof.
  pose proof (denormalize_observations_eq today df shell) as Heq.
  eexists. split; [exact Heq|].
  pose proof (λ c, denormalize_columns_elem today df shell _ c Heq) as Hcols.
  split; [|split].
  - apply (denormalize_columns_wf today df shell _ Heq).
  - apply Hcols.
  - intros d row c Hin [v Hv]. cbn [columns]. apply Hcols.
    destruct (denormalize_cell_source today df shell _ d row c v Heq Hin Hv)
      as (d' & s & -> & _ & _ & Hobs).
    exists s. split; [done|]. apply obs_series_drop_duplicates.
    apply list_elem_of_fmap. by exists (d', s, Some v).
Qed.

(** X10. The rows of the frame up to a date do not depend on the day the
    function runs: run on a later day, it returns the same columns and the
    same rows, followed by the rows of the days in between. *)
Theorem later_run_only_appends_rows (today1 today2 : Z) (df : list obs) (shell : list Z) :
  today1 ≤ today2 →
  ∃ wide1 wide2 later,
    denormalize_observations today1 df shell = Ok wide1 ∧
    denormalize_observations today2 df shell = Ok wide2 ∧
    columns wide1 = columns wide2 ∧
    rows wide2 = rows wide1 ++ later ∧
    Forall (λ r, today1 < r.1 ≤ today2) later.
Proof.
  intros Hle.
  destruct (frame_index_sorted today2 df shell) as (wide2 & Heq2 & Hsorted).
  pose proof Heq2 as Heq2'. rewrite denormalize_observations_eq in Heq2'.
  injection Heq2' as Hwide2.
  eexists _, wide2, (filter (λ r, ¬ r.1 ≤ today1) (rows wide2)).
  split; [apply denormalize_observations_eq|]. split; [done|].
  rewrite <- Hwide2. cbn [columns rows]. split; [done|]. split.
  - set (all := ffill_rows _ _).
    replace (filter (λ r, r.1 ≤ today1) all)
      with (filter (λ r, r.1 ≤ today1) (filter (λ r, r.1 ≤ today2) all)).
    + apply sorted_rows_split. by rewrite <- Hwide2 in Hsorted.
    + rewrite list_filter_filter. apply list_filter_iff. intros r. lia.
  - apply Forall_forall. intros r [Hr [Hr2 _]%list_elem_of_filter]%list_elem_of_filter. lia.
Qed.

Lemma later_run_only_appends_rows_witness :
  ∃ wide1 wide2 later,
    denormalize_observations 2 [(1, "A", Some 7%float)] [1; 2; 3; 4] = Ok wide1 ∧
    denormalize_observations 3 [(1, "A", Some 7%float)] [1; 2; 3; 4] = Ok wide2 ∧
    columns wide1 = columns wide2 ∧
    rows wide2 = rows wide1 ++ later ∧
    Forall (λ r, 2 < r.1 ≤ 3) later.
Proof. apply (later_run_only_appends_rows 2 3). lia. Defined.

End frame_theorems.

Section fill_theorems.
Import Transform.

Lemma cells_of_no_observation df d s :
  (∀ v, (d, s, Some v) ∉ df) → cells_of df d !! fred_col s = None.
Proof.
  intros Hnone. unfold cells_of. rewrite rename_row_lookup.
  destruct (pivot_row d (drop_duplicates df) !! s) as [v|] eqn:Hv; [|done].
  apply pivot_row_Some, drop_duplicates_subset in Hv. by destruct (Hnone v).
Qed.

Lemma denormalize_carries (today : Z) (df1 df2 : list obs) (shell : list Z)
    (d d2 : Z) (s : string) (v : float) :
  let df := df1 ++ (d, s, Some v) :: df2 in
  (d, s) ∉ obs_key <$> df2 →
  d ∈ shell → d2 ∈ shell → d ≤ d2 → d2 ≤ today →
  (∀ d' v', d' ∈ shell → d < d' ≤ d2 → (d', s, Some v') ∉ df) →
  ∃ wide,
    denormalize_observations today df shell = Ok wide ∧
    (∃ row, (d2, row) ∈ rows wide) ∧
    ∀ row, (d2, row) ∈ rows wide → row !! fred_col s = Some v.
Proof.
  intros df Hlast Hd Hd2 Hle Htoday Hgap.
  pose proof (denormalize_observations_eq today df shell) as Heq.
  eexists. split; [exact Heq|]. split.
  - assert (d2 ∈ (rows (Frame
               (fred_col <$> merge_sort string_le
                  (remove_dups (obs_series <$> drop_duplicates df)))
               (filter (λ r, r.1 ≤ today)
                  (ffill_rows ∅
                     (merge_sort index_le ((λ d, (d, cells_of df d)) <$> shell)))))).*1)
      as Hin.
    { rewrite (denormalize_index today df shell _ Heq).
      apply list_elem_of_filter. split; [done|]. by rewrite merge_sort_Permutation. }
    apply list_elem_of_fmap in Hin as ([d' row] & Hd' & Hin). cbn in Hd'. subst d'.
    by exists row.
  - intros row [_ Hin]%list_elem_of_filter.
    assert (∀ d' row', (d', row') ∈ merge_sort index_le ((λ d, (d, cells_of df d)) <$> shell)
                       → d' ∈ shell ∧ row' = cells_of df d') as Hrs.
    { intros d' row'. rewrite merge_sort_Permutation.
      intros (d'' & [= -> ->] & Hin')%list_elem_of_fmap. done. }
    apply (ffill_rows_carries ∅
             (merge_sort index_le ((λ d, (d, cells_of df d)) <$> shell))
             d (cells_of df d) d2 row (fred_col s) v);
      [apply StronglySorted_merge_sort; apply _| |done| | |done].
    + rewrite merge_sort_Permutation. apply list_elem_of_fmap. by exists d.
    + intros row' [_ ->]%Hrs. subst df. by apply cells_of_last.
    + intros d' row' [Hd' ->]%Hrs Hrange. apply cells_of_no_observation.
      intros v'. by apply Hgap.
Qed.

(** X11. Forward fill carries the last value: when the last row the long
    frame holds for (d, series) has the value v, and the frame has no value
    of the series on the shell dates after d up to d2, then the frame's row
    of the shell date d2 (d <= d2 <= today) holds v for the series. *)
Theorem forward_fill_carries_last_value (today : Z) (df1 df2 : list obs) (shell : list Z)
    (d d2 : Z) (s : string) (v : float) :
  let df := df1 ++ (d, s, Some v) :: df2 in
  (d, s) ∉ obs_key <$> df2 →
  d ∈ shell → d2 ∈ shell → d ≤ d2 → d2 ≤ today →
  (∀ d' v', d' ∈ shell → d < d' ≤ d2 → (d', s, Some v') ∉ df) →
  ∃ wide,
    denormalize_observations today df shell = Ok wide ∧
    (∃ row, (d2, row) ∈ rows wide) ∧
    ∀ row, (d2, row) ∈ rows wide → row !! fred_col s = Some v.
Proof. apply denormalize_carries. Qed.

Lemma forward_fill_carries_last_value_witness :
  ∃ wide,
    denormalize_observations 10
      [(1, "A", Some 7%float); (1, "A", Some 8%float); (4, "A", Some 9%float)] [1; 2; 3; 4]
    = Ok wide ∧
    (∃ row, (3, row) ∈ rows wide) ∧
    ∀ row, (3, row) ∈ rows wide → row !! fred_col "A" = Some 8%float.
Proof.
  apply (forward_fill_carries_last_value 10 [(1, "A", Some 7%float)]
           [(4, "A", Some 9%float)] [1; 2; 3; 4] 1 3 "A" 8%float).
  - compute_done.
  - compute_done.
  - compute_done.
  - lia.
  - lia.
  - intros d' v' _ Hrange Hin.
    apply elem_of_cons in Hin as [Hin|Hin]; [injection Hin as -> _; lia|].
    apply elem_of_cons in Hin as [Hin|Hin]; [injection Hin as -> _; lia|].
    apply elem_of_cons in Hin as [Hin|Hin]; [injection Hin as -> _; lia|].
    by apply elem_of_nil in Hin.
Defined.

End fill_theorems.

(** ** The wide table under repeated upserts *)
Section wide_store_properties.
Import Transform ColumnNames.

Lemma for_each_app {S A} (l1 l2 : list A) (body : A → prog S unit) (s : S) :
  for_each (l1 ++ l2) body s
  = match for_each l1 body s with
    | (Ok _, s1) => for_each l2 body s1
    | (Raise e, s1) => (Raise e, s1)
    end.
Proof.
  revert s. induction l1 as [|x l1 IH]; intros s; [done|].
  cbn [app for_each]. unfold bind. destruct (body x s) as [[[]|e] s1]; [apply IH|done].
Qed.

Lemma last_row_of_date (rs : list (Z * gmap string float)) d :
  d ∈ rs.*1 → ∃ rs1 row rs2, rs = rs1 ++ (d, row) :: rs2 ∧ d ∉ rs2.*1.
Proof.
  induction rs as [|[d0 r0] rs IH]; [by intros ?%elem_of_nil|].
  intros Hin. destruct (decide (d ∈ rs.*1)) as [Hd|Hd].
  - destruct (IH Hd) as (rs1 & row & rs2 & -> & Hn).
    by exists ((d0, r0) :: rs1), row, rs2.
  - rewrite fmap_cons in Hin. apply elem_of_cons in Hin as [->|Hin]; [|done].
    by exists [], r0, rs.
Qed.

Lemma upsert_rows_last cols rs1 d row rs2 m :
  d ∉ rs2.*1 →
  upsert_rows cols (rs1 ++ (d, row) :: rs2) m !! d
  = Some (set_cells cols row (default ∅ (upsert_rows cols rs1 m !! d))).
Proof.
  intros Hd. unfold upsert_rows. rewrite foldl_app. cbn [foldl fst snd].
  fold (upsert_rows cols rs1 m).
  set (m1 := <[d := _]> (upsert_rows cols rs1 m)).
  fold (upsert_rows cols rs2 m1). rewrite upsert_rows_other_date by done.
  unfold m1. by rewrite lookup_insert_eq.
Qed.

Lemma default_row_lookup (m : gmap Z (gmap string float)) d c :
  default ∅ (m !! d) !! c = cell m d c.
Proof. unfold cell. by destruct (m !! d). Qed.

Lemma upsert_rows_idemp cols rs m :
  upsert_rows cols rs (upsert_rows cols rs m) = upsert_rows cols rs m.
Proof.
  apply map_eq. intros d. destruct (decide (d ∈ rs.*1)) as [Hd|Hd].
  - destruct (last_row_of_date rs d Hd) as (rs1 & row & rs2 & -> & Hn).
    rewrite !(upsert_rows_last cols rs1 d row rs2) by done. f_equal.
    apply map_eq. intros c. rewrite !set_cells_lookup. case_bool_decide as Hc; [done|].
    by rewrite !default_row_lookup, !upsert_rows_other_column.
  - by rewrite !upsert_rows_other_date.
Qed.

Lemma upsert_wide_table_idemp (f : frame) (t : wide_table) :
  NoDup (columns f) →
  upsert_wide_table f (upsert_wide_table f t).2 = upsert_wide_table f t.
Proof.
  intros Hnd. destruct t as [tc tr].
  rewrite (upsert_wide_table_eq f (WideTable tc tr)), ensure_columns_eq by done.
  cbn [table_columns table_rows].
  set (tc1 := tc ++ filter (λ c, c ∉ tc) (columns f)).
  assert (columns f ⊆ tc1) as Hsub.
  { intros c Hc. unfold tc1. rewrite elem_of_app, list_elem_of_filter.
    destruct (decide (c ∈ tc)); [by left|by right]. }
  destruct (decide (columns f = [])) as [Hnil|Hne].
  - assert (∀ t', (for_each (rows f) (λ '(date, row), execute_upsert (columns f) date row) t').2
                  = t') as Hsame.
    { intros t'. rewrite Hnil. apply upsert_without_columns. }
    destruct (for_each (rows f) _ (WideTable tc1 tr)) as [r t1] eqn:Hrun.
    pose proof (Hsame (WideTable tc1 tr)) as H1. rewrite Hrun in H1. cbn [snd] in H1. subst t1.
    cbn [snd]. rewrite upsert_wide_table_eq, ensure_columns_present by done. done.
  - rewrite upsert_loop by done. cbn [snd table_columns table_rows].
    rewrite upsert_wide_table_eq, ensure_columns_present by done.
    rewrite upsert_loop by done. cbn [table_columns table_rows].
    by rewrite upsert_rows_idemp.
Qed.

(** X12. Writing the same frame a second time changes nothing:
    [upsert_wide_table] is idempotent on a frame with distinct series
    columns (the key column [date] is not one of them) whose names, with
    those of the table, are plain (SQLite tells them apart as the script
    does). *)
Theorem upsert_wide_table_idempotent (f : frame) (t : wide_table) :
  NoDup (columns f) →
  "date" ∉ columns f →
  plain_names ("date" :: table_columns t ++ columns f) →
  upsert_wide_table f (upsert_wide_table f t).2 = upsert_wide_table f t.
Proof. intros Hnd _ _. by apply upsert_wide_table_idemp. Qed.

Lemma upsert_wide_table_idempotent_witness :
  upsert_wide_table Samples.incoming_frame
    (upsert_wide_table Samples.incoming_frame Samples.wide_table_before).2
  = upsert_wide_table Samples.incoming_frame Samples.wide_table_before.
Proof.
  apply upsert_wide_table_idempotent.
  - cbn. compute_done.
  - cbn. compute_done.
  - cbn. compute_done.
Defined.

(** X13. A column name that the table lacks and the caller lists twice
    makes [ensure_columns] raise at the second occurrence, the set of
    existing columns being read once before the loop: the columns listed
    until then stay added, the rows are untouched.  (The names are plain:
    SQLite tells them apart as the script does.) *)
Theorem ensure_columns_repeated_name_raises (pre mid post : list string) (c : string)
    (t : wide_table) :
  plain_names (table_columns t ++ pre ++ c :: mid) →
  c ∉ table_columns t →
  NoDup (pre ++ c :: mid) →
  ensure_columns (pre ++ c :: mid ++ c :: post) t
  = (Raise ("duplicate column name: " +:+ c),
     WideTable (table_columns t ++ filter (λ c', c' ∉ table_columns t) (pre ++ c :: mid))
               (table_rows t)).
Proof.
  intros _ Hc Hnd. unfold ensure_columns.
  replace (pre ++ c :: mid ++ c :: post) with ((pre ++ c :: mid) ++ c :: post)
    by (by rewrite <- (assoc_L (++))).
  rewrite for_each_app, ensure_columns_loop by done.
  cbn [for_each]. unfold bind. rewrite bool_decide_eq_false_2 by done.
  unfold add_column. cbn [table_columns].
  rewrite bool_decide_eq_true_2; [done|].
  rewrite elem_of_app, list_elem_of_filter, elem_of_app, elem_of_cons. tauto.
Qed.

Lemma ensure_columns_repeated_name_raises_witness :
  ensure_columns ["fred_B"; "fred_A"; "fred_B"] Samples.wide_table_before
  = (Raise "duplicate column name: fred_B",
     WideTable ["date"; "fred_A"; "fred_C"; "fred_B"] (table_rows Samples.wide_table_before)).
Proof.
  apply (ensure_columns_repeated_name_raises [] ["fred_A"] [] "fred_B"
           Samples.wide_table_before).
  - cbn. compute_done.
  - cbn. compute_done.
  - compute_done.
Defined.

(** X14. A frame without columns cannot be written: [upsert_wide_table]
    leaves the table as it is, returns when the frame has no row, and
    raises at the first row otherwise (the statement it builds has an empty
    SET clause). *)
Theorem upsert_of_frame_without_columns (f : frame) (t : wide_table) :
  columns f = [] →
  (upsert_wide_table f t).2 = t ∧
  (rows f = [] → upsert_wide_table f t = (Ok tt, t)) ∧
  (rows f ≠ [] → ∃ e, (upsert_wide_table f t).1 = Raise e).
Proof.
  intros Hcols. rewrite upsert_wide_table_eq, Hcols.
  assert (ensure_columns [] t = (Ok tt, t)) as -> by done.
  split; [apply upsert_without_columns|]. split.
  - by intros ->.
  - intros Hrows. destruct (rows f) as [|[d0 r0] rs]; [done|]. cbn. eauto.
Qed.

Lemma upsert_of_frame_without_columns_witness :
  upsert_wide_table (Frame [] [(1, ∅)]) Samples.wide_table_before
  = (Raise "incomplete input", Samples.wide_table_before).
Proof.
  destruct (upsert_of_frame_without_columns (Frame [] [(1, ∅)]) Samples.wide_table_before)
    as (Hsame & _ & Hraise); [done|].
  destruct (upsert_wide_table _ _) as [r t'] eqn:Hrun. cbn [snd fst] in *. subst t'.
  destruct Hraise as [e ->]; [done|]. f_equal. vm_compute in Hrun. by injection Hrun as <-.
Defined.

End wide_store_properties.

(** ** The transform script as a whole (transform_fred_data.py, [main]) *)
Section transform_main.
Import Transform TransformMain LongStore ColumnNames.

Lemma merge_sort_nil_inv (l : list Z) : merge_sort Z.le l = [] → l = [].
Proof.
  intros Hnil. apply Permutation_nil. by rewrite <- (merge_sort_Permutation Z.le l), Hnil.
Qed.

Lemma main_nothing_to_do today s :
  fred_data_long s = [] ∨ date_shell s = [] → main today s = (Ok tt, s).
Proof.
  unfold main, fetch_observations, fetch_date_shell. intros [->| ->]; [done|].
  by rewrite orb_true_r.
Qed.

(** With rows in both tables the frame has a column, and [main] adds the
    frame's columns and upserts its rows. *)
Lemma transform_main_eq today s :
  fred_data_long s ≠ [] → date_shell s ≠ [] →
  ∃ wide,
    denormalize_observations today (fetch_observations s) (fetch_date_shell s) = Ok wide ∧
    columns wide ≠ [] ∧
    NoDup (columns wide) ∧
    upsert_wide_table wide (fred_data_wide s)
    = (Ok tt,
       WideTable
         (table_columns (fred_data_wide s)
            ++ filter (λ c, c ∉ table_columns (fred_data_wide s)) (columns wide))
         (upsert_rows (columns wide) (rows wide) (table_rows (fred_data_wide s)))) ∧
    main today s
    = (Ok tt,
       Store (fred_data_long s) (date_shell s)
         (WideTable
            (table_columns (fred_data_wide s)
               ++ filter (λ c, c ∉ table_columns (fred_data_wide s)) (columns wide))
            (upsert_rows (columns wide) (rows wide) (table_rows (fred_data_wide s))))).
Proof.
  intros Hlong Hshell.
  pose proof (denormalize_observations_eq today (fetch_observations s) (fetch_date_shell s))
    as Heq.
  set (wide := Frame _ _) in Heq. exists wide. split; [done|].
  assert (columns wide ≠ []) as Hne.
  { destruct (fred_data_long s) as [|r l] eqn:Hl; [done|].
    assert (fred_col (ExtractScript.series_id r) ∈ columns wide) as Hin.
    { apply (denormalize_columns_elem today _ _ _ _ Heq).
      exists (ExtractScript.series_id r). split; [done|].
      unfold fetch_observations. rewrite Hl. rewrite !fmap_cons. left. }
    intros Hnil. rewrite Hnil in Hin. by apply elem_of_nil in Hin. }
  destruct (denormalize_columns_wf today _ _ _ Heq) as [Hnd _].
  assert (upsert_wide_table wide (fred_data_wide s)
          = (Ok tt,
             WideTable
               (table_columns (fred_data_wide s)
                  ++ filter (λ c, c ∉ table_columns (fred_data_wide s)) (columns wide))
               (upsert_rows (columns wide) (rows wide) (table_rows (fred_data_wide s)))))
    as Hup.
  { rewrite upsert_wide_table_eq, ensure_columns_eq by done.
    rewrite upsert_loop; [done|done|].
    cbn [table_columns]. intros c Hc. rewrite elem_of_app, list_elem_of_filter.
    destruct (decide (c ∈ table_columns (fred_data_wide s))); [by left|by right]. }
  split; [done|]. split; [done|]. split; [done|].
  unfold main.
  assert (empty (fetch_observations s) = false) as ->.
  { unfold fetch_observations. by destruct (fred_data_long s). }
  assert (empty (fetch_date_shell s) = false) as ->.
  { unfold fetch_date_shell. destruct (merge_sort Z.le (date_shell s)) eqn:Hs; [|done].
    by apply merge_sort_nil_inv in Hs. }
  cbn [orb]. rewrite Heq, Hup. done.
Qed.

(** X15. [main] of the transform script never raises and writes only the
    wide table, whose columns it never removes: it does nothing when
    [fred_data_long] or [date_shell] is empty, and else leaves a column
    [fred_<series id>] for every series of the long store.  (The column
    names, those of the table and those of the series, are plain: SQLite
    tells them apart as the script does.) *)
Theorem transform_main_never_raises (today : Z) (s : store) :
  plain_names (table_columns (fred_data_wide s)
               ++ ((λ r, fred_col (ExtractScript.series_id r)) <$> fred_data_long s)) →
  ∃ s',
    main today s = (Ok tt, s') ∧
    fred_data_long s' = fred_data_long s ∧
    date_shell s' = date_shell s ∧
    table_columns (fred_data_wide s) ⊆ table_columns (fred_data_wide s') ∧
    (fred_data_long s = [] ∨ date_shell s = [] → s' = s) ∧
    (fred_data_long s ≠ [] → date_shell s ≠ [] →
     ∀ r, r ∈ fred_data_long s →
          fred_col (ExtractScript.series_id r) ∈ table_columns (fred_data_wide s')).
Proof.
  intros _.
  destruct (decide (fred_data_long s = [])) as [Hl|Hl];
    [|destruct (decide (date_shell s = [])) as [Hs|Hs]].
  - exists s. rewrite main_nothing_to_do by by left. by repeat split.
  - exists s. rewrite main_nothing_to_do by by right. by repeat split.
  - destruct (transform_main_eq today s Hl Hs) as (wide & Heq & Hne & Hnd & _ & ->).
    eexists. split; [done|]. cbn [fred_data_long date_shell fred_data_wide table_columns].
    split; [done|]. split; [done|]. split; [|split].
    + intros c Hc. apply elem_of_app. by left.
    + by intros [?|?].
    + intros _ _ r Hr.
      assert (fred_col (ExtractScript.series_id r) ∈ columns wide) as Hin.
      { apply (denormalize_columns_elem today _ _ _ _ Heq).
        exists (ExtractScript.series_id r). split; [done|].
        unfold fetch_observations. rewrite <- list_fmap_compose.
        apply list_elem_of_fmap. by exists r. }
      rewrite elem_of_app, list_elem_of_filter.
      destruct (decide (fred_col (ExtractScript.series_id r)
                          ∈ table_columns (fred_data_wide s))); [by left|by right].
Qed.

Lemma main_materializes (today : Z) (s : store) (sid : string) (d d2 : Z) (v : float) :
  NoDup (long_key <$> fred_data_long s) →
  ExtractScript.LongRow sid d (Some v) ∈ fred_data_long s →
  d ∈ date_shell s → d2 ∈ date_shell s → d ≤ d2 → d2 ≤ today →
  (∀ r, r ∈ fred_data_long s → ExtractScript.series_id r = sid →
        d < ExtractScript.date r ≤ d2 → ExtractScript.value r = None) →
  let s' := (main today s).2 in
  main today s = (Ok tt, s') ∧
  fred_col sid ∈ table_columns (fred_data_wide s') ∧
  cell (table_rows (fred_data_wide s')) d2 (fred_col sid) = Some v.
Proof.
  intros Hnd Hrow Hd Hd2 Hle Htoday Hgap.
  assert (fred_data_long s ≠ []) as Hl by (intros Hnil; rewrite Hnil in Hrow; by apply elem_of_nil in Hrow).
  assert (date_shell s ≠ []) as Hs by (intros Hnil; rewrite Hnil in Hd; by apply elem_of_nil in Hd).
  destruct (transform_main_eq today s Hl Hs) as (wide & Heq & Hne & Hndc & _ & Hmain).
  cbn zeta. rewrite Hmain. cbn [snd fred_data_wide table_columns table_rows].
  split; [done|].
  assert (fred_col sid ∈ columns wide) as Hcol.
  { apply (denormalize_columns_elem today _ _ _ _ Heq). exists sid. split; [done|].
    unfold fetch_observations. rewrite <- list_fmap_compose.
    apply list_elem_of_fmap. by exists (ExtractScript.LongRow sid d (Some v)). }
  split.
  { rewrite elem_of_app, list_elem_of_filter.
    destruct (decide (fred_col sid ∈ table_columns (fred_data_wide s))); [by left|by right]. }
  pose proof Hrow as Hsplit. apply list_elem_of_split in Hsplit as (l1 & l2 & Hlong).
  set (g := λ r, (ExtractScript.date r, ExtractScript.series_id r, ExtractScript.value r)).
  assert (fetch_observations s = (g <$> l1) ++ (d, sid, Some v) :: (g <$> l2)) as Hdf.
  { unfold fetch_observations. fold g. by rewrite Hlong, fmap_app, fmap_cons. }
  destruct (denormalize_carries today (g <$> l1) (g <$> l2) (fetch_date_shell s) d d2 sid v)
    as (wide' & Heq' & [row0 Hrow0] & Hcells).
  - rewrite Hlong, fmap_app, fmap_cons in Hnd.
    apply NoDup_app in Hnd as (_ & _ & [Hn _]%NoDup_cons).
    intros ([[d' s'] v'] & Hk & (r & Hg & Hr)%list_elem_of_fmap)%list_elem_of_fmap.
    apply Hn. apply list_elem_of_fmap. exists r. split; [|done].
    unfold g in Hg. unfold obs_key in Hk. cbn in Hk. unfold long_key. cbn. by simplify_eq.
  - unfold fetch_date_shell. by rewrite merge_sort_Permutation.
  - unfold fetch_date_shell. by rewrite merge_sort_Permutation.
  - done.
  - done.
  - intros d' v' _ Hrange. rewrite <- Hdf. unfold fetch_observations.
    intros (r & Hg & Hr)%list_elem_of_fmap. injection Hg as Hgd Hgs Hgv.
    rewrite (Hgap r Hr) in Hgv; [done|done|lia].
  - rewrite <- Hdf, Heq in Heq'. injection Heq' as <-.
    assert (d2 ∈ (rows wide).*1) as Hin by (apply list_elem_of_fmap; by exists (d2, row0)).
    destruct (last_row_of_date (rows wide) d2 Hin) as (rs1 & row & rs2 & Hrows & Hn).
    rewrite Hrows, upsert_rows_written by done.
    apply Hcells. rewrite Hrows. apply elem_of_app. right. left.
Qed.

(** X16. From the long store to the wide table: when the long store,
    unique in (series_id, date), holds the value v for a series on the shell
    date d and no value of the series on the shell dates after d up to d2,
    then after [main] the wide table holds v in the series' column on the
    shell date d2, for d <= d2 <= today.  (The column names are plain, as
    in X15.) *)
Theorem stored_value_reaches_the_wide_table (today : Z) (s : store) (sid : string)
    (d d2 : Z) (v : float) :
  plain_names (table_columns (fred_data_wide s)
               ++ ((λ r, fred_col (ExtractScript.series_id r)) <$> fred_data_long s)) →
  NoDup (long_key <$> fred_data_long s) →
  ExtractScript.LongRow sid d (Some v) ∈ fred_data_long s →
  d ∈ date_shell s → d2 ∈ date_shell s → d ≤ d2 → d2 ≤ today →
  (∀ r, r ∈ fred_data_long s → ExtractScript.series_id r = sid →
        d < ExtractScript.date r ≤ d2 → ExtractScript.value r = None) →
  let s' := (main today s).2 in
  main today s = (Ok tt, s') ∧
  fred_col sid ∈ table_columns (fred_data_wide s') ∧
  cell (table_rows (fred_data_wide s')) d2 (fred_col sid) = Some v.
Proof. intros _. apply main_materializes. Qed.

Lemma stored_value_reaches_the_wide_table_witness :
  cell (table_rows (fred_data_wide (main 3 Fixtures.transform_store).2)) 3 (fred_col "A")
  = Some 7%float.
Proof.
  apply (stored_value_reaches_the_wide_table 3 Fixtures.transform_store "A" 1 3 7%float).
  - cbn. compute_done.
  - cbn. compute_done.
  - apply list_elem_of_here.
  - cbn. compute_done.
  - cbn. compute_done.
  - lia.
  - lia.
  - intros r Hr Hs Hrange. cbn in Hr.
    apply elem_of_cons in Hr as [->|Hr]; [cbn in Hrange; lia|].
    apply elem_of_cons in Hr as [->|Hr]; [cbn in Hrange; lia|].
    by apply elem_of_nil in Hr.
Defined.

(** X17. Running the transform script a second time on the same day
    changes nothing: [main] is idempotent.  (The column names are plain, as
    in X15.) *)
Theorem transform_main_idempotent (today : Z) (s : store) :
  plain_names (table_columns (fred_data_wide s)
               ++ ((λ r, fred_col (ExtractScript.series_id r)) <$> fred_data_long s)) →
  main today (main today s).2 = main today s.
Proof.
  intros _.
  destruct (decide (fred_data_long s = [])) as [Hl|Hl];
    [|destruct (decide (date_shell s = [])) as [Hs|Hs]].
  - rewrite (main_nothing_to_do today s) by by left.
    cbn [snd]. apply main_nothing_to_do. by left.
  - rewrite (main_nothing_to_do today s) by by right.
    cbn [snd]. apply main_nothing_to_do. by right.
  - destruct (transform_main_eq today s Hl Hs) as (wide & Heq & Hne & Hnd & Hup & Hmain).
    rewrite Hmain. cbn [snd]. set (s1 := Store _ _ _).
    destruct (transform_main_eq today s1 Hl Hs) as (wide1 & Heq1 & _ & _ & Hup1 & Hmain1).
    assert (wide1 = wide) as ->.
    { unfold fetch_observations, fetch_date_shell in Heq, Heq1.
      cbn [fred_data_long date_shell s1] in Heq1. rewrite Heq in Heq1. by injection Heq1. }
    rewrite Hmain1. unfold s1. cbn [fred_data_long date_shell fred_data_wide].
    pose proof (upsert_wide_table_idemp wide (fred_data_wide s) Hnd) as Hidem.
    rewrite Hup in Hidem. cbn [snd] in Hidem.
    cbn [fred_data_wide s1] in Hup1. rewrite Hup1 in Hidem.
    injection Hidem as Hc Hr. cbn [table_columns table_rows]. by rewrite Hc, Hr.
Qed.

Lemma transform_main_idempotent_witness :
  main 3 (main 3 Fixtures.transform_store).2 = main 3 Fixtures.transform_store.
Proof. apply transform_main_idempotent. cbn. compute_done. Defined.

Lemma transform_main_never_raises_witness :
  ∃ s', main 3 Fixtures.transform_store = (Ok tt, s') ∧
        table_columns (fred_data_wide s') = ["date"; "fred_A"].
Proof.
  destruct (transform_main_never_raises 3 Fixtures.transform_store) as (s' & Hrun & _).
  { cbn. compute_done. }
  exists s'. split; [exact Hrun|]. vm_compute in Hrun. by injection Hrun as <-.
Defined.

End transform_main.

(** ** The table [observations] under insert-or-ignore (database.py) *)
Section package_observations.
Import Package.

(** One batch appends rows and counts them; every offered observation is
    among the appended rows or has its key stored. *)
Lemma foldl_insert_observation_appends sid obss n0 (t : list observation_row) :
  ∃ new,
    foldl (insert_observation sid) (n0, t) obss = ((n0 + length new)%nat, t ++ new) ∧
    (length new ≤ length obss)%nat ∧
    (∀ r, r ∈ new → ∃ obs, obs ∈ obss ∧ r = observation_params sid obs) ∧
    (∀ obs, obs ∈ obss →
       observation_params sid obs ∈ new ∨
       Exists (conflicts (observation_params sid obs)) (t ++ new)).
Proof.
  induction obss as [|obs obss IH] using rev_ind.
  - exists []. cbn. rewrite Nat.add_0_r, app_nil_r. split; [done|]. split; [done|].
    split; by intros ? ?%elem_of_nil.
  - destruct IH as (new & Hfold & Hlen & Hrows & Hall).
    rewrite foldl_snoc, Hfold, length_app. cbn [length].
    destruct (decide (Exists (conflicts (observation_params sid obs)) (t ++ new))) as [Hc|Hc].
    + exists new. rewrite insert_observation_ignored by done.
      split; [done|]. split; [lia|]. split.
      * intros r Hr. destruct (Hrows r Hr) as (obs' & Hin & ->).
        exists obs'. split; [|done]. apply elem_of_app. by left.
      * intros obs' [Hin| ->%list_elem_of_singleton]%elem_of_app; [by apply Hall|by right].
    + exists (new ++ [observation_params sid obs]).
      rewrite insert_observation_inserted by done. cbn [fst snd].
      rewrite length_app, (assoc_L (++)). cbn [length].
      split; [f_equal; lia|]. split; [lia|]. split.
      * intros r [Hr| ->%list_elem_of_singleton]%elem_of_app.
        -- destruct (Hrows r Hr) as (obs' & Hin & ->).
           exists obs'. split; [|done]. apply elem_of_app. by left.
        -- exists obs. split; [|done]. apply elem_of_app. right. left.
      * intros obs' [Hin| ->%list_elem_of_singleton]%elem_of_app.
        -- destruct (Hall obs' Hin) as [Hnew|Hex].
           ++ left. apply elem_of_app. by left.
           ++ right. apply Exists_app. by left.
        -- left. apply elem_of_app. right. left.
Qed.

(** X18. [FREDDatabase.insert_observations] only appends to
    [observations]: no stored row is changed or removed, the number it
    returns is the number of rows it appended, at most the number offered,
    every appended row is the row bound for an offered observation, and
    every offered observation is appended or finds its key stored. *)
Theorem insert_observations_only_appends (sid : string) (obss : list json_object)
    (w : world) :
  ∃ new,
    insert_observations sid obss w
    = (Ok (length new),
       World (Database (series_metadata (db w)) (observations (db w) ++ new)
                       (extraction_log (db w)))
             (requests w)) ∧
    (length new ≤ length obss)%nat ∧
    (∀ r, r ∈ new → ∃ obs, obs ∈ obss ∧ r = observation_params sid obs) ∧
    (∀ obs, obs ∈ obss →
       observation_params sid obs ∈ new ∨
       Exists (conflicts (observation_params sid obs)) (observations (db w) ++ new)).
Proof.
  destruct (foldl_insert_observation_appends sid obss 0 (observations (db w)))
    as (new & Hfold & Hrest).
  exists new. split; [|done].
  unfold insert_observations, mbind, prog_bind, bind, read_db. cbn. by rewrite Hfold.
Qed.

End package_observations.

(** ** One extraction through the package (fred_extractor.py) *)
Section package_outcomes.
Import Package ObservationStore.
Context (env : environment).

Lemma unique_key_snoc t r :
  unique_key t → ¬ Exists (conflicts r) t → unique_key (t ++ [r]).
Proof.
  intros Hu Hr i j r1 r2 Hlt Hi Hj Hc.
  assert (j < length (t ++ [r]))%nat as Hlen by by eapply lookup_lt_Some.
  rewrite length_app in Hlen. cbn [length] in Hlen.
  rewrite lookup_app_l in Hi by lia.
  destruct (decide (j < length t)%nat) as [Hjt|Hjt].
  - rewrite lookup_app_l in Hj by done. by apply (Hu i j r1 r2).
  - rewrite lookup_app_r in Hj by lia.
    replace (j - length t)%nat with 0%nat in Hj by lia. injection Hj as <-.
    apply Hr. apply Exists_exists. exists r2. split; [|done].
    by eapply list_elem_of_lookup_2.
Qed.

Lemma foldl_insert_observation_unique sid obss acc :
  unique_key acc.2 → unique_key (foldl (insert_observation sid) acc obss).2.
Proof.
  revert acc. induction obss as [|obs obss IH]; intros acc Hu; [done|].
  cbn [foldl]. apply IH.
  destruct (decide (Exists (conflicts (observation_params sid obs)) acc.2)) as [Hc|Hc].
  - by rewrite insert_observation_ignored.
  - rewrite insert_observation_inserted by done. by apply unique_key_snoc.
Qed.

(** The table [observations] after one call of [extract_series]: the
    observations that were fetched and offered, if any, went through
    insert-or-ignore one by one. *)
Lemma extract_series_observations sid start_date end_date force_update w :
  ∃ obss,
    observations (db (extract_series env sid start_date end_date force_update w).2)
    = (foldl (insert_observation sid) (0%nat, observations (db w)) obss).2.
Proof.
  destruct (skipped sid force_update w) eqn:Hskip.
  - rewrite extract_series_skipped by done. by exists [].
  - rewrite extract_series_eq by done. cbn zeta.
    destruct (get_series_info env sid w).1 as [info|e]; [|by exists []].
    destruct (metadata_write_ok env info); [|by exists []].
    destruct (http_get env _ _) as [data|e]; [|by exists []].
    destruct (default [] (observations_of data)) as [|obs obss] eqn:Hobs; [by exists []|].
    by exists (obs :: obss).
Qed.

(** What one call of [extract_series] returns, logs and requests. *)
Lemma extract_series_outcome sid start_date end_date force_update w :
  ∃ b w',
    extract_series env sid start_date end_date force_update w = (Ok b, w') ∧
    (if skipped sid force_update w then b = true ∧ w' = w
     else ∃ n msg,
         extraction_log (db w')
         = extraction_log (db w) ++ [LogRow sid (if b then "success" else "failed") n msg]) ∧
    (∃ sent, requests w' = requests w ++ sent ∧
             (sent = [] ∨ sent = [info_request sid] ∨
              sent = [info_request sid; observations_request sid start_date end_date])).
Proof.
  destruct (skipped sid force_update w) eqn:Hskip.
  - rewrite extract_series_skipped by done. exists true, w. split; [done|]. split; [done|].
    exists []. rewrite app_nil_r. split; [done|by left].
  - rewrite extract_series_eq by done. cbn zeta.
    destruct (get_series_info env sid w).1 as [info|e].
    2:{ eexists false, _. split; [done|]. split; [by eexists _, _|].
        exists [info_request sid]. split; [done|]. right. by left. }
    destruct (metadata_write_ok env info).
    2:{ eexists false, _. split; [done|]. split; [by eexists _, _|].
        exists [info_request sid]. split; [done|]. right. by left. }
    destruct (http_get env _ _) as [data|e].
    2:{ eexists false, _. split; [done|]. split; [by eexists _, _|].
        exists [info_request sid; observations_request sid start_date end_date].
        cbn. rewrite <- (assoc_L (++)). split; [done|]. right. by right. }
    destruct (default [] (observations_of data)) as [|obs obss] eqn:Hobs.
    + eexists true, _. split; [done|]. split; [by eexists _, _|].
      exists [info_request sid; observations_request sid start_date end_date].
      cbn. rewrite <- (assoc_L (++)). split; [done|]. right. by right.
    + eexists true, _. split; [done|]. split; [by eexists _, _|].
      exists [info_request sid; observations_request sid start_date end_date].
      cbn. rewrite <- (assoc_L (++)). split; [done|]. right. by right.
Qed.

Lemma replace_metadata_id (info : json_object) d i :
  info !! "id" = Some i → Some i ∈ id <$> series_metadata (replace_metadata info d).
Proof.
  intros Hid. unfold replace_metadata. cbn [series_metadata].
  rewrite fmap_app, elem_of_app. right. cbn. rewrite Hid. left.
Qed.

Lemma extract_series_metadata sid start_date end_date force_update w info :
  skipped sid force_update w = false →
  (get_series_info env sid w).1 = Ok info →
  metadata_write_ok env info = true →
  series_metadata (db (extract_series env sid start_date end_date force_update w).2)
  = series_metadata (replace_metadata info (db w)).
Proof.
  intros Hskip Hinfo Hok. rewrite extract_series_eq by done. cbn zeta.
  rewrite Hinfo, Hok.
  destruct (http_get env _ _) as [data|e]; [|done].
  by destruct (default [] (observations_of data)).
Qed.

End package_outcomes.

Section package_theorems.
Import Package ObservationStore.

(** X19. The uniqueness of (series_id, date, realtime_start,
    realtime_end) in [observations] is kept: when no stored row conflicts
    with an earlier one, none does after [insert_observations], and none
    does after [extract_series]. *)
Theorem observation_keys_stay_unique (env : environment) (sid : string)
    (obss : list json_object) (start_date end_date : option string)
    (force_update : bool) (w : world) :
  unique_key (observations (db w)) →
  unique_key (observations (db (insert_observations sid obss w).2)) ∧
  unique_key
    (observations (db (extract_series env sid start_date end_date force_update w).2)).
Proof.
  intros Hu. split.
  - rewrite package_insert_observations_eq. by apply foldl_insert_observation_unique.
  - destruct (extract_series_observations env sid start_date end_date force_update w)
      as [obss' ->].
    by apply foldl_insert_observation_unique.
Qed.

Lemma observation_keys_stay_unique_witness :
  unique_key
    (observations
       (db (insert_observations "X"
              [Samples.missing_observation; Samples.missing_observation]
              Samples.package_world_with_value).2)).
Proof.
  apply (observation_keys_stay_unique Samples.package_env_refusing "X"
           [Samples.missing_observation; Samples.missing_observation] None None false
           Samples.package_world_with_value).
  intros i j r r' Hlt Hi Hj. cbn in Hi, Hj.
  destruct j as [|j]; [lia|]. destruct i; discriminate Hj.
Defined.

(** X20. A series whose metadata was stored is not fetched again: after a
    call of [extract_series] in which the metadata lookup answered with the
    requested id and the store took the row, every later call without
    [force_update] returns True at once and changes nothing, whether the
    observations were fetched in the first call or their fetch failed. *)
Theorem stored_series_is_skipped_afterwards (env : environment) (sid : string)
    (start_date end_date : option string) (force_update : bool) (w : world)
    (info : json_object) :
  skipped sid force_update w = false →
  (get_series_info env sid w).1 = Ok info →
  metadata_write_ok env info = true →
  info !! "id" = Some sid →
  let w1 := (extract_series env sid start_date end_date force_update w).2 in
  ∀ start_date' end_date',
    extract_series env sid start_date' end_date' false w1 = (Ok true, w1).
Proof.
  intros Hskip Hinfo Hok Hid w1 start_date' end_date'.
  apply extract_series_skipped. unfold skipped. rewrite andb_true_r.
  apply bool_decide_eq_true_2. apply elem_of_remove_dups.
  subst w1. erewrite extract_series_metadata by done. by apply replace_metadata_id.
Qed.

Lemma stored_series_is_skipped_afterwards_witness :
  let env := Fixtures.package_env_no_observations in
  let w1 := (extract_series env "GDP" None None false Samples.package_empty_world).2 in
  status <$> extraction_log (db w1) = ["failed"] ∧
  extract_series env "GDP" None None false w1 = (Ok true, w1).
Proof.
  intros env w1. split; [by vm_compute|].
  apply (stored_series_is_skipped_afterwards env "GDP" None None false
           Samples.package_empty_world {[ "id" := "GDP" ]}).
  - by vm_compute.
  - by vm_compute.
  - done.
  - done.
Defined.

(** X21. [extract_series] never raises, and what it returns agrees with
    what it logs: a skipped call returns True and changes nothing; any other
    call appends one log row for the series, with status 'success' when it
    returns True and 'failed' when it returns False.  It sends no request,
    the metadata request alone, or the metadata request followed by the
    observations request with the dates it was given. *)
Theorem extract_series_result_matches_log (env : environment) (sid : string)
    (start_date end_date : option string) (force_update : bool) (w : world) :
  ∃ b w',
    extract_series env sid start_date end_date force_update w = (Ok b, w') ∧
    (if skipped sid force_update w then b = true ∧ w' = w
     else ∃ n msg,
         extraction_log (db w')
         = extraction_log (db w) ++ [LogRow sid (if b then "success" else "failed") n msg]) ∧
    (∃ sent, requests w' = requests w ++ sent ∧
             (sent = [] ∨ sent = [info_request sid] ∨
              sent = [info_request sid; observations_request sid start_date end_date])).
Proof. apply extract_series_outcome. Qed.

(** X22. [insert_series_metadata] keeps one row per id: when the store
    takes the write of an object with id i, the call returns True, the row
    of i is the new one and the only one, the rows of the other ids stay as
    they are, and [get_series_list] lists i. *)
Theorem insert_series_metadata_replaces (env : environment) (series_data : json_object)
    (w : world) (i : string) :
  series_data !! "id" = Some i →
  metadata_write_ok env series_data = true →
  let w' := (insert_series_metadata env series_data w).2 in
  insert_series_metadata env series_data w = (Ok true, w') ∧
  filter (λ r, id r = Some i) (series_metadata (db w'))
  = [MetadataRow (Some i) ((λ k, series_data !! k) <$> metadata_fields)] ∧
  filter (λ r, id r ≠ Some i) (series_metadata (db w'))
  = filter (λ r, id r ≠ Some i) (series_metadata (db w)) ∧
  observations (db w') = observations (db w) ∧
  ∃ l, get_series_list w' = (Ok l, w') ∧ Some i ∈ l.
Proof.
  intros Hid Hok. unfold insert_series_metadata. rewrite Hok.
  unfold mbind, prog_bind, bind, write_db, mret, prog_ret, ret. cbn [snd fst db].
  unfold replace_metadata. cbn [series_metadata observations]. rewrite Hid.
  split; [done|]. split; [|split; [|split; [done|]]].
  - rewrite filter_app, list_filter_filter, (filter_singleton_True _ _ []) by done.
    replace (filter _ (series_metadata (db w))) with (@nil metadata_row); [done|].
    symmetry. induction (series_metadata (db w)) as [|r l IH]; [done|].
    rewrite filter_cons_False; [done|]. intros [Hr Hn]. apply Hn. split; [by eexists|done].
  - rewrite filter_app, list_filter_filter, (filter_singleton_False _ _ []), app_nil_r
      by (cbn; tauto).
    apply list_filter_iff. intros r. split; [tauto|]. intros Hr. split; [done|].
    intros [_ Heq]. done.
  - rewrite get_series_list_eq. eexists. split; [done|].
    apply elem_of_remove_dups. cbn [db series_metadata].
    rewrite fmap_app, elem_of_app. right. left.
Qed.

Lemma insert_series_metadata_replaces_witness :
  let data : json_object := {[ "id" := "GDP"; "title" := "GDP, revised" ]} in
  let w' := (insert_series_metadata Samples.package_env_refusing data
               Samples.package_world_with_gdp).2 in
  length (series_metadata (db w')) = 1%nat ∧
  filter (λ r, id r = Some "GDP") (series_metadata (db w'))
  = [MetadataRow (Some "GDP") ((λ k, data !! k) <$> metadata_fields)].
Proof.
  intros data w'. split; [by vm_compute|].
  destruct (insert_series_metadata_replaces Samples.package_env_refusing data
              Samples.package_world_with_gdp "GDP") as (_ & Hrow & _); [done|done|].
  exact Hrow.
Defined.

End package_theorems.

Section package_loop.
Import Package ObservationStore.
Context (env : environment).

Lemma extract_loop_spec series_ids start_date end_date force_update results w :
  ∃ results' w' new,
    extract_loop env series_ids start_date end_date force_update results w
    = (Ok results', w') ∧
    (∀ sid, is_Some (results' !! sid) ↔ sid ∈ series_ids ∨ is_Some (results !! sid)) ∧
    extraction_log (db w') = extraction_log (db w) ++ new ∧
    (length new ≤ length series_ids)%nat ∧
    (∀ sid, results' !! sid = Some false →
       results !! sid = Some false ∨
       ∃ entry, entry ∈ new ∧ log_series_id entry = sid ∧ status entry = "failed") ∧
    (unique_key (observations (db w)) → unique_key (observations (db w'))).
Proof.
  revert results w. induction series_ids as [|sid rest IH]; intros results w.
  - exists results, w, []. cbn. rewrite app_nil_r. split; [done|]. split.
    { intros sid. rewrite elem_of_nil. tauto. }
    split; [done|]. split; [done|]. split; [by left|done].
  - cbn [extract_loop]. unfold mbind, prog_bind, bind.
    destruct (extract_series_outcome env sid start_date end_date force_update w)
      as (b & w1 & Hcall & Hlog & _).
    pose proof (extract_series_observations env sid start_date end_date force_update w)
      as [obss Hobs].
    rewrite Hcall in Hobs |- *. cbn [snd] in Hobs.
    destruct (IH (<[sid := b]> results) w1)
      as (results' & w' & new & -> & Hdom & Hnew & Hlen & Hfalse & Hunique).
    assert (∃ first, extraction_log (db w1) = extraction_log (db w) ++ first ∧
                     (length first ≤ 1)%nat ∧
                     (b = false → ∃ entry, entry ∈ first ∧ log_series_id entry = sid ∧
                                           status entry = "failed"))
      as (first & Hfirst & Hlen1 & Hfailed).
    { destruct (skipped sid force_update w).
      - destruct Hlog as [-> ->]. exists []. rewrite app_nil_r. split; [done|].
        split; [cbn; lia|done].
      - destruct Hlog as (n & msg & ->). eexists. split; [done|]. split; [cbn; lia|].
        intros ->. eexists. split; [left|done]. }
    exists results', w', (first ++ new). split; [done|]. split; [|split; [|split; [|split]]].
    + intros sid'. rewrite Hdom, elem_of_cons.
      destruct (decide (sid' = sid)) as [->|Hne].
      * rewrite lookup_insert_eq. split; [by left; left|by intros _; right].
      * rewrite lookup_insert_ne by done.
        split; [intros [?|?]; [left; by right|by right]|intros [[?|?]|?]; [done|by left|by right]].
    + by rewrite Hnew, Hfirst, (assoc_L (++)).
    + rewrite length_app. cbn [length]. lia.
    + intros sid' Hres. destruct (Hfalse sid' Hres) as [Hins|(entry & Hin & Hs & Hst)].
      * destruct (decide (sid' = sid)) as [->|Hne].
        -- rewrite lookup_insert_eq in Hins. injection Hins as ->.
           destruct (Hfailed eq_refl) as (entry & Hin & Hs & Hst).
           right. exists entry. split; [|done]. apply elem_of_app. by left.
        -- rewrite lookup_insert_ne in Hins by done. by left.
      * right. exists entry. split; [|done]. apply elem_of_app. by right.
    + intros Hu. apply Hunique. rewrite Hobs. by apply foldl_insert_observation_unique.
Qed.

End package_loop.

(** X23. [extract_multiple_series] never raises and reports on exactly
    the requested series: the dictionary it returns has an entry for every
    requested id and for no other; it appends at most one log row per
    requested id; every id reported False has a 'failed' row in the rows
    appended; and it keeps the uniqueness of the keys of [observations]. *)
Theorem extract_multiple_series_reports (env : Package.environment)
    (series_ids : list string) (start_date end_date : option string)
    (force_update : bool) (w : Package.world) :
  ∃ results w' new,
    Package.extract_multiple_series env series_ids start_date end_date force_update w
    = (Ok results, w') ∧
    (∀ sid, is_Some (results !! sid) ↔ sid ∈ series_ids) ∧
    Package.extraction_log (Package.db w')
    = Package.extraction_log (Package.db w) ++ new ∧
    (length new ≤ length series_ids)%nat ∧
    (∀ sid, results !! sid = Some false →
       ∃ entry, entry ∈ new ∧ Package.log_series_id entry = sid ∧
                Package.status entry = "failed") ∧
    (ObservationStore.unique_key (Package.observations (Package.db w)) →
     ObservationStore.unique_key (Package.observations (Package.db w'))).
Proof.
  unfold Package.extract_multiple_series.
  destruct (extract_loop_spec env series_ids start_date end_date force_update ∅ w)
    as (results & w' & new & Hrun & Hdom & Hlog & Hlen & Hfalse & Hunique).
  exists results, w', new. split; [done|]. split; [|split; [done|split; [done|split; [|done]]]].
  - intros sid. rewrite Hdom, lookup_empty. split; [|by left].
    intros [?|[? [=]]]. done.
  - intros sid Hres. destruct (Hfalse sid Hres) as [Hempty|?]; [|done].
    by rewrite lookup_empty in Hempty.
Qed.

(** ** The date shell of setup_database.py *)
Section date_shell.
Import Transform.

Lemma date_shell_elem d :
  d ∈ Setup.date_shell ↔ ordinal 2018 1 1 ≤ d ≤ ordinal 2030 12 31.
Proof.
  unfold Setup.date_shell. cbn zeta. rewrite list_elem_of_fmap. split.
  - intros (i & -> & Hi%elem_of_seqZ). lia.
  - intros Hd. exists (d - ordinal 2018 1 1). split; [lia|]. apply elem_of_seqZ. lia.
Qed.

Lemma date_shell_NoDup : NoDup Setup.date_shell.
Proof.
  unfold Setup.date_shell. cbn zeta. apply NoDup_fmap_2; [|apply NoDup_seqZ].
  intros i j Hij. lia.
Qed.

(** X24. With the date shell that [setup_database] inserts, the frame
    has exactly one row for every day from 2018-01-01 to 2030-12-31 that is
    not after today, whatever the long rows hold, and no other row. *)
Theorem frame_rows_cover_the_calendar (today : Z) (df : list obs) :
  ∃ wide,
    denormalize_observations today df Setup.date_shell = Ok wide ∧
    NoDup (rows wide).*1 ∧
    StronglySorted Z.le (rows wide).*1 ∧
    ∀ d, d ∈ (rows wide).*1 ↔ ordinal 2018 1 1 ≤ d ≤ ordinal 2030 12 31 ∧ d ≤ today.
Proof.
  pose proof (denormalize_observations_eq today df Setup.date_shell) as Heq.
  eexists. split; [exact Heq|].
  rewrite (denormalize_index today df Setup.date_shell _ Heq).
  split; [|split].
  - apply NoDup_filter. rewrite merge_sort_Permutation. apply date_shell_NoDup.
  - apply StronglySorted_filter, StronglySorted_merge_sort; apply _.
  - intros d. rewrite list_elem_of_filter, merge_sort_Permutation, date_shell_elem. tauto.
Qed.

End date_shell.

(** ** From the provider to the wide table *)
Section end_to_end.
Import LongStore.

Lemma extract_and_store_long_invariant (P : list ExtractScript.long_row → Prop)
    env sid default_start_date w :
  (∀ r t, P t → P (ExtractScript.replace_long r t)) →
  P (ExtractScript.fred_data_long (ExtractScript.db w)) →
  P (ExtractScript.fred_data_long
       (ExtractScript.db (ExtractScript.extract_and_store env sid default_start_date w).2)).
Proof.
  intros Hstep Hw.
  destruct (extract_and_store_long env sid default_start_date w) as [data ->].
  revert Hw. generalize (ExtractScript.fred_data_long (ExtractScript.db w)).
  induction data as [|item data IHd]; intros t Ht; [done|].
  cbn [foldl]. apply IHd, Hstep, Ht.
Qed.

Lemma extract_and_store_stores env sid default_start_date w data1 d v data2 :
  ExtractScript.fred_get_series env (ExtractScript.calls w) sid
    (ExtractScript.start_of sid default_start_date w) = Ok (data1 ++ (d, v) :: data2) →
  d ∉ data2.*1 →
  ExtractScript.LongRow sid d (bind_real v)
  ∈ ExtractScript.fred_data_long
      (ExtractScript.db (ExtractScript.extract_and_store env sid default_start_date w).2).
Proof.
  intros Hfetch Hd. rewrite extract_and_store_eq. cbn zeta. rewrite Hfetch.
  cbn [snd ExtractScript.db ExtractScript.append_log ExtractScript.fred_data_long].
  set (d1 := match ExtractScript.fred_get_series_info env _ sid with
             | Ok info => _ | Raise _ => _ end).
  pose proof (insert_observations_last_wins sid d v data1 data2
                (ExtractScript.World d1 (ExtractScript.calls w)) Hd) as Hlast.
  rewrite insert_observations_eq in Hlast. cbn [snd ExtractScript.db] in Hlast.
  assert (ExtractScript.LongRow sid d (bind_real v)
          ∈ [ExtractScript.LongRow sid d (bind_real v)]) as Hin by left.
  rewrite <- Hlast in Hin. by apply list_elem_of_filter in Hin as [_ Hin].
Qed.

Lemma bind_real_float f :
  PrimFloat.is_nan f = false →
  ∃ v, bind_real (PyFloat f) = Some v ∧ (PrimFloat.classify f ≠ NZero → v = f).
Proof.
  intros Hnan. cbn [bind_real]. rewrite Hnan.
  destruct (PrimFloat.classify f); eexists; (split; [reflexivity|]); done.
Qed.

(** X25. From the provider to the wide table: when the provider
    delivers the value f (not NaN) for the date d of a series, last among
    its items for d, [extract_and_store] followed by the transform's [main]
    leaves in the wide table, at the row d and the column of the series, the
    value the long store took for f: f itself, 0.0 for a negative zero.
    This holds provided d is in the date shell and not after today and the
    long store was unique in (series_id, date).  (The column names are
    plain, as in X15.) *)
Theorem extracted_value_reaches_the_wide_table (env : ExtractScript.environment)
    (sid : string) (default_start_date : Z) (w : ExtractScript.world)
    (data1 data2 : list (Z * pyval)) (d : Z) (f : float)
    (shell : list Z) (t : Transform.wide_table) (today : Z) :
  NoDup (long_key <$> ExtractScript.fred_data_long (ExtractScript.db w)) →
  ExtractScript.fred_get_series env (ExtractScript.calls w) sid
    (ExtractScript.start_of sid default_start_date w)
  = Ok (data1 ++ (d, PyFloat f) :: data2) →
  d ∉ data2.*1 →
  PrimFloat.is_nan f = false →
  d ∈ shell → d ≤ today →
  let w' := (ExtractScript.extract_and_store env sid default_start_date w).2 in
  let s := TransformMain.Store
             (ExtractScript.fred_data_long (ExtractScript.db w')) shell t in
  ColumnNames.plain_names
    (Transform.table_columns t
     ++ ((λ r, Transform.fred_col (ExtractScript.series_id r))
           <$> TransformMain.fred_data_long s)) →
  ∃ s',
    TransformMain.main today s = (Ok tt, s') ∧
    Transform.cell (Transform.table_rows (TransformMain.fred_data_wide s')) d
      (Transform.fred_col sid) = bind_real (PyFloat f) ∧
    (PrimFloat.classify f ≠ NZero →
     Transform.cell (Transform.table_rows (TransformMain.fred_data_wide s')) d
       (Transform.fred_col sid) = Some f).
Proof.
  intros Hnd Hfetch Hd Hnan Hshell Htoday w' s _.
  destruct (bind_real_float f Hnan) as (v & Hv & Hsame).
  destruct (main_materializes today s sid d d v) as (Hmain & _ & Hcell).
  - subst s w'. cbn [TransformMain.fred_data_long].
    apply (extract_and_store_long_invariant (λ t, NoDup (long_key <$> t))); [|done].
    intros r t0. apply replace_long_NoDup.
  - subst s w'. cbn [TransformMain.fred_data_long].
    pose proof (extract_and_store_stores env sid default_start_date w data1 d
                  (PyFloat f) data2 Hfetch Hd) as Hin.
    by rewrite Hv in Hin.
  - done.
  - done.
  - lia.
  - done.
  - intros r _ _ Hrange. lia.
  - exists (TransformMain.main today s).2. split; [done|]. rewrite Hcell, Hv.
    split; [done|]. intros Hz. by rewrite Hsame.
Qed.

Lemma extracted_value_reaches_the_wide_table_witness :
  let w' := (ExtractScript.extract_and_store Fixtures.script_env_up "A" 0
               Fixtures.script_world_two_series).2 in
  let s := TransformMain.Store (ExtractScript.fred_data_long (ExtractScript.db w'))
             [11; 12; 13] (Transform.WideTable ["date"] ∅) in
  ∃ s',
    TransformMain.main 20 s = (Ok tt, s') ∧
    Transform.cell (Transform.table_rows (TransformMain.fred_data_wide s')) 12
      (Transform.fred_col "A") = Some 1%float.
Proof.
  destruct (extracted_value_reaches_the_wide_table Fixtures.script_env_up "A" 0
              Fixtures.script_world_two_series [] [(13, PyNone)] 12 1%float
              [11; 12; 13] (Transform.WideTable ["date"] ∅) 20)
    as (s' & Hmain & _ & Hcell).
  - cbn. compute_done.
  - reflexivity.
  - cbn. compute_done.
  - reflexivity.
  - compute_done.
  - lia.
  - vm_compute. compute_done.
  - exists s'. split; [exact Hmain|]. apply Hcell. vm_compute. discriminate.
Defined.

End end_to_end.
